(** * devtunnel-tui: the interactive state machine and its process runner

    A shallow embedding of the two programs of the repository,
    [src/main.go] (a single command list, module [MainGo]) and
    [src/unnamed/part_000] (commands grouped in categories, with a filter and
    a raw command line, module [Part000]), and the properties of their
    [Update] and [View] functions.

    Both programs are Bubble Tea models: [Update] takes the model and one
    message and returns the next model together with a command, a function
    that the runtime calls off the event loop and whose result comes back as a
    later message. *)

From Stdlib Require Import ZArith List String Ascii Bool Lia DecimalString.
Import ListNotations.
Local Open Scope string_scope.
Local Open Scope Z_scope.

(** ** Go values *)

(** [int] is 64 bits wide on the platforms the program is built for;
    additions and subtractions wrap around. *)
Definition wrap64 (z : Z) : Z := (z + 2 ^ 63) mod 2 ^ 64 - 2 ^ 63.
Definition int_add (a b : Z) : Z := wrap64 (a + b).
Definition int_sub (a b : Z) : Z := wrap64 (a - b).
Definition int_range (z : Z) : Prop := - 2 ^ 63 <= z < 2 ^ 63.

(** [len] of a slice. *)
Definition len {A : Type} (l : list A) : Z := Z.of_nat (List.length l).

(** [func max(a, b int) int] and [func min(a, b int) int], defined in both
    programs. *)
Definition max (a b : Z) : Z := if a >? b then a else b.
Definition min (a b : Z) : Z := if a <? b then a else b.

(** A run-time panic (index out of range, nil dereference) ends the program;
    [Panic] stands for it. *)
Inductive result (A : Type) : Type :=
| Ok (a : A)
| Panic.
Arguments Ok {A} a.
Arguments Panic {A}.

Definition bind {A B : Type} (r : result A) (k : A -> result B) : result B :=
  match r with
  | Ok a => k a
  | Panic => Panic
  end.

Notation "x <- e ;; k" := (bind e (fun x => k))
  (at level 61, e at next level, right associativity).

(** [s[i]]: reading a slice at an index. *)
Definition idx {A : Type} (l : list A) (i : Z) : result A :=
  if i <? 0 then Panic
  else match nth_error l (Z.to_nat i) with
       | Some a => Ok a
       | None => Panic
       end.

Fixpoint replace_nth {A : Type} (l : list A) (n : nat) (a : A) : list A :=
  match l, n with
  | [], _ => []
  | _ :: t, O => a :: t
  | h :: t, S n' => h :: replace_nth t n' a
  end.

(** [s[i] = a]: writing a slice at an index. *)
Definition store {A : Type} (l : list A) (i : Z) (a : A) : result (list A) :=
  if (i <? 0) || (len l <=? i) then Panic
  else Ok (replace_nth l (Z.to_nat i) a).

(** ** The [strings] package

    Strings are sequences of bytes.  Case folding and white space follow the
    ASCII part of the Go functions; bytes from 128 up are kept as they are. *)

Definition isSpace (c : ascii) : bool :=
  let n := nat_of_ascii c in
  ((9 <=? n) && (n <=? 13))%nat || (n =? 32)%nat.

Definition lowerByte (c : ascii) : ascii :=
  let n := nat_of_ascii c in
  if ((65 <=? n) && (n <=? 90))%nat then ascii_of_nat (n + 32) else c.

Fixpoint ToLower (s : string) : string :=
  match s with
  | EmptyString => EmptyString
  | String c s' => String (lowerByte c) (ToLower s')
  end.

Fixpoint TrimLeft (s : string) : string :=
  match s with
  | EmptyString => EmptyString
  | String c s' => if isSpace c then TrimLeft s' else s
  end.

Fixpoint TrimRight (s : string) : string :=
  match s with
  | EmptyString => EmptyString
  | String c s' =>
      match TrimRight s' with
      | EmptyString => if isSpace c then EmptyString else String c EmptyString
      | r => String c r
      end
  end.

Definition TrimSpace (s : string) : string := TrimRight (TrimLeft s).

(** [strings.Fields]: the maximal runs of bytes that are not white space. *)
Fixpoint Fields (s : string) : list string :=
  match s with
  | EmptyString => []
  | String c s' =>
      if isSpace c then Fields s'
      else
        match s' with
        | EmptyString => [String c EmptyString]
        | String c' _ =>
            if isSpace c' then String c EmptyString :: Fields s'
            else
              match Fields s' with
              | w :: ws => String c w :: ws
              | [] => [String c EmptyString]
              end
        end
  end.

Fixpoint Join (l : list string) (sep : string) : string :=
  match l with
  | [] => ""
  | [x] => x
  | x :: rest => x ++ sep ++ Join rest sep
  end.

Fixpoint HasPrefix (s p : string) : bool :=
  match p, s with
  | EmptyString, _ => true
  | String _ _, EmptyString => false
  | String a p', String b s' => Ascii.eqb a b && HasPrefix s' p'
  end.

(** [strings.Contains]: [sub] starts at some position of [s]. *)
Fixpoint Contains (s sub : string) : bool :=
  HasPrefix s sub ||
  match s with
  | EmptyString => false
  | String _ s' => Contains s' sub
  end.

(** The mathematical reading of "is a substring of". *)
Definition Substring (sub s : string) : Prop :=
  exists pre post : string, s = pre ++ sub ++ post.

(** ** Bubble Tea: keys, messages and commands *)

(** [tea.KeyType], the key types that the two programs and their widgets
    tell apart. *)
Inductive KeyType : Type :=
| KeyRunes | KeyEnter | KeyEsc | KeyCtrlC
| KeyUp | KeyDown | KeyLeft | KeyRight
| KeyPgUp | KeyPgDown | KeyBackspace | KeyTab | KeySpace.

(** [tea.KeyMsg]: the key type, the typed characters of a [KeyRunes] key and
    the Alt modifier. *)
Record Key : Type := mkKey {
  Type_ : KeyType;
  Runes : string;
  Alt : bool
}.

Definition keyName (t : KeyType) : string :=
  match t with
  | KeyRunes => ""
  | KeyEnter => "enter"
  | KeyEsc => "esc"
  | KeyCtrlC => "ctrl+c"
  | KeyUp => "up"
  | KeyDown => "down"
  | KeyLeft => "left"
  | KeyRight => "right"
  | KeyPgUp => "pgup"
  | KeyPgDown => "pgdown"
  | KeyBackspace => "backspace"
  | KeyTab => "tab"
  | KeySpace => " "
  end.

(** [func (k Key) String() string]. *)
Definition keyString (k : Key) : string :=
  (if Alt k then "alt+" else "") ++
  match Type_ k with
  | KeyRunes => Runes k
  | t => keyName t
  end.

Definition typed (s : string) : Key := mkKey KeyRunes s false.
Definition pressed (t : KeyType) : Key := mkKey t "" false.

(** Go [error] values that reach the model; [nil] is [None]. *)
Inductive GoError : Type :=
| ErrNotFound           (* exec.LookPath found nothing *)
| ErrStart              (* the executable could not be started *)
| ErrExit (code : Z)    (* non-zero exit status *)
| ErrKilled             (* the child was killed *)
| DeadlineExceeded.     (* context.DeadlineExceeded *)

(** The messages [Update] receives.  [runFinishedMsg] is called
    [runResultMsg] in [src/main.go]. *)
Inductive Msg : Type :=
| KeyMsg (k : Key)
| WindowSizeMsg (Width Height : Z)
| spinnerTickMsg
| runStartedMsg (cmdText : string)
| runFinishedMsg (cmdText output : string) (err : option GoError)
| QuitMsg
| widgetMsg.            (* cursor blink, mouse, paste: consumed by widgets *)

(** Commands that the widgets hand back to the runtime. *)
Inductive WidgetCmd : Type :=
| Blink
| SpinnerTick
| Paste.

(** A [tea.Cmd] is a [func() tea.Msg]; these are the functions the programs
    build.  [Exec] is the second closure of [runCommandCmd]: it carries the
    deadline (in nanoseconds) and the notice of the program that built it. *)
Inductive Thunk : Type :=
| ThQuit
| ThWidget (w : WidgetCmd)
| ThStarted (cmdText : string)
| ThExec (deadline : Z) (notice : string) (parts : list string) (cmdText : string)
| ThLookPath (notFound found : string).

(** [nil], a single function, [tea.Sequence] and [tea.Batch]. *)
Inductive Cmd : Type :=
| CmdNil
| CmdFunc (t : Thunk)
| CmdSequence (ts : list Thunk)
| CmdBatch (ts : list Thunk).

Definition tea_Quit : Cmd := CmdFunc ThQuit.
Definition textinput_Blink : Cmd := CmdFunc (ThWidget Blink).
Definition spinner_Tick : Cmd := CmdFunc (ThWidget SpinnerTick).

Definition widgetCmd (c : option WidgetCmd) : Cmd :=
  match c with
  | None => CmdNil
  | Some w => CmdFunc (ThWidget w)
  end.

Definition thunks (c : Cmd) : list Thunk :=
  match c with
  | CmdNil => []
  | CmdFunc t => [t]
  | CmdSequence ts => ts
  | CmdBatch ts => ts
  end.

Definition isExec (t : Thunk) : bool :=
  match t with
  | ThExec _ _ _ _ => true
  | _ => false
  end.

(** The command starts a child process. *)
Definition invokesRunner (c : Cmd) : bool := existsb isExec (thunks c).

(** ** The world outside: the search path and the child processes *)

(** What a child process does when left alone: how long it runs (in
    nanoseconds), what it has written to the merged standard output and
    standard error by a given time, and the error [Run] reports at its end. *)
Record Child : Type := mkChild {
  elapsed : Z;
  capturedBy : Z -> string;
  exitErr : option GoError
}.

Record World : Type := mkWorld {
  lookPath : string -> bool;
  spawn : list string -> Child
}.

(** [exec.CommandContext(ctx, ...).Run()] under [context.WithTimeout]: the
    text of the output buffer, the error of [Run], and whether [ctx.Err()] is
    [context.DeadlineExceeded] afterwards.  A child that outlives the
    deadline is killed at the deadline. *)
Definition commandRun (deadline : Z) (c : Child) : string * option GoError * bool :=
  if deadline <? elapsed c
  then (capturedBy c deadline, Some ErrKilled, true)
  else (capturedBy c (elapsed c), exitErr c, false).

(** Calling a command function: the message it returns. *)
Definition fire (w : World) (t : Thunk) : Msg :=
  match t with
  | ThQuit => QuitMsg
  | ThWidget SpinnerTick => spinnerTickMsg
  | ThWidget _ => widgetMsg
  | ThStarted cmdText => runStartedMsg cmdText
  | ThExec deadline notice parts cmdText =>
      let '(out, err, expired) := commandRun deadline (spawn w parts) in
      if expired
      then runFinishedMsg cmdText (out ++ notice) (Some DeadlineExceeded)
      else runFinishedMsg cmdText out err
  | ThLookPath notFound found =>
      if lookPath w "devtunnel"
      then runFinishedMsg "which devtunnel" found None
      else runFinishedMsg "which devtunnel" notFound (Some ErrNotFound)
  end.

(** ** The Bubbles widgets

    The text input, the viewport and the spinner come from the Bubbles
    library.  The fields the programs read and write are modelled; what the
    widgets do with a key (editing, scrolling) is a parameter, [Bubbles]. *)

Record textinput : Type := mkTextinput {
  tiValue : string;
  tiFocus : bool;
  Placeholder : string;
  Prompt : string;
  CharLimit : Z;
  tiWidth : Z
}.

Definition textinput_New : textinput := mkTextinput "" false "" "> " 0 0.
Definition Value (t : textinput) : string := tiValue t.
(** [SetValue]; the programs only ever set the empty string. *)
Definition SetValue (s : string) (t : textinput) : textinput :=
  mkTextinput s (tiFocus t) (Placeholder t) (Prompt t) (CharLimit t) (tiWidth t).
Definition Focus (t : textinput) : textinput :=
  mkTextinput (tiValue t) true (Placeholder t) (Prompt t) (CharLimit t) (tiWidth t).
Definition Blur (t : textinput) : textinput :=
  mkTextinput (tiValue t) false (Placeholder t) (Prompt t) (CharLimit t) (tiWidth t).

Record viewportModel : Type := mkViewport {
  vpWidth : Z;
  vpHeight : Z;
  vpContent : string;
  YOffset : Z
}.

Definition Spinner : Type := Z.

Class Bubbles : Type := {
  (** [textinput.Model.Update] on a key *)
  textinput_Update : Key -> textinput -> textinput * option WidgetCmd;
  (** the scroll offset after [viewport.Model.Update] *)
  viewport_scroll : Msg -> viewportModel -> Z;
  (** the scroll offset after [SetContent] *)
  viewport_refit : string -> viewportModel -> Z;
  (** the scroll offset after [HalfViewUp] and [HalfViewDown] *)
  viewport_halfUp : viewportModel -> Z;
  viewport_halfDown : viewportModel -> Z;
  (** [spinner.Model.Update] *)
  spinner_Update : Msg -> Spinner -> Spinner * option WidgetCmd
}.

Section Viewport.
Context {B : Bubbles}.

Definition viewport_New (w h : Z) : viewportModel := mkViewport w h "" 0.
Definition set_vpWidth (w : Z) (v : viewportModel) : viewportModel :=
  mkViewport w (vpHeight v) (vpContent v) (YOffset v).
Definition set_vpHeight (h : Z) (v : viewportModel) : viewportModel :=
  mkViewport (vpWidth v) h (vpContent v) (YOffset v).
Definition set_YOffset (y : Z) (v : viewportModel) : viewportModel :=
  mkViewport (vpWidth v) (vpHeight v) (vpContent v) y.
Definition SetContent (s : string) (v : viewportModel) : viewportModel :=
  mkViewport (vpWidth v) (vpHeight v) s (viewport_refit s v).
Definition GotoTop (v : viewportModel) : viewportModel := set_YOffset 0 v.
Definition HalfViewUp (v : viewportModel) : viewportModel :=
  set_YOffset (viewport_halfUp v) v.
Definition HalfViewDown (v : viewportModel) : viewportModel :=
  set_YOffset (viewport_halfDown v) v.
(** [viewport.Model.Update]; its command is [nil] unless high performance
    rendering is switched on, which the programs never do. *)
Definition viewport_Update (msg : Msg) (v : viewportModel) : viewportModel :=
  set_YOffset (viewport_scroll msg v) v.
End Viewport.

Definition nl : string := String (ascii_of_nat 10) EmptyString.

Infix "==" := String.eqb (at level 70, no associativity).

(** How the loop over the required fields of a form ends: at the first
    empty one, or with the argument vector built so far. *)
Inductive loopExit : Type :=
| Missing (label : string)
| Collected (args : list string).

Definition KeyType_eqb (a b : KeyType) : bool :=
  match a, b with
  | KeyRunes, KeyRunes | KeyEnter, KeyEnter | KeyEsc, KeyEsc
  | KeyCtrlC, KeyCtrlC | KeyUp, KeyUp | KeyDown, KeyDown
  | KeyLeft, KeyLeft | KeyRight, KeyRight | KeyPgUp, KeyPgUp
  | KeyPgDown, KeyPgDown | KeyBackspace, KeyBackspace
  | KeyTab, KeyTab | KeySpace, KeySpace => true
  | _, _ => false
  end.

(** ** [src/main.go]: one list of commands *)

Module MainGo.

Record commandSpec : Type := mkCommandSpec {
  label : string;
  description : string;
  baseArgs : list string;
  requiredArgs : list string;
  optionalArg : string
}.

Record model : Type := mkModel {
  width : Z;
  height : Z;
  ready : bool;
  devtunnelFound : bool;
  selected : Z;
  commands : list commandSpec;
  spinner : Spinner;
  viewport : viewportModel;
  status : string;
  running : bool;
  showHelp : bool;
  lastCommand : list string;
  lastCommandText : string;
  lastOutput : string;
  inPrompt : bool;
  promptIndex : Z;
  activeCommand : option commandSpec;
  promptInputs : list textinput;
  promptValues : list string;
  currentPrompt : string;
  customCmdInput : textinput
}.

Definition set_width (v : Z) (m : model) : model :=
  mkModel v (height m) (ready m) (devtunnelFound m) (selected m) (commands m)
    (spinner m) (viewport m) (status m) (running m) (showHelp m)
    (lastCommand m) (lastCommandText m) (lastOutput m) (inPrompt m)
    (promptIndex m) (activeCommand m) (promptInputs m) (promptValues m)
    (currentPrompt m) (customCmdInput m).
Definition set_height (v : Z) (m : model) : model :=
  mkModel (width m) v (ready m) (devtunnelFound m) (selected m) (commands m)
    (spinner m) (viewport m) (status m) (running m) (showHelp m)
    (lastCommand m) (lastCommandText m) (lastOutput m) (inPrompt m)
    (promptIndex m) (activeCommand m) (promptInputs m) (promptValues m)
    (currentPrompt m) (customCmdInput m).
Definition set_ready (v : bool) (m : model) : model :=
  mkModel (width m) (height m) v (devtunnelFound m) (selected m) (commands m)
    (spinner m) (viewport m) (status m) (running m) (showHelp m)
    (lastCommand m) (lastCommandText m) (lastOutput m) (inPrompt m)
    (promptIndex m) (activeCommand m) (promptInputs m) (promptValues m)
    (currentPrompt m) (customCmdInput m).
Definition set_devtunnelFound (v : bool) (m : model) : model :=
  mkModel (width m) (height m) (ready m) v (selected m) (commands m)
    (spinner m) (viewport m) (status m) (running m) (showHelp m)
    (lastCommand m) (lastCommandText m) (lastOutput m) (inPrompt m)
    (promptIndex m) (activeCommand m) (promptInputs m) (promptValues m)
    (currentPrompt m) (customCmdInput m).
Definition set_selected (v : Z) (m : model) : model :=
  mkModel (width m) (height m) (ready m) (devtunnelFound m) v (commands m)
    (spinner m) (viewport m) (status m) (running m) (showHelp m)
    (lastCommand m) (lastCommandText m) (lastOutput m) (inPrompt m)
    (promptIndex m) (activeCommand m) (promptInputs m) (promptValues m)
    (currentPrompt m) (customCmdInput m).
Definition set_commands (v : list commandSpec) (m : model) : model :=
  mkModel (width m) (height m) (ready m) (devtunnelFound m) (selected m) v
    (spinner m) (viewport m) (status m) (running m) (showHelp m)
    (lastCommand m) (lastCommandText m) (lastOutput m) (inPrompt m)
    (promptIndex m) (activeCommand m) (promptInputs m) (promptValues m)
    (currentPrompt m) (customCmdInput m).
Definition set_spinner (v : Spinner) (m : model) : model :=
  mkModel (width m) (height m) (ready m) (devtunnelFound m) (selected m)
    (commands m) v (viewport m) (status m) (running m) (showHelp m)
    (lastCommand m) (lastCommandText m) (lastOutput m) (inPrompt m)
    (promptIndex m) (activeCommand m) (promptInputs m) (promptValues m)
    (currentPrompt m) (customCmdInput m).
Definition set_viewport (v : viewportModel) (m : model) : model :=
  mkModel (width m) (height m) (ready m) (devtunnelFound m) (selected m)
    (commands m) (spinner m) v (status m) (running m) (showHelp m)
    (lastCommand m) (lastCommandText m) (lastOutput m) (inPrompt m)
    (promptIndex m) (activeCommand m) (promptInputs m) (promptValues m)
    (currentPrompt m) (customCmdInput m).
Definition set_status (v : string) (m : model) : model :=
  mkModel (width m) (height m) (ready m) (devtunnelFound m) (selected m)
    (commands m) (spinner m) (viewport m) v (running m) (showHelp m)
    (lastCommand m) (lastCommandText m) (lastOutput m) (inPrompt m)
    (promptIndex m) (activeCommand m) (promptInputs m) (promptValues m)
    (currentPrompt m) (customCmdInput m).
Definition set_running (v : bool) (m : model) : model :=
  mkModel (width m) (height m) (ready m) (devtunnelFound m) (selected m)
    (commands m) (spinner m) (viewport m) (status m) v (showHelp m)
    (lastCommand m) (lastCommandText m) (lastOutput m) (inPrompt m)
    (promptIndex m) (activeCommand m) (promptInputs m) (promptValues m)
    (currentPrompt m) (customCmdInput m).
Definition set_showHelp (v : bool) (m : model) : model :=
  mkModel (width m) (height m) (ready m) (devtunnelFound m) (selected m)
    (commands m) (spinner m) (viewport m) (status m) (running m) v
    (lastCommand m) (lastCommandText m) (lastOutput m) (inPrompt m)
    (promptIndex m) (activeCommand m) (promptInputs m) (promptValues m)
    (currentPrompt m) (customCmdInput m).
Definition set_lastCommand (v : list string) (m : model) : model :=
  mkModel (width m) (height m) (ready m) (devtunnelFound m) (selected m)
    (commands m) (spinner m) (viewport m) (status m) (running m) (showHelp m)
    v (lastCommandText m) (lastOutput m) (inPrompt m) (promptIndex m)
    (activeCommand m) (promptInputs m) (promptValues m) (currentPrompt m)
    (customCmdInput m).
Definition set_lastCommandText (v : string) (m : model) : model :=
  mkModel (width m) (height m) (ready m) (devtunnelFound m) (selected m)
    (commands m) (spinner m) (viewport m) (status m) (running m) (showHelp m)
    (lastCommand m) v (lastOutput m) (inPrompt m) (promptIndex m)
    (activeCommand m) (promptInputs m) (promptValues m) (currentPrompt m)
    (customCmdInput m).
Definition set_lastOutput (v : string) (m : model) : model :=
  mkModel (width m) (height m) (ready m) (devtunnelFound m) (selected m)
    (commands m) (spinner m) (viewport m) (status m) (running m) (showHelp m)
    (lastCommand m) (lastCommandText m) v (inPrompt m) (promptIndex m)
    (activeCommand m) (promptInputs m) (promptValues m) (currentPrompt m)
    (customCmdInput m).
Definition set_inPrompt (v : bool) (m : model) : model :=
  mkModel (width m) (height m) (ready m) (devtunnelFound m) (selected m)
    (commands m) (spinner m) (viewport m) (status m) (running m) (showHelp m)
    (lastCommand m) (lastCommandText m) (lastOutput m) v (promptIndex m)
    (activeCommand m) (promptInputs m) (promptValues m) (currentPrompt m)
    (customCmdInput m).
Definition set_promptIndex (v : Z) (m : model) : model :=
  mkModel (width m) (height m) (ready m) (devtunnelFound m) (selected m)
    (commands m) (spinner m) (viewport m) (status m) (running m) (showHelp m)
    (lastCommand m) (lastCommandText m) (lastOutput m) (inPrompt m) v
    (activeCommand m) (promptInputs m) (promptValues m) (currentPrompt m)
    (customCmdInput m).
Definition set_activeCommand (v : option commandSpec) (m : model) : model :=
  mkModel (width m) (height m) (ready m) (devtunnelFound m) (selected m)
    (commands m) (spinner m) (viewport m) (status m) (running m) (showHelp m)
    (lastCommand m) (lastCommandText m) (lastOutput m) (inPrompt m)
    (promptIndex m) v (promptInputs m) (promptValues m) (currentPrompt m)
    (customCmdInput m).
Definition set_promptInputs (v : list textinput) (m : model) : model :=
  mkModel (width m) (height m) (ready m) (devtunnelFound m) (selected m)
    (commands m) (spinner m) (viewport m) (status m) (running m) (showHelp m)
    (lastCommand m) (lastCommandText m) (lastOutput m) (inPrompt m)
    (promptIndex m) (activeCommand m) v (promptValues m) (currentPrompt m)
    (customCmdInput m).
Definition set_promptValues (v : list string) (m : model) : model :=
  mkModel (width m) (height m) (ready m) (devtunnelFound m) (selected m)
    (commands m) (spinner m) (viewport m) (status m) (running m) (showHelp m)
    (lastCommand m) (lastCommandText m) (lastOutput m) (inPrompt m)
    (promptIndex m) (activeCommand m) (promptInputs m) v (currentPrompt m)
    (customCmdInput m).
Definition set_currentPrompt (v : string) (m : model) : model :=
  mkModel (width m) (height m) (ready m) (devtunnelFound m) (selected m)
    (commands m) (spinner m) (viewport m) (status m) (running m) (showHelp m)
    (lastCommand m) (lastCommandText m) (lastOutput m) (inPrompt m)
    (promptIndex m) (activeCommand m) (promptInputs m) (promptValues m) v
    (customCmdInput m).
Definition set_customCmdInput (v : textinput) (m : model) : model :=
  mkModel (width m) (height m) (ready m) (devtunnelFound m) (selected m)
    (commands m) (spinner m) (viewport m) (status m) (running m) (showHelp m)
    (lastCommand m) (lastCommandText m) (lastOutput m) (inPrompt m)
    (promptIndex m) (activeCommand m) (promptInputs m) (promptValues m)
    (currentPrompt m) v.

Definition defaultCommands : list commandSpec := [
  mkCommandSpec "user login" "Authenticate user credentials" ["user"; "login"] [] "";
  mkCommandSpec "user logout" "Remove local credentials" ["user"; "logout"] [] "";
  mkCommandSpec "list" "List tunnels" ["list"] [] "optional args (example: --all)";
  mkCommandSpec "show" "Show tunnel details" ["show"] ["tunnel-id"] "optional args";
  mkCommandSpec "create" "Create a tunnel" ["create"] ["tunnel-id"] "optional args";
  mkCommandSpec "update" "Update tunnel properties" ["update"] ["tunnel-id"] "optional args";
  mkCommandSpec "delete" "Delete one tunnel" ["delete"] ["tunnel-id"] "optional args";
  mkCommandSpec "delete-all" "Delete all tunnels" ["delete-all"] [] "optional args";
  mkCommandSpec "token" "Issue tunnel access token" ["token"] ["tunnel-id"] "optional args";
  mkCommandSpec "set" "Set default tunnel" ["set"] ["tunnel-id"] "optional args";
  mkCommandSpec "unset" "Clear default tunnel" ["unset"] [] "optional args";
  mkCommandSpec "access" "Manage tunnel access control entries" ["access"] [] "subcommand and args";
  mkCommandSpec "port" "Manage tunnel ports" ["port"] [] "subcommand and args";
  mkCommandSpec "host" "Host a tunnel" ["host"] [] "tunnel-id and args (blank = auto-create)";
  mkCommandSpec "connect" "Connect to tunnel" ["connect"] ["tunnel-id"] "optional args";
  mkCommandSpec "limits" "List user limits" ["limits"] [] "optional args";
  mkCommandSpec "clusters" "List service clusters" ["clusters"] [] "optional args";
  mkCommandSpec "echo" "Run diagnostic echo server" ["echo"] ["protocol"] "optional args";
  mkCommandSpec "ping" "Send messages to echo server" ["ping"] ["uri"] "optional args";
  mkCommandSpec "custom" "Run any raw command after devtunnel" [] [] ""
].

Definition initialModel : model :=
  mkModel 0 0 false false 0 defaultCommands 0 (mkViewport 0 0 "" 0)
    "checking devtunnel binary" false false [] "" "" false 0 None [] [] ""
    (mkTextinput "" false "example: user show --verbose" "> " 400 60).

Definition checkBinaryCmd : Cmd :=
  CmdFunc (ThLookPath "devtunnel was not found in PATH" "devtunnel found and ready").

(** [Init]: [tea.Batch(checkBinaryCmd(), m.spinner.Tick)]. *)
Definition Init (m : model) : Cmd :=
  CmdBatch (thunks checkBinaryCmd ++ thunks spinner_Tick)%list.

(** [5*time.Minute], in nanoseconds. *)
Definition deadline : Z := 5 * 60 * 1000000000.
Definition timeoutNotice : string := nl ++ nl ++ "Timed out after 5 minutes.".

Definition runCommandCmd (parts : list string) : Cmd :=
  if len parts =? 0 then CmdNil
  else
    let cmdText := Join parts " " in
    CmdSequence [ThStarted cmdText; ThExec deadline timeoutNotice parts cmdText].

(** [for i, label := range m.activeCommand.requiredArgs { ... }] of
    [handlePromptInput], from index [i] on. *)
Fixpoint requiredLoop (labels : list string) (i : Z) (values args : list string)
  : result loopExit :=
  match labels with
  | [] => Ok (Collected args)
  | label :: rest =>
      v0 <- idx values i ;;
      let v := TrimSpace v0 in
      if v == "" then Ok (Missing label)
      else requiredLoop rest (i + 1) values (args ++ [v])%list
  end.

Definition newPromptInput (label : string) : textinput :=
  mkTextinput "" false label "> " 300 60.

Section Program.
Context {B : Bubbles}.

Definition startPrompt (m : model) (cmd : commandSpec) : result (model * Cmd) :=
  if negb (devtunnelFound m) then
    Ok (set_status "install devtunnel CLI first" m, CmdNil)
  else if label cmd == "custom" then
    let m := set_inPrompt true m in
    let m := set_activeCommand (Some cmd) m in
    let m := set_currentPrompt "Custom command (after `devtunnel`)" m in
    let m := set_customCmdInput (SetValue "" (customCmdInput m)) m in
    let m := set_customCmdInput (Focus (customCmdInput m)) m in
    Ok (m, textinput_Blink)
  else
    let fields := requiredArgs cmd in
    let fields := if negb (optionalArg cmd == "") then (fields ++ [optionalArg cmd])%list else fields in
    if len fields =? 0 then
      let parts := "devtunnel" :: baseArgs cmd in
      let m := set_lastCommand parts m in
      Ok (m, runCommandCmd parts)
    else
      let m := set_promptInputs (map newPromptInput fields) m in
      let m := set_promptValues (map (fun _ => "") fields) m in
      first <- idx (promptInputs m) 0 ;;
      inputs <- store (promptInputs m) 0 (Focus first) ;;
      let m := set_promptInputs inputs m in
      let m := set_inPrompt true m in
      let m := set_promptIndex 0 m in
      let m := set_activeCommand (Some cmd) m in
      field0 <- idx fields 0 ;;
      let m := set_currentPrompt field0 m in
      Ok (m, textinput_Blink).

Definition leavePrompt (m : model) : model :=
  let m := set_inPrompt false m in
  let m := set_activeCommand None m in
  set_currentPrompt "" m.

Definition handlePromptInput (m : model) (k : Key) : result (model * Cmd) :=
  match activeCommand m with
  | None => Ok (set_inPrompt false m, CmdNil)
  | Some active =>
      if label active == "custom" then
        if keyString k == "esc" then Ok (leavePrompt m, CmdNil)
        else if keyString k == "enter" then
          let raw := TrimSpace (Value (customCmdInput m)) in
          let m := leavePrompt m in
          if raw == "" then Ok (m, CmdNil)
          else
            let parts := "devtunnel" :: Fields raw in
            let m := set_lastCommand parts m in
            Ok (m, runCommandCmd parts)
        else
          let '(ti, cmd) := textinput_Update k (customCmdInput m) in
          Ok (set_customCmdInput ti m, widgetCmd cmd)
      else if keyString k == "esc" then Ok (leavePrompt m, CmdNil)
      else if keyString k == "enter" then
        cur <- idx (promptInputs m) (promptIndex m) ;;
        values <- store (promptValues m) (promptIndex m) (TrimSpace (Value cur)) ;;
        let m := set_promptValues values m in
        if promptIndex m <? len (promptInputs m) - 1 then
          inputs <- store (promptInputs m) (promptIndex m) (Blur cur) ;;
          let m := set_promptInputs inputs m in
          let m := set_promptIndex (int_add (promptIndex m) 1) m in
          next <- idx (promptInputs m) (promptIndex m) ;;
          inputs <- store (promptInputs m) (promptIndex m) (Focus next) ;;
          let m := set_promptInputs inputs m in
          let m := set_currentPrompt (Placeholder next) m in
          Ok (m, CmdNil)
        else
          r <- requiredLoop (requiredArgs active) 0 (promptValues m) (baseArgs active) ;;
          match r with
          | Missing label =>
              let m := set_status ("missing required argument: " ++ label) m in
              Ok (leavePrompt m, CmdNil)
          | Collected args =>
              args <-
                (if negb (optionalArg active == "") then
                   let optIndex := len (promptInputs m) - 1 in
                   let optIndex :=
                     if len (requiredArgs active) =? len (promptInputs m)
                     then -1 else optIndex in
                   if optIndex >=? 0 then
                     v <- idx (promptValues m) optIndex ;;
                     let extra := TrimSpace v in
                     if negb (extra == "") then Ok (args ++ Fields extra)%list
                     else Ok args
                   else Ok args
                 else Ok args) ;;
              let parts := "devtunnel" :: args in
              let m := set_lastCommand parts m in
              Ok (leavePrompt m, runCommandCmd parts)
          end
      else
        cur <- idx (promptInputs m) (promptIndex m) ;;
        let '(ti, cmd) := textinput_Update k cur in
        inputs <- store (promptInputs m) (promptIndex m) ti ;;
        Ok (set_promptInputs inputs m, widgetCmd cmd)
  end.

(** The end of [Update]: [m.viewport, vpCmd = m.viewport.Update(msg)]. *)
Definition viewportTail (m : model) (msg : Msg) : result (model * Cmd) :=
  Ok (set_viewport (viewport_Update msg (viewport m)) m, CmdNil).

Definition isQuit (k : Key) : bool :=
  (keyString k == "ctrl+c") || (keyString k == "q").

Definition Update (m : model) (msg : Msg) : result (model * Cmd) :=
  match msg with
  | WindowSizeMsg Width Height =>
      let m := set_width Width m in
      let m := set_height Height m in
      let m :=
        if negb (ready m) then
          let m := set_viewport
                     (viewport_New (int_sub Width 4) (max 8 (int_sub Height 14))) m in
          let m := set_viewport
                     (SetContent "Waiting for command output..." (viewport m)) m in
          set_ready true m
        else
          let m := set_viewport (set_vpWidth (int_sub Width 4) (viewport m)) m in
          set_viewport (set_vpHeight (max 8 (int_sub Height 14)) (viewport m)) m in
      viewportTail m msg
  | KeyMsg k =>
      if running m then
        if isQuit k then Ok (m, tea_Quit) else viewportTail m msg
      else if inPrompt m then handlePromptInput m k
      else if isQuit k then Ok (m, tea_Quit)
      else if keyString k == "?" then
        viewportTail (set_showHelp (negb (showHelp m)) m) msg
      else if (keyString k == "up") || (keyString k == "k") then
        let m := if selected m >? 0
                 then set_selected (int_sub (selected m) 1) m else m in
        viewportTail m msg
      else if (keyString k == "down") || (keyString k == "j") then
        let m := if selected m <? len (commands m) - 1
                 then set_selected (int_add (selected m) 1) m else m in
        viewportTail m msg
      else if keyString k == "r" then
        if len (lastCommand m) >? 0 then Ok (m, runCommandCmd (lastCommand m))
        else viewportTail m msg
      else if keyString k == "enter" then
        selectedCommand <- idx (commands m) (selected m) ;;
        startPrompt m selectedCommand
      else viewportTail m msg
  | runStartedMsg command =>
      let m := set_running true m in
      let m := set_status ("running: " ++ command) m in
      let m := set_lastCommandText command m in
      let m := set_viewport
                 (SetContent ("Running command..." ++ nl ++ nl ++ command)
                    (viewport m)) m in
      Ok (m, spinner_Tick)
  | runFinishedMsg command output err =>
      let m :=
        if command == "which devtunnel" then
          match err with
          | Some _ =>
              let m := set_devtunnelFound false m in
              set_status "devtunnel not found in PATH" m
          | None =>
              let m := set_devtunnelFound true m in
              set_status "ready" m
          end
        else
          let m := set_running false m in
          let m := match err with
                   | Some _ => set_status "command failed" m
                   | None => set_status "command completed" m
                   end in
          let m := set_lastOutput output m in
          let m := set_viewport
                     (SetContent ("$ " ++ command ++ nl ++ nl ++ output)
                        (viewport m)) m in
          set_viewport (GotoTop (viewport m)) m in
      Ok (m, CmdNil)
  | spinnerTickMsg =>
      if running m then
        let '(s, cmd) := spinner_Update msg (spinner m) in
        Ok (set_spinner s m, widgetCmd cmd)
      else viewportTail m msg
  | QuitMsg | widgetMsg => viewportTail m msg
  end.

(** [View] draws the output box [m.width - 2] columns wide. *)
Definition outputBoxWidth (m : model) : Z := int_sub (width m) 2.

End Program.
End MainGo.

(** ** [src/unnamed/part_000]: categories, filter and raw command line *)

Module Part000.

Record commandItem : Type := mkCommandItem {
  name : string;
  description : string;
  baseArgs : list string;
  required : list string;
  optional : string;
  example : string
}.

Record commandCategory : Type := mkCategory {
  catName : string;
  commands : list commandItem
}.

Record model : Type := mkModel {
  width : Z;
  height : Z;
  ready : bool;
  spinner : Spinner;
  devtunnelFound : bool;
  running : bool;
  statusText : string;
  statusErr : bool;
  categories : list commandCategory;
  catIdx : Z;
  cmdIdx : Z;
  focusPane : Z;   (* visual hint only *)
  viewport : viewportModel;
  filterMode : bool;
  filterInput : textinput;
  cmdMode : bool;
  cmdInput : textinput;
  formMode : bool;
  formTitle : string;
  formCmd : option commandItem;
  formLabels : list string;
  formInputs : list textinput;
  formIndex : Z;
  lastCmd : list string;
  lastOutput : string
}.

Definition set_width (v : Z) (m : model) : model :=
  mkModel v (height m) (ready m) (spinner m) (devtunnelFound m) (running m)
    (statusText m) (statusErr m) (categories m) (catIdx m) (cmdIdx m)
    (focusPane m) (viewport m) (filterMode m) (filterInput m) (cmdMode m)
    (cmdInput m) (formMode m) (formTitle m) (formCmd m) (formLabels m)
    (formInputs m) (formIndex m) (lastCmd m) (lastOutput m).
Definition set_height (v : Z) (m : model) : model :=
  mkModel (width m) v (ready m) (spinner m) (devtunnelFound m) (running m)
    (statusText m) (statusErr m) (categories m) (catIdx m) (cmdIdx m)
    (focusPane m) (viewport m) (filterMode m) (filterInput m) (cmdMode m)
    (cmdInput m) (formMode m) (formTitle m) (formCmd m) (formLabels m)
    (formInputs m) (formIndex m) (lastCmd m) (lastOutput m).
Definition set_ready (v : bool) (m : model) : model :=
  mkModel (width m) (height m) v (spinner m) (devtunnelFound m) (running m)
    (statusText m) (statusErr m) (categories m) (catIdx m) (cmdIdx m)
    (focusPane m) (viewport m) (filterMode m) (filterInput m) (cmdMode m)
    (cmdInput m) (formMode m) (formTitle m) (formCmd m) (formLabels m)
    (formInputs m) (formIndex m) (lastCmd m) (lastOutput m).
Definition set_spinner (v : Spinner) (m : model) : model :=
  mkModel (width m) (height m) (ready m) v (devtunnelFound m) (running m)
    (statusText m) (statusErr m) (categories m) (catIdx m) (cmdIdx m)
    (focusPane m) (viewport m) (filterMode m) (filterInput m) (cmdMode m)
    (cmdInput m) (formMode m) (formTitle m) (formCmd m) (formLabels m)
    (formInputs m) (formIndex m) (lastCmd m) (lastOutput m).
Definition set_devtunnelFound (v : bool) (m : model) : model :=
  mkModel (width m) (height m) (ready m) (spinner m) v (running m)
    (statusText m) (statusErr m) (categories m) (catIdx m) (cmdIdx m)
    (focusPane m) (viewport m) (filterMode m) (filterInput m) (cmdMode m)
    (cmdInput m) (formMode m) (formTitle m) (formCmd m) (formLabels m)
    (formInputs m) (formIndex m) (lastCmd m) (lastOutput m).
Definition set_running (v : bool) (m : model) : model :=
  mkModel (width m) (height m) (ready m) (spinner m) (devtunnelFound m) v
    (statusText m) (statusErr m) (categories m) (catIdx m) (cmdIdx m)
    (focusPane m) (viewport m) (filterMode m) (filterInput m) (cmdMode m)
    (cmdInput m) (formMode m) (formTitle m) (formCmd m) (formLabels m)
    (formInputs m) (formIndex m) (lastCmd m) (lastOutput m).
Definition set_statusText (v : string) (m : model) : model :=
  mkModel (width m) (height m) (ready m) (spinner m) (devtunnelFound m)
    (running m) v (statusErr m) (categories m) (catIdx m) (cmdIdx m)
    (focusPane m) (viewport m) (filterMode m) (filterInput m) (cmdMode m)
    (cmdInput m) (formMode m) (formTitle m) (formCmd m) (formLabels m)
    (formInputs m) (formIndex m) (lastCmd m) (lastOutput m).
Definition set_statusErr (v : bool) (m : model) : model :=
  mkModel (width m) (height m) (ready m) (spinner m) (devtunnelFound m)
    (running m) (statusText m) v (categories m) (catIdx m) (cmdIdx m)
    (focusPane m) (viewport m) (filterMode m) (filterInput m) (cmdMode m)
    (cmdInput m) (formMode m) (formTitle m) (formCmd m) (formLabels m)
    (formInputs m) (formIndex m) (lastCmd m) (lastOutput m).
Definition set_categories (v : list commandCategory) (m : model) : model :=
  mkModel (width m) (height m) (ready m) (spinner m) (devtunnelFound m)
    (running m) (statusText m) (statusErr m) v (catIdx m) (cmdIdx m)
    (focusPane m) (viewport m) (filterMode m) (filterInput m) (cmdMode m)
    (cmdInput m) (formMode m) (formTitle m) (formCmd m) (formLabels m)
    (formInputs m) (formIndex m) (lastCmd m) (lastOutput m).
Definition set_catIdx (v : Z) (m : model) : model :=
  mkModel (width m) (height m) (ready m) (spinner m) (devtunnelFound m)
    (running m) (statusText m) (statusErr m) (categories m) v (cmdIdx m)
    (focusPane m) (viewport m) (filterMode m) (filterInput m) (cmdMode m)
    (cmdInput m) (formMode m) (formTitle m) (formCmd m) (formLabels m)
    (formInputs m) (formIndex m) (lastCmd m) (lastOutput m).
Definition set_cmdIdx (v : Z) (m : model) : model :=
  mkModel (width m) (height m) (ready m) (spinner m) (devtunnelFound m)
    (running m) (statusText m) (statusErr m) (categories m) (catIdx m) v
    (focusPane m) (viewport m) (filterMode m) (filterInput m) (cmdMode m)
    (cmdInput m) (formMode m) (formTitle m) (formCmd m) (formLabels m)
    (formInputs m) (formIndex m) (lastCmd m) (lastOutput m).
Definition set_focusPane (v : Z) (m : model) : model :=
  mkModel (width m) (height m) (ready m) (spinner m) (devtunnelFound m)
    (running m) (statusText m) (statusErr m) (categories m) (catIdx m)
    (cmdIdx m) v (viewport m) (filterMode m) (filterInput m) (cmdMode m)
    (cmdInput m) (formMode m) (formTitle m) (formCmd m) (formLabels m)
    (formInputs m) (formIndex m) (lastCmd m) (lastOutput m).
Definition set_viewport (v : viewportModel) (m : model) : model :=
  mkModel (width m) (height m) (ready m) (spinner m) (devtunnelFound m)
    (running m) (statusText m) (statusErr m) (categories m) (catIdx m)
    (cmdIdx m) (focusPane m) v (filterMode m) (filterInput m) (cmdMode m)
    (cmdInput m) (formMode m) (formTitle m) (formCmd m) (formLabels m)
    (formInputs m) (formIndex m) (lastCmd m) (lastOutput m).
Definition set_filterMode (v : bool) (m : model) : model :=
  mkModel (width m) (height m) (ready m) (spinner m) (devtunnelFound m)
    (running m) (statusText m) (statusErr m) (categories m) (catIdx m)
    (cmdIdx m) (focusPane m) (viewport m) v (filterInput m) (cmdMode m)
    (cmdInput m) (formMode m) (formTitle m) (formCmd m) (formLabels m)
    (formInputs m) (formIndex m) (lastCmd m) (lastOutput m).
Definition set_filterInput (v : textinput) (m : model) : model :=
  mkModel (width m) (height m) (ready m) (spinner m) (devtunnelFound m)
    (running m) (statusText m) (statusErr m) (categories m) (catIdx m)
    (cmdIdx m) (focusPane m) (viewport m) (filterMode m) v (cmdMode m)
    (cmdInput m) (formMode m) (formTitle m) (formCmd m) (formLabels m)
    (formInputs m) (formIndex m) (lastCmd m) (lastOutput m).
Definition set_cmdMode (v : bool) (m : model) : model :=
  mkModel (width m) (height m) (ready m) (spinner m) (devtunnelFound m)
    (running m) (statusText m) (statusErr m) (categories m) (catIdx m)
    (cmdIdx m) (focusPane m) (viewport m) (filterMode m) (filterInput m) v
    (cmdInput m) (formMode m) (formTitle m) (formCmd m) (formLabels m)
    (formInputs m) (formIndex m) (lastCmd m) (lastOutput m).
Definition set_cmdInput (v : textinput) (m : model) : model :=
  mkModel (width m) (height m) (ready m) (spinner m) (devtunnelFound m)
    (running m) (statusText m) (statusErr m) (categories m) (catIdx m)
    (cmdIdx m) (focusPane m) (viewport m) (filterMode m) (filterInput m)
    (cmdMode m) v (formMode m) (formTitle m) (formCmd m) (formLabels m)
    (formInputs m) (formIndex m) (lastCmd m) (lastOutput m).
Definition set_formMode (v : bool) (m : model) : model :=
  mkModel (width m) (height m) (ready m) (spinner m) (devtunnelFound m)
    (running m) (statusText m) (statusErr m) (categories m) (catIdx m)
    (cmdIdx m) (focusPane m) (viewport m) (filterMode m) (filterInput m)
    (cmdMode m) (cmdInput m) v (formTitle m) (formCmd m) (formLabels m)
    (formInputs m) (formIndex m) (lastCmd m) (lastOutput m).
Definition set_formTitle (v : string) (m : model) : model :=
  mkModel (width m) (height m) (ready m) (spinner m) (devtunnelFound m)
    (running m) (statusText m) (statusErr m) (categories m) (catIdx m)
    (cmdIdx m) (focusPane m) (viewport m) (filterMode m) (filterInput m)
    (cmdMode m) (cmdInput m) (formMode m) v (formCmd m) (formLabels m)
    (formInputs m) (formIndex m) (lastCmd m) (lastOutput m).
Definition set_formCmd (v : option commandItem) (m : model) : model :=
  mkModel (width m) (height m) (ready m) (spinner m) (devtunnelFound m)
    (running m) (statusText m) (statusErr m) (categories m) (catIdx m)
    (cmdIdx m) (focusPane m) (viewport m) (filterMode m) (filterInput m)
    (cmdMode m) (cmdInput m) (formMode m) (formTitle m) v (formLabels m)
    (formInputs m) (formIndex m) (lastCmd m) (lastOutput m).
Definition set_formLabels (v : list string) (m : model) : model :=
  mkModel (width m) (height m) (ready m) (spinner m) (devtunnelFound m)
    (running m) (statusText m) (statusErr m) (categories m) (catIdx m)
    (cmdIdx m) (focusPane m) (viewport m) (filterMode m) (filterInput m)
    (cmdMode m) (cmdInput m) (formMode m) (formTitle m) (formCmd m) v
    (formInputs m) (formIndex m) (lastCmd m) (lastOutput m).
Definition set_formInputs (v : list textinput) (m : model) : model :=
  mkModel (width m) (height m) (ready m) (spinner m) (devtunnelFound m)
    (running m) (statusText m) (statusErr m) (categories m) (catIdx m)
    (cmdIdx m) (focusPane m) (viewport m) (filterMode m) (filterInput m)
    (cmdMode m) (cmdInput m) (formMode m) (formTitle m) (formCmd m)
    (formLabels m) v (formIndex m) (lastCmd m) (lastOutput m).
Definition set_formIndex (v : Z) (m : model) : model :=
  mkModel (width m) (height m) (ready m) (spinner m) (devtunnelFound m)
    (running m) (statusText m) (statusErr m) (categories m) (catIdx m)
    (cmdIdx m) (focusPane m) (viewport m) (filterMode m) (filterInput m)
    (cmdMode m) (cmdInput m) (formMode m) (formTitle m) (formCmd m)
    (formLabels m) (formInputs m) v (lastCmd m) (lastOutput m).
Definition set_lastCmd (v : list string) (m : model) : model :=
  mkModel (width m) (height m) (ready m) (spinner m) (devtunnelFound m)
    (running m) (statusText m) (statusErr m) (categories m) (catIdx m)
    (cmdIdx m) (focusPane m) (viewport m) (filterMode m) (filterInput m)
    (cmdMode m) (cmdInput m) (formMode m) (formTitle m) (formCmd m)
    (formLabels m) (formInputs m) (formIndex m) v (lastOutput m).
Definition set_lastOutput (v : string) (m : model) : model :=
  mkModel (width m) (height m) (ready m) (spinner m) (devtunnelFound m)
    (running m) (statusText m) (statusErr m) (categories m) (catIdx m)
    (cmdIdx m) (focusPane m) (viewport m) (filterMode m) (filterInput m)
    (cmdMode m) (cmdInput m) (formMode m) (formTitle m) (formCmd m)
    (formLabels m) (formInputs m) (formIndex m) (lastCmd m) v.

Definition catalog : list commandCategory := [
  mkCategory "Tunnels" [
    mkCommandItem "list" "List tunnels" ["list"] [] "flags" "list --all";
    mkCommandItem "show" "Show tunnel details" ["show"] ["tunnel-id"] "" "";
    mkCommandItem "create" "Create a tunnel" ["create"] ["tunnel-id"] "flags" "";
    mkCommandItem "update" "Update tunnel properties" ["update"] ["tunnel-id"] "flags" "";
    mkCommandItem "delete" "Delete a tunnel" ["delete"] ["tunnel-id"] "" "";
    mkCommandItem "delete-all" "Delete all tunnels" ["delete-all"] [] "" "";
    mkCommandItem "set" "Set default tunnel" ["set"] ["tunnel-id"] "" "";
    mkCommandItem "unset" "Clear default tunnel" ["unset"] [] "" "";
    mkCommandItem "token" "Issue tunnel access token" ["token"] ["tunnel-id"] "flags" ""
  ];
  mkCategory "Ports & Access" [
    mkCommandItem "port" "Manage tunnel ports" ["port"] [] "subcommand and args" "port list <tunnel-id>";
    mkCommandItem "access" "Manage access control" ["access"] [] "subcommand and args" "access list <tunnel-id>"
  ];
  mkCategory "Connections" [
    mkCommandItem "host" "Host a tunnel" ["host"] [] "tunnel-id and flags" "";
    mkCommandItem "connect" "Connect to tunnel" ["connect"] ["tunnel-id"] "flags" ""
  ];
  mkCategory "User" [
    mkCommandItem "user login" "Authenticate user credentials" ["user"; "login"] [] "" "";
    mkCommandItem "user logout" "Remove local credentials" ["user"; "logout"] [] "" "";
    mkCommandItem "user" "Run user subcommand" ["user"] [] "subcommand and args" "user show"
  ];
  mkCategory "Diagnostics" [
    mkCommandItem "limits" "List user limits" ["limits"] [] "" "";
    mkCommandItem "clusters" "List clusters" ["clusters"] [] "" "";
    mkCommandItem "echo" "Run echo server" ["echo"] ["protocol"] "" "";
    mkCommandItem "ping" "Ping remote echo server" ["ping"] ["uri"] "" ""
  ];
  mkCategory "Custom" [
    mkCommandItem ": command mode" "Type any raw devtunnel command" [] [] "" ""
  ]
].

Definition initialModel : model :=
  mkModel 0 0 false 0 false false "checking devtunnel binary" false
    catalog 0 0 1 (mkViewport 0 0 "" 0)
    false (mkTextinput "" false "filter commands" "/ " 120 40)
    false (mkTextinput "" false "type command after 'devtunnel'" ": " 500 70)
    false "" None [] [] 0 [] "".

Definition checkBinaryCmd : Cmd :=
  CmdFunc (ThLookPath "devtunnel not found in PATH" "devtunnel detected").

(** [Init]: [tea.Batch(checkBinaryCmd(), m.spinner.Tick)]. *)
Definition Init (m : model) : Cmd :=
  CmdBatch (thunks checkBinaryCmd ++ thunks spinner_Tick)%list.

(** [10*time.Minute], in nanoseconds. *)
Definition deadline : Z := 10 * 60 * 1000000000.
Definition timeoutNotice : string := nl ++ nl ++ "Timed out after 10 minutes.".

Definition runCommandCmd (parts : list string) : Cmd :=
  if len parts =? 0 then CmdNil
  else
    let cmdText := Join parts " " in
    CmdSequence [ThStarted cmdText; ThExec deadline timeoutNotice parts cmdText].

(** The text a command is matched against. *)
Definition hay (item : commandItem) : string :=
  ToLower (name item ++ " " ++ description item ++ " " ++ Join (baseArgs item) " ").

Definition visibleCommands (m : model) : list commandItem :=
  if (catIdx m <? 0) || (catIdx m >=? len (categories m)) then []
  else
    match nth_error (categories m) (Z.to_nat (catIdx m)) with
    | None => []
    | Some cat =>
        let items := commands cat in
        let flt := TrimSpace (ToLower (Value (filterInput m))) in
        if flt == "" then items
        else
          fold_left
            (fun out item =>
               if Contains (hay item) flt then (out ++ [item])%list else out)
            items []
    end.

(** [moveUp] and [moveDown] have value receivers, [func (m model) moveUp()]:
    the body works on a copy of the caller's model and the method returns
    nothing.  [moveUp_local] and [moveDown_local] are that copy at the end of
    the body. *)
Definition moveUp_local (m : model) : model :=
  if cmdIdx m >? 0 then set_cmdIdx (int_sub (cmdIdx m) 1) m else m.

Definition moveDown_local (m : model) : model :=
  let cmds := visibleCommands m in
  if cmdIdx m <? len cmds - 1 then set_cmdIdx (int_add (cmdIdx m) 1) m else m.

Definition moveUp (m : model) : unit := let _ := moveUp_local m in tt.
Definition moveDown (m : model) : unit := let _ := moveDown_local m in tt.

(** [for i := 0; i < reqCount; i++ { ... }] of [updateForm], from index [i]
    on, with [n] rounds to go. *)
Fixpoint requiredLoop (n : nat) (i : Z) (cmd : commandItem)
  (inputs : list textinput) (parts : list string) : result loopExit :=
  match n with
  | O => Ok (Collected parts)
  | S n' =>
      input <- idx inputs i ;;
      let v := TrimSpace (Value input) in
      if v == "" then
        label <- idx (required cmd) i ;;
        Ok (Missing label)
      else requiredLoop n' (i + 1) cmd inputs (parts ++ [v])%list
  end.

Definition newFormInput (label : string) : textinput :=
  mkTextinput "" false label "> " 300 60.

(** [i := int(msg.String()[0] - '1')], a subtraction of bytes. *)
Definition digitIndex (s : string) : Z :=
  match s with
  | EmptyString => 0
  | String c _ => (Z.of_nat (nat_of_ascii c) - 49) mod 256
  end.

Definition isDigitKey (s : string) : bool :=
  (s == "1") || (s == "2") || (s == "3") || (s == "4") || (s == "5") || (s == "6").

Definition clearForm (m : model) : model :=
  let m := set_formMode false m in
  let m := set_formCmd None m in
  let m := set_formInputs [] m in
  let m := set_formLabels [] m in
  let m := set_formTitle "" m in
  set_formIndex 0 m.

Section Program.
Context {B : Bubbles}.

Definition runSelected (m : model) : result (model * Cmd) :=
  if negb (devtunnelFound m) then
    let m := set_statusErr true m in
    let m := set_statusText "install devtunnel CLI first" m in
    Ok (m, CmdNil)
  else
    let cmds := visibleCommands m in
    if len cmds =? 0 then Ok (m, CmdNil)
    else
      let m := if cmdIdx m >=? len cmds then set_cmdIdx (len cmds - 1) m else m in
      cmd <- idx cmds (cmdIdx m) ;;
      if name cmd == ": command mode" then
        let m := set_cmdMode true m in
        let m := set_cmdInput (SetValue "" (cmdInput m)) m in
        let m := set_cmdInput (Focus (cmdInput m)) m in
        Ok (m, textinput_Blink)
      else
        let labels := required cmd in
        let labels :=
          if negb (optional cmd == "") then (labels ++ [optional cmd])%list
          else labels in
        if len labels =? 0 then
          let parts := "devtunnel" :: baseArgs cmd in
          let m := set_lastCmd parts m in
          Ok (m, runCommandCmd parts)
        else
          let m := set_formMode true m in
          let m := set_formCmd (Some cmd) m in
          let m := set_formTitle (name cmd) m in
          let m := set_formLabels labels m in
          let m := set_formInputs (map newFormInput labels) m in
          let m := set_formIndex 0 m in
          first <- idx (formInputs m) 0 ;;
          inputs <- store (formInputs m) 0 (Focus first) ;;
          let m := set_formInputs inputs m in
          Ok (m, textinput_Blink).

Definition updateForm (m : model) (k : Key) : result (model * Cmd) :=
  if keyString k == "esc" then Ok (clearForm m, CmdNil)
  else if keyString k == "enter" then
    if formIndex m <? len (formInputs m) - 1 then
      cur <- idx (formInputs m) (formIndex m) ;;
      inputs <- store (formInputs m) (formIndex m) (Blur cur) ;;
      let m := set_formInputs inputs m in
      let m := set_formIndex (int_add (formIndex m) 1) m in
      next <- idx (formInputs m) (formIndex m) ;;
      inputs <- store (formInputs m) (formIndex m) (Focus next) ;;
      let m := set_formInputs inputs m in
      Ok (m, CmdNil)
    else
      match formCmd m with
      | None => Ok (set_formMode false m, CmdNil)
      | Some formCmd_ =>
          let parts := "devtunnel" :: baseArgs formCmd_ in
          let reqCount := List.length (required formCmd_) in
          r <- requiredLoop reqCount 0 formCmd_ (formInputs m) parts ;;
          match r with
          | Missing label =>
              let m := set_statusErr true m in
              let m := set_statusText ("missing required: " ++ label) m in
              let m := set_formMode false m in
              let m := set_formCmd None m in
              Ok (m, CmdNil)
          | Collected parts =>
              parts <-
                (if negb (optional formCmd_ == "") then
                   let i := len (formInputs m) - 1 in
                   if i >=? 0 then
                     last <- idx (formInputs m) i ;;
                     let extra := TrimSpace (Value last) in
                     if negb (extra == "") then Ok (parts ++ Fields extra)%list
                     else Ok parts
                   else Ok parts
                 else Ok parts) ;;
              let m := clearForm m in
              let m := set_lastCmd parts m in
              Ok (m, runCommandCmd parts)
          end
      end
  else
    cur <- idx (formInputs m) (formIndex m) ;;
    let '(ti, cmd) := textinput_Update k cur in
    inputs <- store (formInputs m) (formIndex m) ti ;;
    Ok (set_formInputs inputs m, widgetCmd cmd).

Definition updateCmdMode (m : model) (k : Key) : result (model * Cmd) :=
  if keyString k == "esc" then
    let m := set_cmdMode false m in
    let m := set_cmdInput (Blur (cmdInput m)) m in
    Ok (m, CmdNil)
  else if keyString k == "enter" then
    let raw := TrimSpace (Value (cmdInput m)) in
    let m := set_cmdMode false m in
    let m := set_cmdInput (Blur (cmdInput m)) m in
    if raw == "" then Ok (m, CmdNil)
    else
      let parts := "devtunnel" :: Fields raw in
      let m := set_lastCmd parts m in
      Ok (m, runCommandCmd parts)
  else
    let '(ti, cmd) := textinput_Update k (cmdInput m) in
    Ok (set_cmdInput ti m, widgetCmd cmd).

Definition updateFilterMode (m : model) (k : Key) : result (model * Cmd) :=
  if keyString k == "esc" then
    let m := set_filterMode false m in
    let m := set_filterInput (Blur (filterInput m)) m in
    Ok (m, CmdNil)
  else if keyString k == "enter" then
    let m := set_filterMode false m in
    let m := set_filterInput (Blur (filterInput m)) m in
    let m := set_cmdIdx 0 m in
    Ok (m, CmdNil)
  else
    let '(ti, cmd) := textinput_Update k (filterInput m) in
    let m := set_filterInput ti m in
    let m := set_cmdIdx 0 m in
    Ok (m, widgetCmd cmd).

Definition keyIs (k : Key) (t : KeyType) (s : string) : bool :=
  KeyType_eqb (Type_ k) t || (keyString k == s).

Definition Update (m : model) (msg : Msg) : result (model * Cmd) :=
  match msg with
  | WindowSizeMsg Width Height =>
      let m := set_width Width m in
      let m := set_height Height m in
      let m :=
        if negb (ready m) then
          let m := set_viewport
                     (viewport_New (max 20 (int_sub Width 64))
                        (max 8 (int_sub Height 10))) m in
          let m := set_viewport
                     (SetContent "Output will appear here" (viewport m)) m in
          set_ready true m
        else
          let m := set_viewport
                     (set_vpWidth (max 20 (int_sub Width 64)) (viewport m)) m in
          set_viewport (set_vpHeight (max 8 (int_sub Height 10)) (viewport m)) m in
      Ok (m, CmdNil)
  | spinnerTickMsg =>
      if running m then
        let '(s, cmd) := spinner_Update msg (spinner m) in
        Ok (set_spinner s m, widgetCmd cmd)
      else Ok (m, CmdNil)
  | runStartedMsg cmdText =>
      let m := set_running true m in
      let m := set_statusErr false m in
      let m := set_statusText ("running " ++ cmdText) m in
      let m := set_viewport
                 (SetContent ("$ " ++ cmdText ++ nl ++ nl ++ "Running...")
                    (viewport m)) m in
      let m := set_viewport (GotoTop (viewport m)) m in
      Ok (m, spinner_Tick)
  | runFinishedMsg cmdText output err =>
      if cmdText == "which devtunnel" then
        match err with
        | Some _ =>
            let m := set_devtunnelFound false m in
            let m := set_statusErr true m in
            let m := set_statusText "devtunnel not found in PATH" m in
            Ok (m, CmdNil)
        | None =>
            let m := set_devtunnelFound true m in
            let m := set_statusErr false m in
            let m := set_statusText "ready" m in
            Ok (m, CmdNil)
        end
      else
        let m := set_running false m in
        let m := set_lastOutput output m in
        let m := match err with
                 | Some _ =>
                     let m := set_statusErr true m in
                     set_statusText "command failed" m
                 | None =>
                     let m := set_statusErr false m in
                     set_statusText "command completed" m
                 end in
        let m := set_viewport
                   (SetContent ("$ " ++ cmdText ++ nl ++ nl ++ output)
                      (viewport m)) m in
        let m := set_viewport (GotoTop (viewport m)) m in
        Ok (m, CmdNil)
  | KeyMsg k =>
      if formMode m then updateForm m k
      else if cmdMode m then updateCmdMode m k
      else if filterMode m then updateFilterMode m k
      else if keyIs k KeyCtrlC "q" then Ok (m, tea_Quit)
      else if keyIs k KeyLeft "h" then
        let m := if catIdx m >? 0 then
                   let m := set_catIdx (int_sub (catIdx m) 1) m in
                   set_cmdIdx 0 m
                 else m in
        Ok (m, CmdNil)
      else if keyIs k KeyRight "l" then
        let m := if catIdx m <? len (categories m) - 1 then
                   let m := set_catIdx (int_add (catIdx m) 1) m in
                   set_cmdIdx 0 m
                 else m in
        Ok (m, CmdNil)
      else if keyString k == ":" then
        let m := set_cmdMode true m in
        let m := set_cmdInput (SetValue "" (cmdInput m)) m in
        let m := set_cmdInput (Focus (cmdInput m)) m in
        Ok (m, textinput_Blink)
      else if keyString k == "/" then
        let m := set_filterMode true m in
        let m := set_focusPane 1 m in
        let m := set_filterInput (Focus (filterInput m)) m in
        Ok (m, textinput_Blink)
      else if keyString k == "r" then
        if len (lastCmd m) >? 0 then Ok (m, runCommandCmd (lastCmd m))
        else Ok (m, CmdNil)
      else if keyString k == "g" then Ok (set_cmdIdx 0 m, CmdNil)
      else if keyString k == "G" then
        let cmds := visibleCommands m in
        let m := if len cmds >? 0 then set_cmdIdx (len cmds - 1) m else m in
        Ok (m, CmdNil)
      else if isDigitKey (keyString k) then
        let i := digitIndex (keyString k) in
        let m := if (i >=? 0) && (i <? len (categories m)) then
                   let m := set_catIdx i m in
                   let m := set_cmdIdx 0 m in
                   set_focusPane 1 m
                 else m in
        Ok (m, CmdNil)
      else if keyIs k KeyUp "k" then
        let _ := moveUp m in Ok (m, CmdNil)
      else if keyIs k KeyDown "j" then
        let _ := moveDown m in Ok (m, CmdNil)
      else if KeyType_eqb (Type_ k) KeyPgUp then
        Ok (set_viewport (HalfViewUp (viewport m)) m, CmdNil)
      else if KeyType_eqb (Type_ k) KeyPgDown then
        Ok (set_viewport (HalfViewDown (viewport m)) m, CmdNil)
      else if keyString k == "u" then
        Ok (set_viewport (HalfViewUp (viewport m)) m, CmdNil)
      else if keyString k == "d" then
        Ok (set_viewport (HalfViewDown (viewport m)) m, CmdNil)
      else if KeyType_eqb (Type_ k) KeyEnter then runSelected m
      else Ok (m, CmdNil)
  | QuitMsg | widgetMsg => Ok (m, CmdNil)
  end.

End Program.

(** The pane sizes [renderMain] draws with: the widths of the category, the
    command and the output pane, and their common height. *)
Definition renderMain_leftW (m : model) : Z := max 20 (Z.quot (width m) 5).
Definition renderMain_midW (m : model) : Z := max 36 (Z.quot (width m) 3).
Definition renderMain_rightW (m : model) : Z :=
  max 30 (int_sub (int_sub (int_sub (width m) (renderMain_leftW m))
                     (renderMain_midW m)) 4).
Definition renderMain_height (m : model) : Z := max 8 (int_sub (height m) 6).

End Part000.

(** ** The event loop

    The runtime owns the model.  It feeds [Update] the messages of the
    terminal (keys and resizes) and the messages of the commands that [Init]
    and earlier [Update] calls returned: every command in flight has a queue
    of messages still to deliver, taken from the front. *)

(** The message queues a command adds to the loop.  [tea.Sequence] calls its
    functions one after the other and sends each result before it calls the
    next: one queue.  The functions of a [tea.Batch] run concurrently: one
    queue each. *)
Definition queues (w : World) (c : Cmd) : list (list Msg) :=
  match c with
  | CmdNil => []
  | CmdFunc t => [[fire w t]]
  | CmdSequence ts => [map (fire w) ts]
  | CmdBatch ts => map (fun t => [fire w t]) ts
  end.

Definition fromTerminal (msg : Msg) : bool :=
  match msg with
  | KeyMsg _ | WindowSizeMsg _ _ => true
  | _ => false
  end.

(** Takes the first message of the [n]-th queue. *)
Fixpoint pop (n : nat) (qs : list (list Msg)) : option (Msg * list (list Msg)) :=
  match qs, n with
  | [], _ => None
  | q :: rest, O =>
      match q with
      | [] => None
      | msg :: q' => Some (msg, q' :: rest)
      end
  | q :: rest, S n' =>
      match pop n' rest with
      | Some (msg, rest') => Some (msg, q :: rest')
      | None => None
      end
  end.

(** One turn of the loop: a message from the terminal, or the next message of
    the [n]-th command in flight. *)
Inductive Event : Type :=
| Input (msg : Msg)
| Deliver (n : nat).

Section EventLoop.
Variable model : Type.
Variable Update : model -> Msg -> result (model * Cmd).
Variable w : World.

Record loopState : Type := mkLoop {
  cur : model;
  pending : list (list Msg)
}.

Definition turn (s : loopState) (msg : Msg) (rest : list (list Msg))
  : option loopState :=
  match msg with
  | QuitMsg => None
  | _ =>
      match Update (cur s) msg with
      | Ok (m', c) => Some (mkLoop m' (rest ++ queues w c)%list)
      | Panic => None
      end
  end.

Definition loopStep (s : loopState) (e : Event) : option loopState :=
  match e with
  | Input msg => if fromTerminal msg then turn s msg (pending s) else None
  | Deliver n =>
      match pop n (pending s) with
      | Some (msg, rest) => turn s msg rest
      | None => None
      end
  end.

Fixpoint replay (s : loopState) (es : list Event) : option loopState :=
  match es with
  | [] => Some s
  | e :: es' =>
      match loopStep s e with
      | Some s' => replay s' es'
      | None => None
      end
  end.

(** The commands handed to the runtime along a list of messages. *)
Fixpoint feed (m : model) (msgs : list Msg) : result (model * list Cmd) :=
  match msgs with
  | [] => Ok (m, [])
  | msg :: rest =>
      r <- Update m msg ;;
      r' <- feed (fst r) rest ;;
      Ok (fst r', snd r :: snd r')
  end.
End EventLoop.

Arguments cur {model} _.
Arguments pending {model} _.
Arguments mkLoop {model} _ _.

(** The states the loop can be in, from [initialModel] and [Init]. *)
Definition reachable {model : Type} (Update : model -> Msg -> result (model * Cmd))
  (w : World) (init : model) (initCmd : Cmd) (s : loopState model) : Prop :=
  exists es : list Event,
    replay model Update w (mkLoop init (queues w initCmd)) es = Some s.

(** ** A small instance of the widgets

    Text inputs that append what is typed while they have the focus, a
    viewport that stays where it is and a spinner that counts its frames.  It
    serves to run the programs on concrete keys. *)

Fixpoint dropLast (s : string) : string :=
  match s with
  | EmptyString => EmptyString
  | String c EmptyString => EmptyString
  | String c s' => String c (dropLast s')
  end.

Definition plain_textinput_Update (k : Key) (t : textinput)
  : textinput * option WidgetCmd :=
  if tiFocus t && negb (Alt k) then
    match Type_ k with
    | KeyRunes => (SetValue (tiValue t ++ Runes k) t, None)
    | KeySpace => (SetValue (tiValue t ++ " ") t, None)
    | KeyBackspace => (SetValue (dropLast (tiValue t)) t, None)
    | _ => (t, None)
    end
  else (t, None).

Definition plainWidgets : Bubbles := {|
  textinput_Update := plain_textinput_Update;
  viewport_scroll := fun _ v => YOffset v;
  viewport_refit := fun _ v => YOffset v;
  viewport_halfUp := fun v => YOffset v;
  viewport_halfDown := fun v => YOffset v;
  spinner_Update := fun _ s => (s + 1, Some SpinnerTick)
|}.

(** Two worlds: one without the tool on the search path, where starting it
    fails at once, and one with the tool, where every command prints a line
    and exits after a second. *)
Definition worldWithout : World :=
  mkWorld (fun _ => false) (fun _ => mkChild 0 (fun _ => "") (Some ErrStart)).

Definition worldWith : World :=
  mkWorld (fun _ => true) (fun _ => mkChild 1000000000 (fun _ => "ok") None).

(** ** Drawing the model: Lip Gloss and [fmt]

    [View] builds its text with Lip Gloss styles, the views of the widgets
    and [fmt.Sprintf].  A style is the record of what the programs set in it;
    how a style, a widget or a row of blocks is drawn is a parameter,
    [Rendering]. *)

Record Style : Type := mkStyle {
  stBold : bool;
  stForeground : string;
  stBackground : string;
  stPadding : Z * Z;
  stBorder : bool;
  stBorderForeground : string;
  stWidth : Z;
  stHeight : Z
}.

Definition NewStyle : Style := mkStyle false "" "" (0, 0) false "" 0 0.
Definition Bold (b : bool) (s : Style) : Style :=
  mkStyle b (stForeground s) (stBackground s) (stPadding s) (stBorder s)
    (stBorderForeground s) (stWidth s) (stHeight s).
Definition Foreground (c : string) (s : Style) : Style :=
  mkStyle (stBold s) c (stBackground s) (stPadding s) (stBorder s)
    (stBorderForeground s) (stWidth s) (stHeight s).
Definition Background (c : string) (s : Style) : Style :=
  mkStyle (stBold s) (stForeground s) c (stPadding s) (stBorder s)
    (stBorderForeground s) (stWidth s) (stHeight s).
Definition Padding (v h : Z) (s : Style) : Style :=
  mkStyle (stBold s) (stForeground s) (stBackground s) (v, h) (stBorder s)
    (stBorderForeground s) (stWidth s) (stHeight s).
(** [Border(lipgloss.NormalBorder())] *)
Definition Border (s : Style) : Style :=
  mkStyle (stBold s) (stForeground s) (stBackground s) (stPadding s) true
    (stBorderForeground s) (stWidth s) (stHeight s).
Definition BorderForeground (c : string) (s : Style) : Style :=
  mkStyle (stBold s) (stForeground s) (stBackground s) (stPadding s)
    (stBorder s) c (stWidth s) (stHeight s).
Definition Width (w : Z) (s : Style) : Style :=
  mkStyle (stBold s) (stForeground s) (stBackground s) (stPadding s)
    (stBorder s) (stBorderForeground s) w (stHeight s).
Definition Height (h : Z) (s : Style) : Style :=
  mkStyle (stBold s) (stForeground s) (stBackground s) (stPadding s)
    (stBorder s) (stBorderForeground s) (stWidth s) h.

Class Rendering : Type := {
  (** [lipgloss.Style.Render] *)
  Render : Style -> string -> string;
  (** [lipgloss.JoinHorizontal(lipgloss.Top, ...)] *)
  JoinHorizontal : list string -> string;
  (** the [View] methods of the widgets *)
  textinput_View : textinput -> string;
  viewport_View : viewportModel -> string;
  spinner_View : Spinner -> string
}.

(** The verb [%d] of [fmt.Sprintf]. *)
Definition itoa (z : Z) : string := NilZero.string_of_int (Z.to_int z).

Fixpoint spaces (n : nat) : string :=
  match n with
  | O => ""
  | S n' => String " " (spaces n')
  end.

(** The verb [%-Ns]: the string, then spaces up to [width] characters. *)
Definition padRight (width : nat) (s : string) : string :=
  s ++ spaces (width - String.length s).

(** *** [View] of [src/main.go] *)

Module MainGoView.
Import MainGo.

Record styles : Type := mkStyles {
  header : Style;
  subHeader : Style;
  listSelected : Style;
  listItem : Style;
  desc : Style;
  statusOK : Style;
  statusWarn : Style;
  statusErr : Style;
  box : Style;
  help : Style
}.

(** The [styles] field of the model: [initialModel] sets it and nothing
    writes it afterwards. *)
Definition modelStyles : styles := {|
  header := Padding 0 1 (Background "25" (Foreground "230" (Bold true NewStyle)));
  subHeader := Foreground "81" (Bold true NewStyle);
  listSelected :=
    Padding 0 1 (Background "33" (Foreground "230" (Bold true NewStyle)));
  listItem := Padding 0 1 (Foreground "252" NewStyle);
  desc := Foreground "246" NewStyle;
  statusOK := Bold true (Foreground "42" NewStyle);
  statusWarn := Bold true (Foreground "214" NewStyle);
  statusErr := Bold true (Foreground "196" NewStyle);
  box := Padding 0 1 (BorderForeground "240" (Border NewStyle));
  help := Foreground "244" NewStyle
|}.

Section View.
Context {R : Rendering}.

(** [for i, cmd := range m.commands { ... }] of [View], from index [i] on. *)
Fixpoint commandLines (m : model) (i : Z) (cmds : list commandSpec) : string :=
  match cmds with
  | [] => ""
  | cmd :: rest =>
      let line := padRight 12 (label cmd) ++ "  " ++ description cmd in
      (if i =? selected m
       then Render (listSelected modelStyles) line
       else Render (listItem modelStyles) line)
      ++ nl ++ commandLines m (i + 1) rest
  end.

(** The prompt is the one of "custom". *)
Definition customActive (m : model) : bool :=
  match activeCommand m with
  | Some active => label active == "custom"
  | None => false
  end.

Definition View (m : model) : result string :=
  if negb (ready m) then Ok "Loading..."
  else
    let title := " DevTunnels TUI | macOS + Linux " in
    let b := Render (header modelStyles) title ++ nl in
    let statusStyle := statusOK modelStyles in
    let statusStyle :=
      if negb (devtunnelFound m) then statusErr modelStyles
      else if running m then statusWarn modelStyles
      else statusStyle in
    let b :=
      if running m
      then b ++ Render statusStyle (spinner_View (spinner m) ++ " " ++ status m)
      else b ++ Render statusStyle (status m) in
    let b := b ++ nl ++ nl in
    b <-
      (if inPrompt m then
         let b := b ++ Render (subHeader modelStyles) "Input" ++ nl in
         let b := b ++ Render (desc modelStyles) (currentPrompt m) ++ nl in
         b <-
           (if customActive m then Ok (b ++ textinput_View (customCmdInput m))
            else if len (promptInputs m) >? 0 then
              input <- idx (promptInputs m) (promptIndex m) ;;
              Ok (b ++ textinput_View input)
            else Ok b) ;;
         let b := b ++ nl in
         let b := b ++ Render (help modelStyles) "Enter: next/run  Esc: cancel" in
         Ok (b ++ nl ++ nl)
       else
         let b := b ++ Render (subHeader modelStyles) "Commands" ++ nl in
         let b := b ++ commandLines m 0 (commands m) in
         Ok (b ++ nl)) ;;
    let b := b ++ Render (subHeader modelStyles) "Output" ++ nl in
    let b := b ++ Render (Width (outputBoxWidth m) (box modelStyles))
                    (viewport_View (viewport m)) in
    let b := b ++ nl in
    let b :=
      if showHelp m
      then b ++ Render (help modelStyles)
                  "j/k or up/down: navigate | Enter: execute | r: rerun last | ?: toggle help | q: quit"
      else b ++ Render (help modelStyles) "Press ? for key help" in
    Ok b.

End View.
End MainGoView.

(** *** [View] of [src/unnamed/part_000] *)

Module Part000View.
Import Part000.

Record styles : Type := mkStyles {
  header : Style;
  headerInfo : Style;
  pane : Style;
  paneTitle : Style;
  selected : Style;
  normal : Style;
  dim : Style;
  ok : Style;
  warn : Style;
  err : Style;
  hotkey : Style;
  cmdline : Style;
  statusBar : Style;
  focusBorder : Style
}.

(** The [styles] field of the model is [newStyles()]: [initialModel] sets it
    and nothing writes it afterwards. *)
Definition newStyles : styles := {|
  header := Padding 0 1 (Background "24" (Foreground "230" (Bold true NewStyle)));
  headerInfo := Padding 0 1 (Background "24" (Foreground "117" NewStyle));
  pane := Padding 0 1 (BorderForeground "238" (Border NewStyle));
  paneTitle := Foreground "81" (Bold true NewStyle);
  selected := Padding 0 1 (Background "31" (Foreground "231" (Bold true NewStyle)));
  normal := Padding 0 1 (Foreground "252" NewStyle);
  dim := Foreground "244" NewStyle;
  ok := Bold true (Foreground "42" NewStyle);
  warn := Bold true (Foreground "214" NewStyle);
  err := Bold true (Foreground "196" NewStyle);
  hotkey := Bold true (Foreground "121" NewStyle);
  cmdline := Padding 0 1 (Background "236" (Foreground "230" NewStyle));
  statusBar := Padding 0 1 (Background "236" (Foreground "252" NewStyle));
  focusBorder := BorderForeground "39" NewStyle
|}.

(** The local [mode] of [renderHeader]. *)
Definition headerMode (m : model) : string :=
  if filterMode m then "FILTER"
  else if cmdMode m then "COMMAND"
  else if formMode m then "FORM"
  else if running m then "RUNNING"
  else "NORMAL".

(** [m.cmdIdx] after the first statement of [renderCommands], which works
    on its own copy of the model. *)
Definition renderCommands_cmdIdx (m : model) : Z :=
  let cmds := visibleCommands m in
  if cmdIdx m >=? len cmds then max 0 (len cmds - 1) else cmdIdx m.

(** [renderCommands] writes the line of the filter. *)
Definition filterLineShown (m : model) : bool :=
  negb (TrimSpace (Value (filterInput m)) == "").

Section View.
Context {R : Rendering}.

Definition renderHeader (m : model) : string :=
  let left := Render (header newStyles) " DevTunnels TUI " in
  let mode := headerMode m in
  let statusStyle := ok newStyles in
  let statusStyle := if running m then warn newStyles else statusStyle in
  let statusStyle := if statusErr m then err newStyles else statusStyle in
  let statusText_ := statusText m in
  let statusText_ :=
    if running m then spinner_View (spinner m) ++ " " ++ statusText_
    else statusText_ in
  let right := Render (headerInfo newStyles)
                 ("mode:" ++ mode ++ "  " ++ Render statusStyle statusText_) in
  JoinHorizontal [left; right].

Definition paneStyleForFocus (m : model) (pane_ width height : Z) : Style :=
  let s := Height height (Width width (pane newStyles)) in
  if (focusPane m =? pane_) && negb (formMode m) && negb (cmdMode m)
     && negb (filterMode m)
  then BorderForeground "39" s
  else s.

(** [for i, c := range m.categories { ... }], from index [i] on. *)
Fixpoint categoryLines (m : model) (i : Z) (cats : list commandCategory) : string :=
  match cats with
  | [] => ""
  | c :: rest =>
      let line := itoa (i + 1) ++ " " ++ catName c in
      (if i =? catIdx m
       then Render (selected newStyles) line
       else Render (normal newStyles) line)
      ++ nl ++ categoryLines m (i + 1) rest
  end.

Definition renderCategories (m : model) (width height : Z) : string :=
  let b := Render (paneTitle newStyles) "Resources" ++ nl in
  let b := b ++ categoryLines m 0 (categories m) in
  Render (paneStyleForFocus m 0 width height) b.

(** [for i, c := range cmds { ... }], from index [i] on, with the cursor at
    [cursor]. *)
Fixpoint commandLines (cursor i : Z) (cmds : list commandItem) : string :=
  match cmds with
  | [] => ""
  | c :: rest =>
      let line := padRight 14 (name c) ++ " " ++ description c in
      (if i =? cursor
       then Render (selected newStyles) line
       else Render (normal newStyles) line)
      ++ nl ++ commandLines cursor (i + 1) rest
  end.

Definition renderCommands (m : model) (width height : Z) : result string :=
  let cmds := visibleCommands m in
  let cursor := renderCommands_cmdIdx m in
  let b := Render (paneTitle newStyles) "Commands" ++ nl in
  let b :=
    if filterLineShown m
    then b ++ Render (dim newStyles) ("filter: " ++ Value (filterInput m)) ++ nl
    else b in
  b <-
    (if len cmds =? 0 then
       Ok (b ++ Render (dim newStyles) "No commands match filter" ++ nl)
     else
       let b := b ++ commandLines cursor 0 cmds in
       let b := b ++ nl in
       selected_ <- idx cmds cursor ;;
       let b := b ++ Render (dim newStyles)
                       ("selected: "
                        ++ Join ("devtunnel" :: baseArgs selected_) " ")
                  ++ nl in
       let b :=
         if negb (example selected_ == "")
         then b ++ Render (dim newStyles)
                     ("example: devtunnel " ++ example selected_) ++ nl
         else b in
       Ok b) ;;
  Ok (Render (paneStyleForFocus m 1 width height) b).

Definition renderOutput (m : model) (width height : Z) : string :=
  let b := Render (paneTitle newStyles) "Output" ++ nl in
  let b := b ++ viewport_View (viewport m) in
  Render (paneStyleForFocus m 2 width height) b.

Definition renderMain (m : model) : result string :=
  let leftW := renderMain_leftW m in
  let midW := renderMain_midW m in
  let rightW := renderMain_rightW m in
  let height := renderMain_height m in
  let catPane := renderCategories m leftW height in
  cmdPane <- renderCommands m midW height ;;
  let outPane := renderOutput m rightW height in
  Ok (JoinHorizontal [catPane; cmdPane; outPane]).

Definition renderFormOverlay (m : model) : result string :=
  match formCmd m with
  | None => Ok (Render (cmdline newStyles) "form unavailable")
  | Some formCmd_ =>
      let b := "Run: devtunnel " ++ Join (baseArgs formCmd_) " " ++ nl in
      label <- idx (formLabels m) (formIndex m) ;;
      let b := b ++ "Field "
                 ++ (itoa (int_add (formIndex m) 1) ++ "/"
                     ++ itoa (len (formInputs m)))
                 ++ " - " ++ label ++ nl in
      input <- idx (formInputs m) (formIndex m) ;;
      let b := b ++ textinput_View input ++ nl in
      let b := b ++ "Enter next/run, Esc cancel" in
      Ok (Render (cmdline newStyles) b)
  end.

Definition renderBottomBar (m : model) : result string :=
  if formMode m then renderFormOverlay m
  else if cmdMode m then
    Ok (Render (cmdline newStyles)
          (textinput_View (cmdInput m) ++ "  (Enter run, Esc cancel)"))
  else if filterMode m then
    Ok (Render (cmdline newStyles)
          (textinput_View (filterInput m) ++ "  (Enter apply, Esc cancel)"))
  else
    let help := [
      Render (hotkey newStyles) "←/→" ++ " category";
      Render (hotkey newStyles) "↑/↓" ++ " command";
      Render (hotkey newStyles) "enter" ++ " run";
      Render (hotkey newStyles) ":" ++ " raw cmd";
      Render (hotkey newStyles) "/" ++ " filter";
      Render (hotkey newStyles) "u/d" ++ " output scroll";
      Render (hotkey newStyles) "r" ++ " rerun";
      Render (hotkey newStyles) "q" ++ " quit"
    ] in
    Ok (Render (statusBar newStyles) (Join help "  ")).

Definition View (m : model) : result string :=
  if negb (ready m) then Ok "Loading..."
  else
    let header_ := renderHeader m in
    main <- renderMain m ;;
    bar <- renderBottomBar m ;;
    Ok (header_ ++ nl ++ main ++ nl ++ bar).

End View.
End Part000View.

(** *** A small instance of the drawing

    Styles that draw the text as it is, blocks joined by a bar, and widgets
    that show their text.  It serves to run [View] on concrete models. *)
Definition plainRendering : Rendering := {|
  Render := fun _ s => s;
  JoinHorizontal := fun blocks => Join blocks " | ";
  textinput_View := fun t => Prompt t ++ tiValue t;
  viewport_View := fun v => vpContent v;
  spinner_View := fun _ => "*"
|}.

(** * The vocabulary of the properties *)

(** In a queue of messages, every "finished" message comes after a "started"
    message with the same command text. *)
Definition startedBeforeFinished (q : list Msg) : Prop :=
  forall (i : nat) (text out : string) (err : option GoError),
    nth_error q i = Some (runFinishedMsg text out err) ->
    exists j : nat, (j < i)%nat /\ nth_error q j = Some (runStartedMsg text).

(** A world in which every child is still running, with some output written,
    when either deadline passes. *)
Definition worldSlow : World :=
  mkWorld (fun _ => true)
    (fun _ => mkChild (Part000.deadline + 1) (fun _ => "connecting...") None).

(** The states the loops of the two programs can be in. *)
Definition Part000_reachable {B : Bubbles} (w : World)
  (s : loopState Part000.model) : Prop :=
  reachable Part000.Update w Part000.initialModel
    (Part000.Init Part000.initialModel) s.

Definition MainGo_reachable {B : Bubbles} (w : World)
  (s : loopState MainGo.model) : Prop :=
  reachable MainGo.Update w MainGo.initialModel
    (MainGo.Init MainGo.initialModel) s.

(** The probe is delivered, then the operator types ":" and "list". *)
Definition rawListKeys : list Event :=
  [Deliver 0; Input (KeyMsg (typed ":")); Input (KeyMsg (typed "list"))].

(** The same, then Enter, then the "started" message is delivered. *)
Definition rawListStarted : list Event :=
  [Deliver 0; Input (KeyMsg (typed ":")); Input (KeyMsg (typed "list"));
   Input (KeyMsg (pressed KeyEnter)); Deliver 3].

(** The loop of [src/unnamed/part_000] after [es], on the small widgets. *)
Definition Part000_after (w : World) (es : list Event) : loopState Part000.model :=
  let start := mkLoop Part000.initialModel
                 (queues w (Part000.Init Part000.initialModel)) in
  match replay Part000.model (@Part000.Update plainWidgets) w start es with
  | Some s => s
  | None => start
  end.

(** A message that tells the truth about the search path: a "finished"
    message for the probe's command text carries an error exactly when the
    tool is missing. *)
Definition okMsg (w : World) (msg : Msg) : bool :=
  match msg with
  | runFinishedMsg text _ err =>
      if text == "which devtunnel" then
        match err with
        | None => lookPath w "devtunnel"
        | Some _ => negb (lookPath w "devtunnel")
        end
      else true
  | _ => true
  end.

Definition okQueues (w : World) (qs : list (list Msg)) : Prop :=
  Forall (Forall (fun msg => okMsg w msg = true)) qs.

(** An argument vector is empty or starts with the tool. *)
Definition fromTool (parts : list string) : Prop :=
  parts = [] \/ exists rest : list string, parts = "devtunnel" :: rest.

(** What [src/main.go] keeps true of its model: while the tool-availability
    flag is false there is no last command and no form is open; the flag is
    false when the tool is missing; the last command, if any, starts with the
    tool. *)
Definition guardInv (w : World) (m : MainGo.model) : Prop :=
  (MainGo.devtunnelFound m = false ->
   MainGo.lastCommand m = [] /\ MainGo.inPrompt m = false)
  /\ (lookPath w "devtunnel" = false -> MainGo.devtunnelFound m = false)
  /\ fromTool (MainGo.lastCommand m).

(** The same update with a field of the model changed on both sides. *)
Definition onModel {M : Type} (f : M -> M) (r : result (M * Cmd))
  : result (M * Cmd) :=
  match r with
  | Ok (m, c) => Ok (f m, c)
  | Panic => Panic
  end.

Definition startsNonSpace (s : string) : Prop :=
  match s with
  | EmptyString => True
  | String c _ => isSpace c = false
  end.

(** The trimmed text of a field. *)
Definition trimmed (input : textinput) : string := TrimSpace (Value input).

(** The field at index [i] holds nothing but white space. *)
Definition emptyField (inputs : list textinput) (i : nat) : Prop :=
  exists input : textinput,
    nth_error inputs i = Some input /\ TrimSpace (Value input) = "".

(** [j] is the first empty field. *)
Definition firstEmptyField (inputs : list textinput) (j : nat) : Prop :=
  emptyField inputs j /\ forall t : nat, (t < j)%nat -> ~ emptyField inputs t.

(** The argument vector of a form: the tool, the base arguments, the trimmed
    values of the required fields in order, then the tokens of the optional
    field. *)
Definition formVector (base : list string) (reqs : list textinput)
  (opt : textinput) : list string :=
  ("devtunnel" :: (base ++ map trimmed reqs)
     ++ (if trimmed opt == "" then [] else Fields (trimmed opt)))%list.

(** The model of an update that did not panic. *)
Definition modelOf {M : Type} (r : result (M * Cmd)) (otherwise : M) : M :=
  match r with
  | Ok (m, _) => m
  | Panic => otherwise
  end.

(** The form of "show" in [src/unnamed/part_000], opened by Enter on the
    second command of the first category, with nothing typed, and the form of
    "show" in [src/main.go], opened by Enter on the fourth command, with
    nothing typed and the focus moved to the second field. *)
Definition Part000_showItem : Part000.commandItem :=
  Part000.mkCommandItem "show" "Show tunnel details" ["show"] ["tunnel-id"] "" "".

Definition Part000_showForm : Part000.model :=
  let m := Part000.set_cmdIdx 1
             (Part000.set_devtunnelFound true Part000.initialModel) in
  modelOf (@Part000.Update plainWidgets m (KeyMsg (pressed KeyEnter))) m.

Definition MainGo_showSpec : MainGo.commandSpec :=
  MainGo.mkCommandSpec "show" "Show tunnel details" ["show"] ["tunnel-id"]
    "optional args".

Definition MainGo_showForm : MainGo.model :=
  let m := MainGo.set_selected 3
             (MainGo.set_devtunnelFound true MainGo.initialModel) in
  let m := modelOf (@MainGo.Update plainWidgets m (KeyMsg (pressed KeyEnter))) m in
  modelOf (@MainGo.Update plainWidgets m (KeyMsg (pressed KeyEnter))) m.

(** A command with two required labels and an optional one, and its form in
    [src/unnamed/part_000] with "X", "Y" and "--flag val" in the fields. *)
Definition copyItem : Part000.commandItem :=
  Part000.mkCommandItem "copy" "Copy a tunnel" ["copy"] ["from"; "to"] "flags" "".

Definition copyForm : Part000.model :=
  let m := Part000.set_categories [Part000.mkCategory "Tunnels" [copyItem]]
             (Part000.set_devtunnelFound true Part000.initialModel) in
  let m := modelOf (@Part000.Update plainWidgets m (KeyMsg (pressed KeyEnter))) m in
  Part000.set_formInputs
    [SetValue "X" (Focus (Part000.newFormInput "from"));
     SetValue "Y" (Part000.newFormInput "to");
     SetValue "--flag val" (Part000.newFormInput "flags")] m.

Section Part000Vocabulary.
Import Part000.

(** The model with the categories of the catalog and [text] in the filter
    field. *)
Definition filtered (text : string) : model :=
  set_filterInput (SetValue text (filterInput initialModel)) initialModel.

(** The argument form of command [c] is open, and nothing else is. *)
Definition Part000_formOpen (m : model) (c : commandItem) : Prop :=
  formMode m = true /\ cmdMode m = false /\ filterMode m = false
  /\ formCmd m = Some c.

(** The focus is on the last field, where Enter submits the form. *)
Definition Part000_onLastField (m : model) : Prop :=
  len (formInputs m) - 1 <= formIndex m.

(** The model after the form is left for the missing field [lbl]. *)
Definition Part000_aborted (lbl : string) (m : model) : model :=
  set_formCmd None
    (set_formMode false
       (set_statusText ("missing required: " ++ lbl) (set_statusErr true m))).

(** The form of [p'] is the form of [p] with the focus moved. *)
Definition Part000_sameForm (p p' : model) : Prop :=
  formMode p' = formMode p /\ cmdMode p' = cmdMode p
  /\ filterMode p' = filterMode p /\ formCmd p' = formCmd p
  /\ map Value (formInputs p') = map Value (formInputs p)
  /\ lastCmd p' = lastCmd p.

End Part000Vocabulary.

Section MainGoVocabulary.
Import MainGo.

(** The values of the fields before the focused one have been recorded,
    trimmed, when Enter moved the focus on. *)
Definition MainGo_recorded (m : model) : Prop :=
  forall (i : nat) (input : textinput),
    Z.of_nat i < promptIndex m ->
    nth_error (promptInputs m) i = Some input ->
    nth_error (promptValues m) i = Some (TrimSpace (Value input)).

(** The argument form of command [c] is open and no command is running. *)
Definition MainGo_formOpen (m : model) (c : commandSpec) : Prop :=
  running m = false /\ inPrompt m = true /\ activeCommand m = Some c
  /\ label c <> "custom"
  /\ List.length (promptValues m) = List.length (promptInputs m)
  /\ MainGo_recorded m.

(** The focus is on the last field, where Enter submits the form. *)
Definition MainGo_onLastField (m : model) : Prop :=
  exists n : nat,
    promptIndex m = Z.of_nat n /\ List.length (promptInputs m) = S n.

(** The model after the form is left for the missing field [lbl], with
    [values] recorded. *)
Definition MainGo_aborted (lbl : string) (values : list string) (m : model)
  : model :=
  leavePrompt
    (set_status ("missing required argument: " ++ lbl)
       (set_promptValues values m)).

End MainGoVocabulary.

(** ** Well-formed models

    What the two programs keep true of their models along every run, and
    what their slice accesses rely on. *)

(** [visibleCommands] reads three things of the model: the categories, the
    category cursor and the filter text. *)
Definition Part000_visibleFor (cats : list Part000.commandCategory) (ci : Z)
  (text : string) : list Part000.commandItem :=
  Part000.visibleCommands
    (Part000.set_filterInput (SetValue text textinput_New)
       (Part000.set_catIdx ci (Part000.set_categories cats Part000.initialModel))).

(** A catalog whose lengths are far from the end of [int]. *)
Definition Part000_smallCatalog (cats : list Part000.commandCategory) : Prop :=
  len cats < 2 ^ 63
  /\ Forall (fun cat =>
       Forall (fun c => len (Part000.required c) + 1 < 2 ^ 63)
         (Part000.commands cat)) cats.

(** The category cursor is on a category; the command cursor is on the
    first or on the last visible command; an open form has its focus on one
    of its fields, a label for every field and a field for every required
    label; at most one of the form, the raw command line and the filter field
    is open. *)
Definition Part000_wf (m : Part000.model) : Prop :=
  Part000_smallCatalog (Part000.categories m)
  /\ 0 <= Part000.catIdx m < len (Part000.categories m)
  /\ 0 <= Part000.cmdIdx m
  /\ (Part000.cmdIdx m = 0
      \/ Part000.cmdIdx m = len (Part000.visibleCommands m) - 1)
  /\ (Part000.formMode m = true ->
      Part000.cmdMode m = false /\ Part000.filterMode m = false
      /\ 0 <= Part000.formIndex m < len (Part000.formInputs m)
      /\ len (Part000.formInputs m) < 2 ^ 63
      /\ len (Part000.formLabels m) = len (Part000.formInputs m)
      /\ (forall c, Part000.formCmd m = Some c ->
            len (Part000.required c) <= len (Part000.formInputs m)))
  /\ (Part000.cmdMode m = true -> Part000.filterMode m = false).

Definition MainGo_smallCommands (cmds : list MainGo.commandSpec) : Prop :=
  len cmds < 2 ^ 63
  /\ Forall (fun c => len (MainGo.requiredArgs c) + 1 < 2 ^ 63) cmds.

(** The cursor is on a command; while a prompt is open it has its command,
    and the prompt of a command other than "custom" has its focus on one of
    its fields, a recorded value for every field and a field for every
    required label. *)
Definition MainGo_wf (m : MainGo.model) : Prop :=
  MainGo_smallCommands (MainGo.commands m)
  /\ 0 <= MainGo.selected m < len (MainGo.commands m)
  /\ (MainGo.inPrompt m = true ->
      forall c, MainGo.activeCommand m = Some c ->
        (MainGo.label c == "custom") = false ->
        0 <= MainGo.promptIndex m < len (MainGo.promptInputs m)
        /\ len (MainGo.promptValues m) = len (MainGo.promptInputs m)
        /\ len (MainGo.promptInputs m) < 2 ^ 63
        /\ len (MainGo.requiredArgs c) <= len (MainGo.promptInputs m))
  /\ (MainGo.inPrompt m = true -> MainGo.activeCommand m <> None).

(** What [src/unnamed/part_000] keeps true of its model: on a machine
    without the tool the tool-availability flag is false and no form is open;
    the last command, if any, starts with the tool. *)
Definition Part000_toolInv (w : World) (m : Part000.model) : Prop :=
  (lookPath w "devtunnel" = false ->
   Part000.devtunnelFound m = false /\ Part000.formMode m = false)
  /\ fromTool (Part000.lastCmd m).

(** ** Tokens *)

Fixpoint noSpace (s : string) : bool :=
  match s with
  | EmptyString => true
  | String c s' => negb (isSpace c) && noSpace s'
  end.

(** A token: a string that is not empty and holds no white space. *)
Definition isToken (t : string) : bool := negb (t == "") && noSpace t.

(** ** Outcomes *)

(** The run ended with an error. *)
Definition failed (err : option GoError) : bool :=
  match err with
  | Some _ => true
  | None => false
  end.

(** ** A filled prompt

    The prompt of "show" in [src/main.go] with "t1" typed and recorded in
    the first field and two flags typed in the second. *)
Definition MainGo_showFilled : MainGo.model :=
  MainGo.set_promptValues ["t1"; ""]
    (MainGo.set_promptInputs
       [SetValue "t1" (Blur (Focus (MainGo.newPromptInput "tunnel-id")));
        SetValue "--verbose -x" (Focus (MainGo.newPromptInput "optional args"))]
       MainGo_showForm).

(** The loop of [src/main.go] after [es], on the small widgets. *)
Definition MainGo_after (w : World) (es : list Event) : loopState MainGo.model :=
  let start := mkLoop MainGo.initialModel
                 (queues w (MainGo.Init MainGo.initialModel)) in
  match replay MainGo.model (@MainGo.Update plainWidgets) w start es with
  | Some s => s
  | None => start
  end.

(** The terminal reports its size, the probe finds the tool, and the
    operator moves the cursor to "show" and presses Enter. *)
Definition promptShow : list Event :=
  [Input (WindowSizeMsg 120 40); Deliver 0; Input (KeyMsg (typed "j"));
   Input (KeyMsg (typed "j")); Input (KeyMsg (typed "j"));
   Input (KeyMsg (pressed KeyEnter))].

(** The terminal reports its size, the probe finds the tool, and the
    operator opens the filter field and types "zz". *)
Definition filterNothing : list Event :=
  [Input (WindowSizeMsg 120 40); Deliver 0; Input (KeyMsg (typed "/"));
   Input (KeyMsg (typed "zz"))].

(** * Properties *)

(** Boolean comparisons of integers, as hypotheses for [lia]. *)
Ltac zbool :=
  repeat match goal with
  | H : (_ <? _) = true |- _ => apply Z.ltb_lt in H
  | H : (_ <? _) = false |- _ => apply Z.ltb_ge in H
  | H : (_ <=? _) = true |- _ => apply Z.leb_le in H
  | H : (_ <=? _) = false |- _ => apply Z.leb_gt in H
  | H : (_ >? _) = true |- _ => apply Z.gtb_lt in H
  | H : (_ >? _) = false |- _ => rewrite Z.gtb_ltb in H
  | H : (_ >=? _) = true |- _ => apply Z.geb_le in H
  | H : (_ >=? _) = false |- _ => rewrite Z.geb_leb in H
  | H : (_ =? _) = true |- _ => apply Z.eqb_eq in H
  | H : (_ =? _) = false |- _ => apply Z.eqb_neq in H
  end.

(** ** Strings and slices *)

Lemma HasPrefix_spec (p s : string) :
  HasPrefix s p = true <-> exists post : string, s = p ++ post.
Proof.
  revert s; induction p as [|a p IH]; intros s; simpl.
  - split; [intros _; exists s; reflexivity | intros _; destruct s; reflexivity].
  - destruct s as [|b s]; simpl.
    + split; [discriminate | intros [post H]; discriminate].
    + rewrite andb_true_iff, IH. split.
      * intros [Hab [post ->]]. apply Ascii.eqb_eq in Hab; subst b.
        exists post; reflexivity.
      * intros [post H]. injection H as -> ->. split.
        -- apply Ascii.eqb_refl.
        -- exists post; reflexivity.
Qed.

Lemma Contains_unfold (s sub : string) :
  Contains s sub =
  HasPrefix s sub ||
  match s with
  | EmptyString => false
  | String _ s' => Contains s' sub
  end.
Proof. destruct s; reflexivity. Qed.

Lemma Contains_spec (s sub : string) :
  Contains s sub = true <-> Substring sub s.
Proof.
  unfold Substring. induction s as [|c s IH]; rewrite Contains_unfold, orb_true_iff.
  - split.
    + intros [H | H]; [| discriminate].
      apply HasPrefix_spec in H as [post H]. exists "", post. exact H.
    + intros [pre [post H]]. left. apply HasPrefix_spec.
      destruct pre; simpl in H; [exists post; exact H | discriminate].
  - split.
    + intros [H | H].
      * apply HasPrefix_spec in H as [post H]. exists "", post. exact H.
      * apply IH in H as [pre [post H]]. exists (String c pre), post.
        simpl. rewrite H. reflexivity.
    + intros [pre [post H]]. destruct pre as [|c' pre]; simpl in H.
      * left. apply HasPrefix_spec. exists post; exact H.
      * right. apply IH. injection H as _ H. exists pre, post; exact H.
Qed.

Lemma Contains_empty (s : string) : Contains s "" = true.
Proof. rewrite Contains_unfold. destruct s; reflexivity. Qed.

Lemma fold_append_filter {A : Type} (p : A -> bool) (items acc : list A) :
  fold_left (fun out item => if p item then (out ++ [item])%list else out) items acc
  = (acc ++ filter p items)%list.
Proof.
  revert acc; induction items as [|x items IH]; intros acc; simpl.
  - rewrite app_nil_r; reflexivity.
  - rewrite IH. destruct (p x); [rewrite <- app_assoc |]; reflexivity.
Qed.

Lemma filter_all {A : Type} (p : A -> bool) (l : list A) :
  (forall x, p x = true) -> filter p l = l.
Proof.
  intros H; induction l as [|x l IH]; simpl; [reflexivity |].
  rewrite H, IH; reflexivity.
Qed.

Lemma wrap64_small (z : Z) : int_range z -> wrap64 z = z.
Proof.
  unfold int_range, wrap64; intros H.
  change (2 ^ 64) with (2 * 2 ^ 63).
  assert (Hk : 0 < 2 ^ 63) by reflexivity.
  set (k := 2 ^ 63) in *; clearbody k.
  rewrite Z.mod_small by lia. lia.
Qed.

Lemma wrap64_range (z : Z) : int_range (wrap64 z).
Proof.
  unfold int_range, wrap64.
  change (2 ^ 64) with (2 * 2 ^ 63).
  assert (Hk : 0 < 2 ^ 63) by reflexivity.
  set (k := 2 ^ 63) in *; clearbody k.
  pose proof (Z.mod_pos_bound (z + k) (2 * k) ltac:(lia)). lia.
Qed.

Lemma max_lower (a b : Z) : a <= max a b.
Proof. unfold max. destruct (a >? b) eqn:E; zbool; lia. Qed.

Lemma idx_nth {A : Type} (l : list A) (n : nat) (a : A) :
  nth_error l n = Some a -> idx l (Z.of_nat n) = Ok a.
Proof.
  intros H. unfold idx.
  destruct (Z.of_nat n <? 0) eqn:E; [zbool; lia |].
  rewrite Nat2Z.id, H. reflexivity.
Qed.

(** ** The visible commands (C5) *)

Section Filter.
Import Part000.




End Filter.

(** ** The process runner (C3, C8) *)

(** What the second function of [runCommandCmd] returns. *)
Lemma fire_exec (w : World) (d : Z) (notice : string) (parts : list string)
  (text : string) :
  fire w (ThExec d notice parts text) =
  if d <? elapsed (spawn w parts)
  then runFinishedMsg text (capturedBy (spawn w parts) d ++ notice)
         (Some DeadlineExceeded)
  else runFinishedMsg text
         (capturedBy (spawn w parts) (elapsed (spawn w parts)))
         (exitErr (spawn w parts)).
Proof.
  unfold fire, commandRun.
  destruct (d <? elapsed (spawn w parts)); reflexivity.
Qed.

Lemma fire_exec_finished (w : World) (d : Z) (notice : string)
  (parts : list string) (text : string) :
  exists out err, fire w (ThExec d notice parts text) = runFinishedMsg text out err.
Proof.
  rewrite fire_exec. destruct (d <? elapsed (spawn w parts)); eauto.
Qed.

Lemma started_then_finished (text out : string) (err : option GoError) :
  startedBeforeFinished [runStartedMsg text; runFinishedMsg text out err].
Proof.
  intros i t o e H.
  destruct i as [|[|i]]; simpl in H.
  - discriminate.
  - injection H as -> _ _. exists 0%nat. split; [lia | reflexivity].
  - destruct i; discriminate.
Qed.

Lemma MainGo_runCommandCmd_queues (w : World) (p : string) (ps : list string) :
  queues w (MainGo.runCommandCmd (p :: ps)) =
  [[runStartedMsg (Join (p :: ps) " ");
    fire w (ThExec MainGo.deadline MainGo.timeoutNotice (p :: ps)
              (Join (p :: ps) " "))]].
Proof. reflexivity. Qed.

Lemma Part000_runCommandCmd_queues (w : World) (p : string) (ps : list string) :
  queues w (Part000.runCommandCmd (p :: ps)) =
  [[runStartedMsg (Join (p :: ps) " ");
    fire w (ThExec Part000.deadline Part000.timeoutNotice (p :: ps)
              (Join (p :: ps) " "))]].
Proof. reflexivity. Qed.

(** C3 as stated fails for the startup probe: the only message
    of [checkBinaryCmd] is a "finished" message, in both programs. *)
Lemma C3_probe_finished_without_started :
  ~ Forall startedBeforeFinished (queues worldWith MainGo.checkBinaryCmd)
  /\ ~ Forall startedBeforeFinished (queues worldWith Part000.checkBinaryCmd).
Proof.
  split; intros H; inversion H as [|q qs Hq _]; subst;
    destruct (Hq 0%nat _ _ _ eq_refl) as [j [Hj _]]; lia.
Qed.

(** C3, amended: for every invocation of the process runner through
    [runCommandCmd], the "started" notification is delivered before the
    "finished" notification of that invocation, and no "finished"
    notification comes without the "started" one before it.  The startup
    probe delivers a single "finished" notification, for the command text
    "which devtunnel", and no "started" notification. *)
Theorem C3_started_before_finished (w : World) (parts : list string) :
  Forall startedBeforeFinished (queues w (MainGo.runCommandCmd parts))
  /\ Forall startedBeforeFinished (queues w (Part000.runCommandCmd parts))
  /\ (exists out err,
        queues w MainGo.checkBinaryCmd = [[runFinishedMsg "which devtunnel" out err]])
  /\ (exists out err,
        queues w Part000.checkBinaryCmd = [[runFinishedMsg "which devtunnel" out err]]).
Proof.
  repeat split.
  - destruct parts as [|p ps]; [constructor |].
    rewrite MainGo_runCommandCmd_queues.
    destruct (fire_exec_finished w MainGo.deadline MainGo.timeoutNotice
                (p :: ps) (Join (p :: ps) " ")) as [out [err ->]].
    constructor; [apply started_then_finished | constructor].
  - destruct parts as [|p ps]; [constructor |].
    rewrite Part000_runCommandCmd_queues.
    destruct (fire_exec_finished w Part000.deadline Part000.timeoutNotice
                (p :: ps) (Join (p :: ps) " ")) as [out [err ->]].
    constructor; [apply started_then_finished | constructor].
  - unfold MainGo.checkBinaryCmd, queues, fire.
    destruct (lookPath w "devtunnel"); eauto.
  - unfold Part000.checkBinaryCmd, queues, fire.
    destruct (lookPath w "devtunnel"); eauto.
Qed.

(** C8: an execution whose child outlives the deadline delivers one
    "finished" notification whose error is the deadline error and whose
    output is the output captured up to the deadline followed by the timeout
    notice; an execution that ends within the deadline delivers the captured
    output with nothing appended, and the error of the run.  In both
    programs. *)
Theorem C8_timeout_appends_notice (w : World) (p : string) (ps : list string) :
  let parts := p :: ps in
  let child := spawn w parts in
  let cmdText := Join parts " " in
  (Part000.deadline < elapsed child ->
   queues w (Part000.runCommandCmd parts) =
   [[runStartedMsg cmdText;
     runFinishedMsg cmdText
       (capturedBy child Part000.deadline ++ nl ++ nl ++ "Timed out after 10 minutes.")
       (Some DeadlineExceeded)]])
  /\ (elapsed child <= Part000.deadline ->
      queues w (Part000.runCommandCmd parts) =
      [[runStartedMsg cmdText;
        runFinishedMsg cmdText (capturedBy child (elapsed child)) (exitErr child)]])
  /\ (MainGo.deadline < elapsed child ->
      queues w (MainGo.runCommandCmd parts) =
      [[runStartedMsg cmdText;
        runFinishedMsg cmdText
          (capturedBy child MainGo.deadline ++ nl ++ nl ++ "Timed out after 5 minutes.")
          (Some DeadlineExceeded)]])
  /\ (elapsed child <= MainGo.deadline ->
      queues w (MainGo.runCommandCmd parts) =
      [[runStartedMsg cmdText;
        runFinishedMsg cmdText (capturedBy child (elapsed child)) (exitErr child)]]).
Proof.
  cbv zeta. split; [| split; [| split]]; intros H.
  - rewrite Part000_runCommandCmd_queues, fire_exec.
    destruct (Part000.deadline <? _) eqn:E; zbool; [reflexivity | lia].
  - rewrite Part000_runCommandCmd_queues, fire_exec.
    destruct (Part000.deadline <? _) eqn:E; zbool; [lia | reflexivity].
  - rewrite MainGo_runCommandCmd_queues, fire_exec.
    destruct (MainGo.deadline <? _) eqn:E; zbool; [reflexivity | lia].
  - rewrite MainGo_runCommandCmd_queues, fire_exec.
    destruct (MainGo.deadline <? _) eqn:E; zbool; [lia | reflexivity].
Qed.

Lemma C8_timeout_appends_notice_witness :
  queues worldSlow (Part000.runCommandCmd ["devtunnel"; "host"]) =
  [[runStartedMsg "devtunnel host";
    runFinishedMsg "devtunnel host"
      ("connecting..." ++ nl ++ nl ++ "Timed out after 10 minutes.")
      (Some DeadlineExceeded)]].
Proof.
  apply (proj1 (C8_timeout_appends_notice worldSlow "devtunnel" ["host"])).
  reflexivity.
Defined.

(** ** Resizing (C9) *)

(** C9 fails in [src/main.go]: the width of the output viewport is the
    terminal width less four, with no minimum, so a terminal reported as zero
    columns wide leaves a viewport of width -4 (the height is held at eight or
    more).  This holds for every model and every behaviour of the widgets. *)
Theorem C9_main_viewport_width_unclamped (B : Bubbles) (m : MainGo.model) :
  exists m' : MainGo.model,
    MainGo.Update m (WindowSizeMsg 0 0) = Ok (m', CmdNil)
    /\ vpWidth (MainGo.viewport m') = -4
    /\ vpHeight (MainGo.viewport m') = 8
    /\ MainGo.outputBoxWidth m' = -2.
Proof.
  unfold MainGo.Update, MainGo.viewportTail. cbn.
  destruct (MainGo.ready m); cbn;
    eexists; (split; [reflexivity |]); repeat split.
Qed.

(** X28: in [src/unnamed/part_000] every size has its minimum, whatever the
    terminal reports: the viewport is at least 20 by 8, and the three panes
    of [renderMain] are at least 20, 36 and 30 columns wide and 8 rows high. *)
Lemma Part000_resize_minimum (B : Bubbles) (m : Part000.model) (w h : Z) :
  exists m' : Part000.model,
    Part000.Update m (WindowSizeMsg w h) = Ok (m', CmdNil)
    /\ 20 <= vpWidth (Part000.viewport m')
    /\ 8 <= vpHeight (Part000.viewport m')
    /\ 20 <= Part000.renderMain_leftW m'
    /\ 36 <= Part000.renderMain_midW m'
    /\ 30 <= Part000.renderMain_rightW m'
    /\ 8 <= Part000.renderMain_height m'.
Proof.
  unfold Part000.Update. cbn.
  destruct (Part000.ready m); cbn;
    eexists; (split; [reflexivity |]); cbn;
    unfold Part000.renderMain_leftW, Part000.renderMain_midW,
      Part000.renderMain_rightW, Part000.renderMain_height;
    repeat split; apply max_lower.
Qed.

(** ** Moving the cursors (C4) *)

(** C4 fails in [src/unnamed/part_000] for the command cursor: [moveUp] and
    [moveDown] change a copy of the model, so the up and down keys leave the
    cursor where it is.  At the start, with nine commands visible and the
    cursor on the first, the down key changes nothing; with the cursor moved
    to the last command by "G", the up key changes nothing either. *)
Theorem C4_up_down_keys_leave_cursor (B : Bubbles) :
  let m0 := Part000.initialModel in
  let m8 := Part000.set_cmdIdx 8 m0 in
  len (Part000.visibleCommands m0) = 9
  /\ Part000.cmdIdx m0 = 0
  /\ Part000.Update m0 (KeyMsg (pressed KeyDown)) = Ok (m0, CmdNil)
  /\ Part000.Update m0 (KeyMsg (typed "j")) = Ok (m0, CmdNil)
  /\ Part000.Update m0 (KeyMsg (typed "G")) = Ok (m8, CmdNil)
  /\ Part000.Update m8 (KeyMsg (pressed KeyUp)) = Ok (m8, CmdNil)
  /\ Part000.Update m8 (KeyMsg (typed "k")) = Ok (m8, CmdNil).
Proof. repeat split. Qed.

(** In every state in which no form, raw command line or filter field is
    open, the up and down keys change nothing at all. *)
Lemma Part000_up_down_noop (B : Bubbles) (m : Part000.model) (k : Key) :
  Part000.formMode m = false -> Part000.cmdMode m = false ->
  Part000.filterMode m = false ->
  k = pressed KeyUp \/ k = pressed KeyDown \/ k = typed "k" \/ k = typed "j" ->
  Part000.Update m (KeyMsg k) = Ok (m, CmdNil).
Proof.
  intros Hf Hc Hfl Hk. unfold Part000.Update. rewrite Hf, Hc, Hfl.
  destruct Hk as [-> | [-> | [-> | ->]]]; reflexivity.
Qed.

(** The body of [moveDown] does move the cursor by one within the visible
    list; the move is lost with the copy. *)
Lemma Part000_moveDown_local_cursor (m : Part000.model) :
  int_range (Part000.cmdIdx m) ->
  int_range (len (Part000.visibleCommands m)) ->
  Part000.cmdIdx (Part000.moveDown_local m) =
  if Part000.cmdIdx m <? len (Part000.visibleCommands m) - 1
  then Part000.cmdIdx m + 1 else Part000.cmdIdx m.
Proof.
  intros Hr Hl. unfold Part000.moveDown_local.
  destruct (Part000.cmdIdx m <? _) eqn:E; [| reflexivity].
  simpl. unfold int_add. apply wrap64_small.
  zbool. unfold int_range in *.
  assert (Hk : 0 < 2 ^ 63) by reflexivity.
  set (k := 2 ^ 63) in *; clearbody k.
  lia.
Qed.

Lemma int_step_up (z bound : Z) :
  int_range z -> z < bound - 1 -> bound < 2 ^ 63 -> int_add z 1 = z + 1.
Proof.
  intros Hz Hlt Hb. unfold int_add. apply wrap64_small.
  unfold int_range in *.
  assert (Hk : 0 < 2 ^ 63) by reflexivity.
  set (k := 2 ^ 63) in *; clearbody k. lia.
Qed.

Lemma int_step_down (z : Z) : int_range z -> 0 < z -> int_sub z 1 = z - 1.
Proof.
  intros Hz Hlt. unfold int_sub. apply wrap64_small.
  unfold int_range in *.
  assert (Hk : 0 < 2 ^ 63) by reflexivity.
  set (k := 2 ^ 63) in *; clearbody k. lia.
Qed.

(** The command cursor of [src/main.go] moves by one and stops at both ends
    of the list. *)
Lemma MainGo_down_key (B : Bubbles) (m : MainGo.model) :
  MainGo.running m = false -> MainGo.inPrompt m = false ->
  int_range (MainGo.selected m) -> len (MainGo.commands m) < 2 ^ 63 ->
  exists m' : MainGo.model,
    MainGo.Update m (KeyMsg (pressed KeyDown)) = Ok (m', CmdNil)
    /\ MainGo.selected m' =
       if MainGo.selected m <? len (MainGo.commands m) - 1
       then MainGo.selected m + 1 else MainGo.selected m.
Proof.
  intros Hrun Hin Hr Hl. unfold MainGo.Update, MainGo.viewportTail.
  rewrite Hrun, Hin. cbn -[int_add len].
  eexists; split; [reflexivity |].
  destruct (MainGo.selected m <? len (MainGo.commands m) - 1) eqn:E;
    cbn -[int_add len]; [| reflexivity].
  zbool. apply (int_step_up _ (len (MainGo.commands m))); assumption.
Qed.

Lemma MainGo_up_key (B : Bubbles) (m : MainGo.model) :
  MainGo.running m = false -> MainGo.inPrompt m = false ->
  int_range (MainGo.selected m) ->
  exists m' : MainGo.model,
    MainGo.Update m (KeyMsg (pressed KeyUp)) = Ok (m', CmdNil)
    /\ MainGo.selected m' =
       if MainGo.selected m >? 0
       then MainGo.selected m - 1 else MainGo.selected m.
Proof.
  intros Hrun Hin Hr. unfold MainGo.Update, MainGo.viewportTail.
  rewrite Hrun, Hin. cbn -[int_sub len].
  eexists; split; [reflexivity |].
  destruct (MainGo.selected m >? 0) eqn:E; cbn -[int_sub len]; [| reflexivity].
  zbool. apply int_step_down; assumption.
Qed.

(** The category cursor of [src/unnamed/part_000] moves by one and stops at
    both ends of the catalog; a move puts the command cursor back on the
    first command. *)
Lemma Part000_right_key (B : Bubbles) (m : Part000.model) :
  Part000.formMode m = false -> Part000.cmdMode m = false ->
  Part000.filterMode m = false ->
  int_range (Part000.catIdx m) -> len (Part000.categories m) < 2 ^ 63 ->
  exists m' : Part000.model,
    Part000.Update m (KeyMsg (pressed KeyRight)) = Ok (m', CmdNil)
    /\ Part000.catIdx m' =
       (if Part000.catIdx m <? len (Part000.categories m) - 1
        then Part000.catIdx m + 1 else Part000.catIdx m)
    /\ Part000.cmdIdx m' =
       (if Part000.catIdx m <? len (Part000.categories m) - 1
        then 0 else Part000.cmdIdx m).
Proof.
  intros Hf Hc Hfl Hr Hl. unfold Part000.Update.
  rewrite Hf, Hc, Hfl. cbn -[int_add len].
  eexists; split; [reflexivity |].
  destruct (Part000.catIdx m <? len (Part000.categories m) - 1) eqn:E;
    cbn -[int_add len]; [| split; reflexivity].
  zbool. split; [| reflexivity].
  apply (int_step_up _ (len (Part000.categories m))); assumption.
Qed.

Lemma Part000_left_key (B : Bubbles) (m : Part000.model) :
  Part000.formMode m = false -> Part000.cmdMode m = false ->
  Part000.filterMode m = false ->
  int_range (Part000.catIdx m) ->
  exists m' : Part000.model,
    Part000.Update m (KeyMsg (pressed KeyLeft)) = Ok (m', CmdNil)
    /\ Part000.catIdx m' =
       (if Part000.catIdx m >? 0
        then Part000.catIdx m - 1 else Part000.catIdx m)
    /\ Part000.cmdIdx m' =
       (if Part000.catIdx m >? 0 then 0 else Part000.cmdIdx m).
Proof.
  intros Hf Hc Hfl Hr. unfold Part000.Update.
  rewrite Hf, Hc, Hfl. cbn -[int_sub len].
  eexists; split; [reflexivity |].
  destruct (Part000.catIdx m >? 0) eqn:E; cbn -[int_sub len];
    [| split; reflexivity].
  zbool. split; [| reflexivity]. apply int_step_down; assumption.
Qed.

(** ** The guard on the missing tool (C1) *)

(** C1 fails in [src/unnamed/part_000]: the ":" key opens the raw command
    line without looking at the tool-availability flag, and Enter on that
    line dispatches without looking at it either.  On a machine without the
    tool: the probe reports the tool missing, the operator types ":", then
    "list", then Enter; the process runner is invoked with
    [devtunnel list], the status still reads "devtunnel not found in PATH",
    and the rerun key "r" invokes the runner once more. *)
Theorem C1_raw_command_line_skips_guard :
  exists s : loopState Part000.model,
    @Part000_reachable plainWidgets worldWithout s
    /\ Part000.devtunnelFound (cur s) = false
    /\ exists (m' : Part000.model) (c : Cmd),
         @Part000.Update plainWidgets (cur s) (KeyMsg (pressed KeyEnter)) = Ok (m', c)
         /\ c = Part000.runCommandCmd ["devtunnel"; "list"]
         /\ invokesRunner c = true
         /\ Part000.devtunnelFound m' = false
         /\ Part000.statusText m' = "devtunnel not found in PATH"
         /\ @Part000.Update plainWidgets m' (KeyMsg (typed "r")) = Ok (m', c).
Proof.
  exists (Part000_after worldWithout rawListKeys). split.
  - exists rawListKeys. vm_compute. reflexivity.
  - split; [vm_compute; reflexivity |].
    exists (Part000.set_lastCmd ["devtunnel"; "list"]
              (Part000.set_cmdInput
                 (Blur (Part000.cmdInput (cur (Part000_after worldWithout rawListKeys))))
                 (Part000.set_cmdMode false
                    (cur (Part000_after worldWithout rawListKeys))))).
    exists (Part000.runCommandCmd ["devtunnel"; "list"]).
    split; [vm_compute; reflexivity |].
    split; [reflexivity |].
    split; [reflexivity |].
    split; [vm_compute; reflexivity |].
    split; vm_compute; reflexivity.
Qed.

(** Selecting a command with Enter is guarded in both programs: without the
    tool nothing is dispatched and the status asks for the installation. *)
Lemma Part000_runSelected_guard (B : Bubbles) (m : Part000.model) :
  Part000.devtunnelFound m = false ->
  exists m' : Part000.model,
    Part000.runSelected m = Ok (m', CmdNil)
    /\ Part000.statusText m' = "install devtunnel CLI first"
    /\ Part000.lastCmd m' = Part000.lastCmd m.
Proof.
  intros H. unfold Part000.runSelected. rewrite H. simpl.
  eexists; repeat split.
Qed.

Lemma MainGo_startPrompt_guard (B : Bubbles) (m : MainGo.model)
  (cmd : MainGo.commandSpec) :
  MainGo.devtunnelFound m = false ->
  exists m' : MainGo.model,
    MainGo.startPrompt m cmd = Ok (m', CmdNil)
    /\ MainGo.status m' = "install devtunnel CLI first"
    /\ MainGo.lastCommand m' = MainGo.lastCommand m.
Proof.
  intros H. unfold MainGo.startPrompt. rewrite H. simpl.
  eexists; repeat split.
Qed.

(** *** The guard in [src/main.go]

    In [src/main.go] every way to the process runner passes [startPrompt],
    and the guard holds in every state of the loop, for every world and every
    behaviour of the widgets. *)

Lemma Join_from_tool (rest : list string) :
  (Join ("devtunnel" :: rest) " " == "which devtunnel") = false.
Proof. destruct rest; reflexivity. Qed.

Lemma okQueues_runCommandCmd (w : World) (parts : list string) :
  fromTool parts -> okQueues w (queues w (MainGo.runCommandCmd parts)).
Proof.
  intros [-> | [rest ->]]; [constructor |].
  rewrite MainGo_runCommandCmd_queues.
  destruct (fire_exec_finished w MainGo.deadline MainGo.timeoutNotice
              ("devtunnel" :: rest) (Join ("devtunnel" :: rest) " "))
    as [out [err ->]].
  repeat constructor. unfold okMsg. rewrite Join_from_tool. reflexivity.
Qed.

Lemma okQueues_widget (w : World) (c : option WidgetCmd) :
  okQueues w (queues w (widgetCmd c)).
Proof. destruct c as [[| |]|]; repeat constructor. Qed.

Lemma okMsg_fromTerminal (w : World) (msg : Msg) :
  fromTerminal msg = true -> okMsg w msg = true.
Proof. destruct msg; simpl; intros H; first [reflexivity | discriminate]. Qed.

Lemma okQueues_pop (w : World) (n : nat) :
  forall (qs rest : list (list Msg)) (msg : Msg),
    okQueues w qs -> pop n qs = Some (msg, rest) ->
    okMsg w msg = true /\ okQueues w rest.
Proof.
  induction n as [|n IH]; intros qs rest msg Hqs Hpop;
    destruct qs as [|q qs]; simpl in Hpop; try discriminate;
    inversion Hqs as [|? ? Hq Hqs']; subst.
  - destruct q as [|m0 q]; [discriminate |].
    injection Hpop as <- <-. inversion Hq; subst.
    split; [assumption | constructor; assumption].
  - destruct (pop n qs) as [[msg' rest']|] eqn:E; [| discriminate].
    injection Hpop as <- <-.
    destruct (IH qs rest' msg' Hqs' E) as [Hm Hr].
    split; [assumption | constructor; assumption].
Qed.

(** Case analysis on the conditions of a computed update. *)
Ltac split_update H :=
  repeat match type of H with
  | context [match ?x with _ => _ end] =>
      match x with
      | context [match _ with _ => _ end] => fail 1
      | _ => destruct x eqn:?;
             cbn -[String.eqb MainGo.requiredLoop Fields TrimSpace len idx
                   store int_add int_sub MainGo.runCommandCmd viewport_Update
                   SetContent GotoTop] in H
      end
  | context [bind ?x _] =>
      match x with
      | context [match _ with _ => _ end] => fail 1
      | _ => destruct x eqn:?;
             cbn -[String.eqb MainGo.requiredLoop Fields TrimSpace len idx
                   store int_add int_sub MainGo.runCommandCmd viewport_Update
                   SetContent GotoTop] in H
      end
  end.

Ltac close_guard :=
  try discriminate;
  match goal with
  | H : Ok _ = Ok _ |- _ => injection H as <- <-
  end;
  unfold guardInv, fromTool in *;
  cbn -[MainGo.runCommandCmd Fields TrimSpace] in *;
  try match goal with
  | Hok : negb (lookPath ?w _) = true, Hg : lookPath ?w _ = false -> _ |- _ =>
      apply negb_true_iff in Hok; specialize (Hg Hok); discriminate
  end;
  repeat match goal with
  | |- _ /\ _ => split
  | |- _ -> _ => intro
  end;
  try discriminate; try congruence; try tauto;
  try (left; reflexivity); try (right; eexists; reflexivity);
  try (repeat constructor; fail);
  try (apply okQueues_widget);
  try match goal with
  | |- invokesRunner (widgetCmd ?o) = false => destruct o; reflexivity
  end;
  try (apply okQueues_runCommandCmd; unfold fromTool;
       first [assumption | tauto | right; eexists; reflexivity]).

(** One update keeps the invariant, adds only truthful messages, and
    dispatches nothing while the flag is false. *)
Lemma MainGo_update_guard (B : Bubbles) (w : World) (m m' : MainGo.model)
  (msg : Msg) (c : Cmd) :
  guardInv w m -> okMsg w msg = true ->
  MainGo.Update m msg = Ok (m', c) ->
  guardInv w m' /\ okQueues w (queues w c)
  /\ (MainGo.devtunnelFound m = false -> invokesRunner c = false).
Proof.
  intros Hg Hok Hup.
  destruct m. unfold guardInv in Hg. cbn in Hg. destruct Hg as [Hg1 [Hg2 Hg3]].
  destruct devtunnelFound;
    [clear Hg1 | destruct (Hg1 eq_refl) as [Hl Hi]; clear Hg1; subst].
  all: unfold MainGo.Update, MainGo.handlePromptInput, MainGo.startPrompt,
         MainGo.viewportTail, MainGo.leavePrompt, MainGo.isQuit in Hup.
  all: cbn -[String.eqb MainGo.requiredLoop Fields TrimSpace len idx store
             int_add int_sub MainGo.runCommandCmd viewport_Update SetContent
             GotoTop] in Hup.
  all: destruct msg;
         cbn -[String.eqb MainGo.requiredLoop Fields TrimSpace len idx store
               int_add int_sub MainGo.runCommandCmd viewport_Update SetContent
               GotoTop] in Hup, Hok.
  all: split_update Hup.
  all: close_guard.
Qed.

Lemma MainGo_replay_guard (B : Bubbles) (w : World) (es : list Event) :
  forall s s' : loopState MainGo.model,
    guardInv w (cur s) -> okQueues w (pending s) ->
    replay MainGo.model MainGo.Update w s es = Some s' ->
    guardInv w (cur s') /\ okQueues w (pending s').
Proof.
  assert (Hturn : forall (s s' : loopState MainGo.model) msg rest,
             guardInv w (cur s) -> okMsg w msg = true -> okQueues w rest ->
             turn MainGo.model MainGo.Update w s msg rest = Some s' ->
             guardInv w (cur s') /\ okQueues w (pending s')).
  { intros s s' msg rest Hinv Hmsg Hrest Hturn. unfold turn in Hturn.
    destruct (MainGo.Update (cur s) msg) as [[m' c]|] eqn:Hup;
      [| destruct msg; discriminate].
    destruct (MainGo_update_guard B w (cur s) m' msg c Hinv Hmsg Hup)
      as [Hinv' [Hq _]].
    assert (Hs' : s' = mkLoop m' (rest ++ queues w c)%list)
      by (destruct msg; congruence).
    subst s'. split; [exact Hinv' | apply Forall_app; split; assumption]. }
  induction es as [|e es IH]; intros s s' Hinv Hq Hrun; simpl in Hrun.
  - injection Hrun as <-. split; assumption.
  - destruct (loopStep MainGo.model MainGo.Update w s e) as [s1|] eqn:Hstep;
      [| discriminate].
    assert (H1 : guardInv w (cur s1) /\ okQueues w (pending s1)).
    { destruct e as [msg | n]; simpl in Hstep.
      - destruct (fromTerminal msg) eqn:Ht; [| discriminate].
        exact (Hturn s s1 msg (pending s) Hinv (okMsg_fromTerminal w msg Ht) Hq Hstep).
      - destruct (pop n (pending s)) as [[msg rest]|] eqn:Hpop; [| discriminate].
        destruct (okQueues_pop w n _ _ _ Hq Hpop) as [Hmsg Hrest].
        exact (Hturn s s1 msg rest Hinv Hmsg Hrest Hstep). }
    destruct H1 as [Hinv1 Hq1]. exact (IH s1 s' Hinv1 Hq1 Hrun).
Qed.

(** X25: the guard of [src/main.go].  In every state of the loop in which the
    tool-availability flag is false, no message, from the terminal or from a
    command in flight, makes [Update] invoke the process runner. *)
Theorem MainGo_guard_holds (B : Bubbles) (w : World)
  (s : loopState MainGo.model) (msg : Msg) (m' : MainGo.model) (c : Cmd) :
  MainGo_reachable w s ->
  MainGo.devtunnelFound (cur s) = false ->
  fromTerminal msg = true
  \/ (exists n rest, pop n (pending s) = Some (msg, rest)) ->
  MainGo.Update (cur s) msg = Ok (m', c) ->
  invokesRunner c = false.
Proof.
  intros [es Hes] Hflag Hmsg Hup.
  assert (Hstart : guardInv w MainGo.initialModel
                   /\ okQueues w (queues w (MainGo.Init MainGo.initialModel))).
  { split.
    - unfold guardInv. simpl. repeat split; try discriminate. left; reflexivity.
    - unfold MainGo.Init, MainGo.checkBinaryCmd. simpl.
      repeat constructor. destruct (lookPath w "devtunnel") eqn:E; simpl;
        rewrite E; reflexivity. }
  destruct Hstart as [Hinv0 Hq0].
  destruct (MainGo_replay_guard B w es
              (mkLoop MainGo.initialModel
                 (queues w (MainGo.Init MainGo.initialModel)))
              s Hinv0 Hq0 Hes) as [Hinv Hq].
  assert (Hok : okMsg w msg = true).
  { destruct Hmsg as [Ht | [n [rest Hpop]]].
    - apply okMsg_fromTerminal; exact Ht.
    - exact (proj1 (okQueues_pop w n _ _ _ Hq Hpop)). }
  exact (proj2 (proj2 (MainGo_update_guard B w (cur s) m' msg c Hinv Hok Hup)) Hflag).
Qed.
Lemma MainGo_guard_holds_witness :
  @MainGo_reachable plainWidgets worldWithout
    (MainGo_after worldWithout [Deliver 0])
  /\ MainGo.devtunnelFound (cur (MainGo_after worldWithout [Deliver 0])) = false
  /\ @MainGo.Update plainWidgets (cur (MainGo_after worldWithout [Deliver 0]))
       (KeyMsg (pressed KeyEnter))
     = Ok (MainGo.set_status "install devtunnel CLI first"
             (cur (MainGo_after worldWithout [Deliver 0])), CmdNil)
  /\ invokesRunner CmdNil = false.
Proof.
  assert (H : @MainGo_reachable plainWidgets worldWithout
                (MainGo_after worldWithout [Deliver 0]))
    by (exists [Deliver 0]; vm_compute; reflexivity).
  assert (Hup : @MainGo.Update plainWidgets
                  (cur (MainGo_after worldWithout [Deliver 0]))
                  (KeyMsg (pressed KeyEnter))
                = Ok (MainGo.set_status "install devtunnel CLI first"
                        (cur (MainGo_after worldWithout [Deliver 0])), CmdNil))
    by (vm_compute; reflexivity).
  split; [exact H |]. split; [vm_compute; reflexivity |]. split; [exact Hup |].
  exact (MainGo_guard_holds plainWidgets worldWithout
           (MainGo_after worldWithout [Deliver 0]) (KeyMsg (pressed KeyEnter))
           _ CmdNil H eq_refl (or_introl eq_refl) Hup).
Defined.

(** ** Keys while a command runs (C2) *)

(** C2 as stated fails in [src/unnamed/part_000], where the
    handling of keys never looks at the running flag.  With the tool
    installed: the operator runs [devtunnel list] from the raw command line,
    the "started" notification sets the running flag, and the rerun key "r"
    then dispatches a second execution while the first is outstanding. *)
Lemma C2_second_dispatch_while_running :
  exists s : loopState Part000.model,
    @Part000_reachable plainWidgets worldWith s
    /\ Part000.running (cur s) = true
    /\ exists (m' : Part000.model) (c : Cmd),
         @Part000.Update plainWidgets (cur s) (KeyMsg (typed "r")) = Ok (m', c)
         /\ invokesRunner c = true.
Proof.
  exists (Part000_after worldWith rawListStarted). split.
  - exists rawListStarted. vm_compute. reflexivity.
  - split; [vm_compute; reflexivity |].
    exists (cur (Part000_after worldWith rawListStarted)).
    exists (Part000.runCommandCmd ["devtunnel"; "list"]).
    split; vm_compute; reflexivity.
Qed.

Lemma bind_onModel {A M : Type} (r : result A) (k1 k2 : A -> result (M * Cmd))
  (f : M -> M) :
  (forall a, k1 a = onModel f (k2 a)) -> bind r k1 = onModel f (bind r k2).
Proof. intros H. destruct r; simpl; [apply H | reflexivity]. Qed.

Lemma visibleCommands_set_running (b : bool) (m : Part000.model) :
  Part000.visibleCommands (Part000.set_running b m) = Part000.visibleCommands m.
Proof. reflexivity. Qed.

(** In [src/unnamed/part_000] a key does the same whether or not a command
    is running. *)
Lemma Part000_keys_ignore_running (B : Bubbles) (m : Part000.model) (k : Key)
  (b : bool) :
  Part000.Update (Part000.set_running b m) (KeyMsg k) =
  onModel (Part000.set_running b) (Part000.Update m (KeyMsg k)).
Proof.
  destruct m.
  unfold Part000.Update, Part000.updateForm, Part000.updateCmdMode,
    Part000.updateFilterMode, Part000.runSelected, Part000.clearForm,
    Part000.moveUp, Part000.moveDown.
  rewrite ?visibleCommands_set_running.
  cbn -[Part000.requiredLoop Fields TrimSpace idx store String.eqb len
        int_add int_sub Part000.visibleCommands].
  repeat first
    [ reflexivity
    | apply bind_onModel; intros ?
    | match goal with
      | |- context [if ?c then _ else _] => destruct c eqn:?
      | |- context [match ?x with _ => _ end] => destruct x eqn:?
      end;
      cbn -[Part000.requiredLoop Fields TrimSpace idx store String.eqb len
            int_add int_sub Part000.visibleCommands] ].
Qed.

(** C2, amended: in [src/main.go], in every state in which the running flag
    is set, a key other than ctrl+c and q dispatches nothing and leaves the
    state as it is but for the scroll position of the output viewport, which
    still receives the key; ctrl+c and q end the program and leave the state
    as it is.  In [src/unnamed/part_000] the running flag has no part in the
    handling of keys: a key does what it does when nothing is running (so
    the rerun and run keys dispatch), and ctrl+c and q end the program when
    no form, raw command line or filter field is open. *)
Theorem C2_keys_while_running (B : Bubbles) (m : MainGo.model)
  (p : Part000.model) (k : Key) (b : bool) :
  MainGo.running m = true ->
  (if MainGo.isQuit k
   then MainGo.Update m (KeyMsg k) = Ok (m, tea_Quit)
   else MainGo.Update m (KeyMsg k)
        = Ok (MainGo.set_viewport
                (viewport_Update (KeyMsg k) (MainGo.viewport m)) m, CmdNil))
  /\ Part000.Update (Part000.set_running b p) (KeyMsg k)
     = onModel (Part000.set_running b) (Part000.Update p (KeyMsg k))
  /\ (Part000.formMode p = false -> Part000.cmdMode p = false ->
      Part000.filterMode p = false -> Part000.keyIs k KeyCtrlC "q" = true ->
      Part000.Update p (KeyMsg k) = Ok (p, tea_Quit)).
Proof.
  intros Hrun. split; [| split].
  - unfold MainGo.Update. rewrite Hrun.
    destruct (MainGo.isQuit k); reflexivity.
  - apply Part000_keys_ignore_running.
  - intros Hf Hc Hfl Hq. unfold Part000.Update.
    rewrite Hf, Hc, Hfl, Hq. reflexivity.
Qed.

Lemma C2_keys_while_running_witness :
  MainGo.running (MainGo.set_running true MainGo.initialModel) = true
  /\ @MainGo.Update plainWidgets (MainGo.set_running true MainGo.initialModel)
       (KeyMsg (pressed KeyEnter))
     = Ok (MainGo.set_running true MainGo.initialModel, CmdNil).
Proof.
  split; [reflexivity |].
  exact (proj1 (C2_keys_while_running plainWidgets
                  (MainGo.set_running true MainGo.initialModel)
                  Part000.initialModel (pressed KeyEnter) true eq_refl)).
Defined.

(** ** Trimming *)

Lemma TrimLeft_startsNonSpace (s : string) : startsNonSpace (TrimLeft s).
Proof.
  induction s as [|c s IH]; simpl; [exact I |].
  destruct (isSpace c) eqn:E; [exact IH | exact E].
Qed.

Lemma TrimLeft_fixed (s : string) : startsNonSpace s -> TrimLeft s = s.
Proof. destruct s as [|c s]; simpl; [reflexivity | intros ->; reflexivity]. Qed.

Lemma TrimRight_startsNonSpace (s : string) :
  startsNonSpace s -> startsNonSpace (TrimRight s).
Proof.
  destruct s as [|c s]; simpl; [trivial |]. intros H.
  destruct (TrimRight s); [rewrite H |]; exact H.
Qed.

Lemma TrimRight_idempotent (s : string) : TrimRight (TrimRight s) = TrimRight s.
Proof.
  induction s as [|c s IH]; simpl; [reflexivity |].
  destruct (TrimRight s) as [|d r] eqn:E.
  - destruct (isSpace c) eqn:Ec; simpl; [reflexivity | rewrite Ec; reflexivity].
  - simpl in *. rewrite IH. reflexivity.
Qed.

Lemma TrimSpace_idempotent (s : string) : TrimSpace (TrimSpace s) = TrimSpace s.
Proof.
  unfold TrimSpace.
  rewrite (TrimLeft_fixed (TrimRight (TrimLeft s))).
  - apply TrimRight_idempotent.
  - apply TrimRight_startsNonSpace, TrimLeft_startsNonSpace.
Qed.

(** ** Slices *)

Lemma nth_error_replace_nth {A : Type} (l : list A) (n i : nat) (a : A) :
  nth_error (replace_nth l n a) i =
  if Nat.eqb i n then
    match nth_error l n with
    | Some _ => Some a
    | None => None
    end
  else nth_error l i.
Proof.
  revert n i; induction l as [|h t IH]; intros n i; simpl.
  - destruct (Nat.eqb i n); destruct n, i; reflexivity.
  - destruct n as [|n], i as [|i]; simpl; try reflexivity.
    apply IH.
Qed.

Lemma store_ok {A : Type} (l : list A) (n : nat) (a : A) :
  (n < List.length l)%nat ->
  store l (Z.of_nat n) a = Ok (replace_nth l n a).
Proof.
  intros H. unfold store, len.
  destruct (Z.of_nat n <? 0) eqn:E1; [zbool; lia |].
  destruct (Z.of_nat (List.length l) <=? Z.of_nat n) eqn:E2; [zbool; lia |].
  simpl. rewrite Nat2Z.id. reflexivity.
Qed.

(** The least index with a decidable property. *)
Lemma least_index (P : nat -> Prop) (dec : forall n, {P n} + {~ P n}) (n : nat) :
  P n -> exists j : nat, (j <= n)%nat /\ P j /\ forall t, (t < j)%nat -> ~ P t.
Proof.
  induction n as [n IH] using lt_wf_ind. intros Hn.
  assert (Hcase : (exists t, (t < n)%nat /\ P t) \/ forall t, (t < n)%nat -> ~ P t).
  { clear IH Hn. induction n as [|n IHn].
    - right; intros t Ht; lia.
    - destruct IHn as [[t [Ht Pt]] | Hnone].
      + left; exists t; split; [lia | exact Pt].
      + destruct (dec n) as [Pn | Nn].
        * left; exists n; split; [lia | exact Pn].
        * right; intros t Ht.
          destruct (Nat.eq_dec t n) as [-> | Hne]; [exact Nn | apply Hnone; lia]. }
  destruct Hcase as [[t [Ht Pt]] | Hnone].
  - destruct (IH t Ht Pt) as [j [Hj [Pj Hmin]]].
    exists j; split; [lia | split; assumption].
  - exists n; split; [lia | split; assumption].
Qed.

Lemma emptyField_dec (inputs : list textinput) (i : nat) :
  {emptyField inputs i} + {~ emptyField inputs i}.
Proof.
  unfold emptyField. destruct (nth_error inputs i) as [input|].
  - destruct (string_dec (TrimSpace (Value input)) "") as [E | E].
    + left; exists input; split; [reflexivity | exact E].
    + right; intros [input' [H1 H2]]. injection H1 as <-. contradiction.
  - right; intros [input' [H1 _]]; discriminate.
Qed.

Lemma firstEmptyField_exists (inputs : list textinput) (i : nat) :
  emptyField inputs i ->
  exists j : nat, (j <= i)%nat /\ firstEmptyField inputs j.
Proof.
  intros H.
  destruct (least_index (emptyField inputs) (emptyField_dec inputs) i H)
    as [j [Hj [Pj Hmin]]].
  exists j; split; [exact Hj | split; assumption].
Qed.

Lemma eqb_empty_false (s : string) : s <> "" -> (s == "") = false.
Proof. intros H. apply String.eqb_neq. exact H. Qed.

(** ** The loops over the required fields *)

Lemma Part000_requiredLoop_missing (j : nat) :
  forall (n i : nat) (c : Part000.commandItem) (inputs : list textinput)
         (parts : list string) (lbl : string),
    (j < n)%nat ->
    nth_error (Part000.required c) (i + j) = Some lbl ->
    emptyField inputs (i + j) ->
    (forall t, (t < j)%nat -> ~ emptyField inputs (i + t)) ->
    Part000.requiredLoop n (Z.of_nat i) c inputs parts = Ok (Missing lbl).
Proof.
  induction j as [|j IH]; intros n i c inputs parts lbl Hn Hlbl Hempty Hfilled;
    (destruct n as [|n]; [lia |]); simpl.
  - rewrite Nat.add_0_r in *. destruct Hempty as [input [Hin Hv]].
    rewrite (idx_nth _ _ _ Hin). simpl. rewrite Hv. simpl.
    rewrite (idx_nth _ _ _ Hlbl). reflexivity.
  - destruct (nth_error inputs i) as [input|] eqn:Hi.
    + rewrite (idx_nth _ _ _ Hi). simpl.
      rewrite eqb_empty_false.
      * replace (Z.of_nat i + 1) with (Z.of_nat (S i)) by lia.
        apply IH.
        -- lia.
        -- replace (S i + j)%nat with (i + S j)%nat by lia. exact Hlbl.
        -- replace (S i + j)%nat with (i + S j)%nat by lia. exact Hempty.
        -- intros t Ht. replace (S i + t)%nat with (i + S t)%nat by lia.
           apply Hfilled. lia.
      * intros E. apply (Hfilled 0%nat); [lia |].
        rewrite Nat.add_0_r. exists input. split; assumption.
    + exfalso. destruct Hempty as [input [Hin _]].
      apply nth_error_None in Hi.
      assert (i + S j < List.length inputs)%nat
        by (apply nth_error_Some; congruence).
      lia.
Qed.

Lemma MainGo_requiredLoop_missing (j : nat) :
  forall (labels : list string) (i : nat) (values args : list string)
         (lbl v : string),
    nth_error labels j = Some lbl ->
    nth_error values (i + j) = Some v -> TrimSpace v = "" ->
    (forall t v', (t < j)%nat -> nth_error values (i + t) = Some v' ->
                  TrimSpace v' <> "") ->
    MainGo.requiredLoop labels (Z.of_nat i) values args = Ok (Missing lbl).
Proof.
  induction j as [|j IH]; intros labels i values args lbl v Hlbl Hv Hempty Hfilled;
    (destruct labels as [|l labels]; [discriminate |]); simpl in *.
  - rewrite Nat.add_0_r in Hv. injection Hlbl as ->.
    rewrite (idx_nth _ _ _ Hv). simpl. rewrite Hempty. reflexivity.
  - destruct (nth_error values i) as [v0|] eqn:Hi.
    + rewrite (idx_nth _ _ _ Hi). simpl.
      rewrite eqb_empty_false.
      * replace (Z.of_nat i + 1) with (Z.of_nat (S i)) by lia.
        apply (IH labels (S i) values _ lbl v Hlbl).
        -- replace (S i + j)%nat with (i + S j)%nat by lia. exact Hv.
        -- exact Hempty.
        -- intros t v' Ht Hv'. apply (Hfilled (S t) v'); [lia |].
           replace (i + S t)%nat with (S i + t)%nat by lia. exact Hv'.
      * apply (Hfilled 0%nat v0); [lia |]. rewrite Nat.add_0_r. exact Hi.
    + exfalso. apply nth_error_None in Hi.
      assert (i + S j < List.length values)%nat
        by (apply nth_error_Some; congruence).
      lia.
Qed.

(** ** Leaving the form on a missing required field (C7, C10) *)

Section Part000Form.
Import Part000.
Context {B : Bubbles}.

Lemma Part000_abort_step (m : model) (c : commandItem) (k : Key) (j : nat)
  (lbl : string) :
  keyString k = "enter" ->
  Part000_formOpen m c -> Part000_onLastField m ->
  nth_error (required c) j = Some lbl ->
  firstEmptyField (formInputs m) j ->
  Update m (KeyMsg k) = Ok (Part000_aborted lbl m, CmdNil).
Proof.
  intros Hk [Hform [_ [_ Hcmd]]] Hlast Hlbl [Hempty Hfirst].
  unfold Update, updateForm. rewrite Hform, Hk. simpl.
  destruct (formIndex m <? len (formInputs m) - 1) eqn:E;
    [unfold Part000_onLastField in Hlast; zbool; lia |].
  rewrite Hcmd.
  assert (Hj : (j < List.length (required c))%nat)
    by (apply nth_error_Some; congruence).
  rewrite (Part000_requiredLoop_missing j _ 0 c (formInputs m) _ lbl Hj Hlbl Hempty Hfirst).
  reflexivity.
Qed.

End Part000Form.

Section MainGoForm.
Import MainGo.
Context {B : Bubbles}.

Lemma MainGo_abort_step (m : model) (c : commandSpec) (k : Key) (j : nat)
  (lbl : string) :
  keyString k = "enter" ->
  MainGo_formOpen m c -> MainGo_onLastField m ->
  nth_error (requiredArgs c) j = Some lbl ->
  firstEmptyField (promptInputs m) j ->
  exists values : list string,
    Update m (KeyMsg k) = Ok (MainGo_aborted lbl values m, CmdNil).
Proof.
  intros Hk [Hrun [Hin [Hcmd [Hlabel [Hlen Hrec]]]]] [n [Hidx Hn]] Hlbl
    [Hempty Hfirst].
  destruct (nth_error (promptInputs m) n) as [cur|] eqn:Hcur;
    [| apply nth_error_None in Hcur; lia].
  set (values := replace_nth (promptValues m) n (TrimSpace (Value cur))).
  assert (Hvalues : forall i input,
             nth_error (promptInputs m) i = Some input ->
             nth_error values i = Some (TrimSpace (Value input))).
  { intros i input Hi. unfold values. rewrite nth_error_replace_nth.
    destruct (Nat.eqb i n) eqn:E.
    - apply Nat.eqb_eq in E; subst i.
      destruct (nth_error (promptValues m) n) eqn:Hv;
        [congruence | apply nth_error_None in Hv; lia].
    - apply Nat.eqb_neq in E. apply Hrec; [| exact Hi].
      assert (i < List.length (promptInputs m))%nat
        by (apply nth_error_Some; congruence).
      lia. }
  exists values.
  unfold Update, handlePromptInput. rewrite Hrun, Hin, Hcmd.
  rewrite (proj2 (String.eqb_neq _ _) Hlabel), Hk. simpl.
  rewrite Hidx, (idx_nth _ _ _ Hcur). simpl.
  rewrite store_ok by lia. simpl. fold values.
  destruct (Z.of_nat n <? len (promptInputs m) - 1) eqn:E;
    [unfold len in E; zbool; lia |].
  destruct Hempty as [input [Hinput Hblank]].
  pose proof (MainGo_requiredLoop_missing j (requiredArgs c) 0 values
                (baseArgs c) lbl (TrimSpace (Value input)) Hlbl) as Hloop.
  change (Z.of_nat 0) with 0 in Hloop. rewrite Hloop.
  - reflexivity.
  - apply Hvalues. exact Hinput.
  - rewrite TrimSpace_idempotent. exact Hblank.
  - intros t v' Ht Hv' Hblank'. simpl in Hv'.
    assert (Hlt : (t < List.length (promptInputs m))%nat).
    { assert (j < List.length (promptInputs m))%nat
        by (apply nth_error_Some; congruence).
      lia. }
    destruct (nth_error (promptInputs m) t) as [input'|] eqn:Ht';
      [| apply nth_error_None in Ht'; lia].
    rewrite (Hvalues t input' Ht') in Hv'. injection Hv' as <-.
    rewrite TrimSpace_idempotent in Hblank'.
    apply (Hfirst t Ht). exists input'. split; assumption.
Qed.

End MainGoForm.




(** ** Submitting a filled form (C6) *)

Lemma nth_error_middle {A : Type} (pre : list A) (a : A) (post : list A) :
  nth_error (pre ++ a :: post)%list (List.length pre) = Some a.
Proof. induction pre as [|h t IH]; simpl; [reflexivity | exact IH]. Qed.

Lemma length_replace_nth {A : Type} (l : list A) (n : nat) (a : A) :
  List.length (replace_nth l n a) = List.length l.
Proof.
  revert n; induction l as [|h t IH]; intros n; simpl; [reflexivity |].
  destruct n; simpl; [reflexivity | rewrite IH; reflexivity].
Qed.

Lemma map_replace_nth {A C : Type} (f : A -> C) (l : list A) (n : nat) (a x : A) :
  nth_error l n = Some x -> f a = f x ->
  map f (replace_nth l n a) = map f l.
Proof.
  revert n; induction l as [|h t IH]; intros n Hn Hf; simpl; [reflexivity |].
  destruct n as [|n]; simpl in *.
  - injection Hn as ->. rewrite Hf. reflexivity.
  - rewrite (IH n Hn Hf). reflexivity.
Qed.

Lemma pointwise_map {A C : Type} (f : A -> C) (l : list A) :
  forall l' : list C,
    List.length l' = List.length l ->
    (forall i x, nth_error l i = Some x -> nth_error l' i = Some (f x)) ->
    l' = map f l.
Proof.
  induction l as [|h t IH]; intros [|h' t'] Hlen Hpt; simpl in *;
    try discriminate; [reflexivity |].
  f_equal.
  - specialize (Hpt 0%nat h eq_refl). simpl in Hpt. congruence.
  - apply IH; [lia |]. intros i x Hi. exact (Hpt (S i) x Hi).
Qed.

Lemma int_add_succ (n : nat) :
  Z.of_nat (S n) < 2 ^ 63 -> int_add (Z.of_nat n) 1 = Z.of_nat (S n).
Proof.
  intros H. unfold int_add. rewrite wrap64_small; [lia |].
  unfold int_range.
  assert (Hk : 0 < 2 ^ 63) by reflexivity.
  set (k := 2 ^ 63) in *; clearbody k. lia.
Qed.

Lemma Part000_requiredLoop_collected (c : Part000.commandItem)
  (reqs : list textinput) :
  forall (pre post : list textinput) (parts : list string),
    Forall (fun input => trimmed input <> "") reqs ->
    Part000.requiredLoop (List.length reqs) (Z.of_nat (List.length pre)) c
      (pre ++ reqs ++ post)%list parts
    = Ok (Collected (parts ++ map trimmed reqs)%list).
Proof.
  induction reqs as [|r rs IH]; intros pre post parts Hall; simpl.
  - rewrite app_nil_r. reflexivity.
  - inversion Hall as [|? ? Hr Hrs]; subst.
    rewrite (idx_nth _ _ _ (nth_error_middle pre r (rs ++ post))). simpl.
    fold (trimmed r). rewrite (eqb_empty_false _ Hr).
    replace (Z.of_nat (List.length pre) + 1)
      with (Z.of_nat (List.length (pre ++ [r]))) by (rewrite length_app; simpl; lia).
    replace (pre ++ r :: rs ++ post)%list with ((pre ++ [r]) ++ rs ++ post)%list
      by (rewrite <- app_assoc; reflexivity).
    rewrite (IH (pre ++ [r])%list post _ Hrs).
    rewrite <- app_assoc. reflexivity.
Qed.

Lemma MainGo_requiredLoop_collected (labels : list string) :
  forall (vs pre post args : list string),
    List.length vs = List.length labels ->
    Forall (fun v => TrimSpace v <> "") vs ->
    MainGo.requiredLoop labels (Z.of_nat (List.length pre))
      (pre ++ vs ++ post)%list args
    = Ok (Collected (args ++ map TrimSpace vs)%list).
Proof.
  induction labels as [|l labels IH]; intros vs pre post args Hlen Hall;
    destruct vs as [|v vs]; try discriminate; simpl.
  - rewrite app_nil_r. reflexivity.
  - inversion Hall as [|? ? Hv Hvs]; subst.
    rewrite (idx_nth _ _ _ (nth_error_middle pre v (vs ++ post))). simpl.
    rewrite (eqb_empty_false _ Hv).
    replace (Z.of_nat (List.length pre) + 1)
      with (Z.of_nat (List.length (pre ++ [v]))) by (rewrite length_app; simpl; lia).
    replace (pre ++ v :: vs ++ post)%list with ((pre ++ [v]) ++ vs ++ post)%list
      by (rewrite <- app_assoc; reflexivity).
    simpl in Hlen. rewrite (IH vs (pre ++ [v])%list post _ ltac:(lia) Hvs).
    rewrite <- app_assoc. reflexivity.
Qed.

Section Part000Submit.
Import Part000.
Context {B : Bubbles}.

(** Enter on the last field of a form whose required fields are all filled
    dispatches the vector of the form and leaves the form. *)
Lemma Part000_submit_step (p : model) (c : commandItem) (k : Key)
  (reqs : list textinput) (opt : textinput) :
  keyString k = "enter" ->
  Part000_formOpen p c -> Part000_onLastField p ->
  formInputs p = (reqs ++ [opt])%list ->
  List.length reqs = List.length (required c) ->
  optional c <> "" ->
  Forall (fun input => trimmed input <> "") reqs ->
  Update p (KeyMsg k)
  = Ok (set_lastCmd (formVector (baseArgs c) reqs opt) (clearForm p),
        runCommandCmd (formVector (baseArgs c) reqs opt)).
Proof.
  intros Hk [Hform [_ [_ Hcmd]]] Hlast Hinputs Hlen Hopt Hall.
  unfold Update, updateForm. rewrite Hform, Hk. simpl.
  destruct (formIndex p <? len (formInputs p) - 1) eqn:E;
    [unfold Part000_onLastField in Hlast; zbool; lia |].
  rewrite Hcmd, Hinputs, <- Hlen.
  pose proof (Part000_requiredLoop_collected c reqs [] [opt]
                ("devtunnel" :: baseArgs c) Hall) as Hloop.
  simpl in Hloop. rewrite Hloop. simpl.
  rewrite (eqb_empty_false _ Hopt). simpl.
  assert (Hlast' : len (reqs ++ [opt]) - 1 = Z.of_nat (List.length reqs)).
  { unfold len. rewrite length_app. simpl. lia. }
  rewrite Hlast'.
  destruct (Z.of_nat (List.length reqs) >=? 0) eqn:E0; [| zbool; lia].
  rewrite (idx_nth _ _ _ (nth_error_middle reqs opt [])). simpl.
  fold (trimmed opt). unfold formVector.
  destruct (trimmed opt == ""); simpl.
  - rewrite app_nil_r. reflexivity.
  - reflexivity.
Qed.

(** Enter on a field that is not the last moves the focus to the next field
    and dispatches nothing. *)
Lemma Part000_advance_step (p : model) (k : Key) (n : nat) :
  keyString k = "enter" ->
  formMode p = true ->
  formIndex p = Z.of_nat n ->
  (S n < List.length (formInputs p))%nat ->
  len (formInputs p) < 2 ^ 63 ->
  exists p' : model,
    Update p (KeyMsg k) = Ok (p', CmdNil)
    /\ Part000_sameForm p p'
    /\ formIndex p' = Z.of_nat (S n).
Proof.
  intros Hk Hform Hidx Hn Hfit.
  destruct (nth_error (formInputs p) n) as [cur|] eqn:Hcur;
    [| apply nth_error_None in Hcur; lia].
  destruct (nth_error (formInputs p) (S n)) as [next|] eqn:Hnext;
    [| apply nth_error_None in Hnext; lia].
  set (inputs1 := replace_nth (formInputs p) n (Blur cur)).
  assert (Hnext1 : nth_error inputs1 (S n) = Some next).
  { unfold inputs1. rewrite nth_error_replace_nth.
    destruct (Nat.eqb (S n) n) eqn:E; [apply Nat.eqb_eq in E; lia | exact Hnext]. }
  exists (set_formInputs (replace_nth inputs1 (S n) (Focus next))
            (set_formIndex (Z.of_nat (S n)) (set_formInputs inputs1 p))).
  split; [| split].
  - unfold Update, updateForm. rewrite Hform, Hk. simpl.
    destruct (formIndex p <? len (formInputs p) - 1) eqn:E;
      [| unfold len in E; zbool; lia].
    rewrite Hidx, (idx_nth _ _ _ Hcur). simpl.
    rewrite store_ok by lia. simpl. fold inputs1.
    rewrite int_add_succ by (unfold len in Hfit; lia).
    rewrite (idx_nth _ _ _ Hnext1). cbn [bind].
    rewrite store_ok by (unfold inputs1; rewrite length_replace_nth; lia).
    reflexivity.
  - unfold Part000_sameForm. simpl.
    repeat (split; [reflexivity |]). split; [| reflexivity].
    rewrite (map_replace_nth Value inputs1 (S n) (Focus next) next Hnext1 eq_refl).
    unfold inputs1.
    rewrite (map_replace_nth Value (formInputs p) n (Blur cur) cur Hcur eq_refl).
    reflexivity.
  - reflexivity.
Qed.

End Part000Submit.

Section MainGoSubmit.
Import MainGo.
Context {B : Bubbles}.

Lemma trimmed_nonempty_twice (reqs : list textinput) :
  Forall (fun input => trimmed input <> "") reqs ->
  Forall (fun v => TrimSpace v <> "") (map trimmed reqs).
Proof.
  intros H. apply Forall_map. apply (Forall_impl _ (P := fun input => trimmed input <> "")); [| exact H].
  intros input Hin. unfold trimmed. rewrite TrimSpace_idempotent. exact Hin.
Qed.

Lemma map_trim_trimmed (reqs : list textinput) :
  map TrimSpace (map trimmed reqs) = map trimmed reqs.
Proof.
  rewrite map_map. apply map_ext. intros input. apply TrimSpace_idempotent.
Qed.

(** Enter on the last field of a form whose required fields are all filled
    dispatches the vector of the form and leaves the form. *)
Lemma MainGo_submit_step (m : model) (c : commandSpec) (k : Key)
  (reqs : list textinput) (opt : textinput) :
  keyString k = "enter" ->
  MainGo_formOpen m c -> MainGo_onLastField m ->
  promptInputs m = (reqs ++ [opt])%list ->
  List.length reqs = List.length (requiredArgs c) ->
  optionalArg c <> "" ->
  Forall (fun input => trimmed input <> "") reqs ->
  exists values : list string,
    Update m (KeyMsg k)
    = Ok (leavePrompt
            (set_lastCommand (formVector (baseArgs c) reqs opt)
               (set_promptValues values m)),
          runCommandCmd (formVector (baseArgs c) reqs opt)).
Proof.
  intros Hk [Hrun [Hin [Hcmd [Hlabel [Hlen Hrec]]]]] [n [Hidx Hn]] Hinputs
    Hreqs Hopt Hall.
  assert (Hnreqs : n = List.length reqs).
  { rewrite Hinputs, length_app in Hn. simpl in Hn. lia. }
  assert (Hcur : nth_error (promptInputs m) n = Some opt).
  { rewrite Hinputs, Hnreqs. apply nth_error_middle. }
  set (values := replace_nth (promptValues m) n (TrimSpace (Value opt))).
  assert (Hvalues : values = (map trimmed reqs ++ [trimmed opt])%list).
  { replace (map trimmed reqs ++ [trimmed opt])%list
      with (map trimmed (promptInputs m))
      by (rewrite Hinputs, map_app; reflexivity).
    apply pointwise_map.
    - unfold values. rewrite length_replace_nth. exact Hlen.
    - intros i input Hi. unfold values. rewrite nth_error_replace_nth.
      destruct (Nat.eqb i n) eqn:E.
      + apply Nat.eqb_eq in E; subst i.
        rewrite Hcur in Hi. injection Hi as <-.
        destruct (nth_error (promptValues m) n) eqn:Hv;
          [reflexivity | apply nth_error_None in Hv; lia].
      + apply Nat.eqb_neq in E. apply Hrec; [| exact Hi].
        assert (i < List.length (promptInputs m))%nat
          by (apply nth_error_Some; congruence).
        lia. }
  exists values.
  unfold Update, handlePromptInput. rewrite Hrun, Hin, Hcmd.
  rewrite (proj2 (String.eqb_neq _ _) Hlabel), Hk. simpl.
  rewrite Hidx, (idx_nth _ _ _ Hcur). cbn [bind].
  rewrite store_ok by lia. cbn [bind]. fold values.
  cbn [promptIndex promptInputs promptValues set_promptValues].
  destruct (Z.of_nat n <? len (promptInputs m) - 1) eqn:E;
    [unfold len in E; zbool; lia |].
  pose proof (MainGo_requiredLoop_collected (requiredArgs c) (map trimmed reqs)
                [] [trimmed opt] (baseArgs c)
                ltac:(rewrite length_map; exact Hreqs)
                (trimmed_nonempty_twice reqs Hall)) as Hloop.
  simpl in Hloop. rewrite <- Hvalues, map_trim_trimmed in Hloop.
  rewrite Hloop. cbn [bind].
  rewrite (eqb_empty_false _ Hopt). cbn [negb].
  assert (Hne : (len (requiredArgs c) =? len (promptInputs m)) = false).
  { apply Z.eqb_neq. unfold len. lia. }
  rewrite Hne.
  assert (Hlast : len (promptInputs m) - 1 = Z.of_nat (List.length (map trimmed reqs))).
  { unfold len. rewrite length_map. lia. }
  rewrite Hlast.
  destruct (Z.of_nat (List.length (map trimmed reqs)) >=? 0) eqn:E0; [| zbool; lia].
  rewrite Hvalues at 1.
  rewrite (idx_nth _ _ _ (nth_error_middle (map trimmed reqs) (trimmed opt) [])).
  cbn [bind].
  assert (Htt : TrimSpace (trimmed opt) = trimmed opt)
    by apply TrimSpace_idempotent.
  rewrite !Htt. unfold formVector.
  destruct (trimmed opt == ""); cbn [negb bind].
  - rewrite app_nil_r. reflexivity.
  - reflexivity.
Qed.

(** Enter on a field that is not the last records its trimmed value, moves
    the focus to the next field and dispatches nothing. *)
Lemma MainGo_advance_step (m : model) (c : commandSpec) (k : Key) (n : nat) :
  keyString k = "enter" ->
  MainGo_formOpen m c ->
  promptIndex m = Z.of_nat n ->
  (S n < List.length (promptInputs m))%nat ->
  len (promptInputs m) < 2 ^ 63 ->
  exists m' : model,
    Update m (KeyMsg k) = Ok (m', CmdNil)
    /\ MainGo_formOpen m' c
    /\ promptIndex m' = Z.of_nat (S n)
    /\ map Value (promptInputs m') = map Value (promptInputs m)
    /\ lastCommand m' = lastCommand m.
Proof.
  intros Hk [Hrun [Hin [Hcmd [Hlabel [Hlen Hrec]]]]] Hidx Hn Hfit.
  destruct (nth_error (promptInputs m) n) as [cur|] eqn:Hcur;
    [| apply nth_error_None in Hcur; lia].
  destruct (nth_error (promptInputs m) (S n)) as [next|] eqn:Hnext;
    [| apply nth_error_None in Hnext; lia].
  set (values := replace_nth (promptValues m) n (TrimSpace (Value cur))).
  set (inputs1 := replace_nth (promptInputs m) n (Blur cur)).
  assert (Hnext1 : nth_error inputs1 (S n) = Some next).
  { unfold inputs1. rewrite nth_error_replace_nth.
    destruct (Nat.eqb (S n) n) eqn:E; [apply Nat.eqb_eq in E; lia | exact Hnext]. }
  set (inputs2 := replace_nth inputs1 (S n) (Focus next)).
  exists (set_currentPrompt (Placeholder next)
            (set_promptInputs inputs2
               (set_promptIndex (Z.of_nat (S n))
                  (set_promptInputs inputs1 (set_promptValues values m))))).
  split; [| split; [| split; [| split]]].
  - unfold Update, handlePromptInput. rewrite Hrun, Hin, Hcmd.
    rewrite (proj2 (String.eqb_neq _ _) Hlabel), Hk. simpl.
    rewrite Hidx, (idx_nth _ _ _ Hcur). cbn [bind].
    rewrite store_ok by lia. cbn [bind]. fold values.
    cbn [promptIndex promptInputs promptValues set_promptValues].
    rewrite ?Hidx.
    destruct (Z.of_nat n <? len (promptInputs m) - 1) eqn:E;
      [| unfold len in E; zbool; lia].
    rewrite store_ok by lia. cbn [bind]. fold inputs1.
    cbn [promptIndex promptInputs set_promptInputs set_promptIndex].
    rewrite ?Hidx. rewrite int_add_succ by (unfold len in Hfit; lia).
    rewrite (idx_nth _ _ _ Hnext1). cbn [bind].
    rewrite store_ok by (unfold inputs1; rewrite length_replace_nth; lia).
    reflexivity.
  - unfold MainGo_formOpen. cbn.
    repeat (split; [assumption |]). split.
    + unfold values, inputs2, inputs1. rewrite !length_replace_nth. exact Hlen.
    + intros i input Hi Hinput. cbn in Hi, Hinput |- *.
      unfold inputs2 in Hinput. rewrite nth_error_replace_nth in Hinput.
      destruct (Nat.eqb i (S n)) eqn:E1; [apply Nat.eqb_eq in E1; lia |].
      unfold inputs1 in Hinput. rewrite nth_error_replace_nth in Hinput.
      unfold values. rewrite nth_error_replace_nth.
      destruct (Nat.eqb i n) eqn:E2.
      * rewrite Hcur in Hinput. injection Hinput as <-.
        destruct (nth_error (promptValues m) n) eqn:Hv;
          [reflexivity | apply nth_error_None in Hv; lia].
      * apply Nat.eqb_neq in E2. apply Hrec; [lia | exact Hinput].
  - reflexivity.
  - cbn. unfold inputs2.
    rewrite (map_replace_nth Value inputs1 (S n) (Focus next) next Hnext1 eq_refl).
    unfold inputs1.
    rewrite (map_replace_nth Value (promptInputs m) n (Blur cur) cur Hcur eq_refl).
    reflexivity.
  - reflexivity.
Qed.

End MainGoSubmit.

Lemma three_values (inputs : list textinput) (x y z : string) :
  map Value inputs = [x; y; z] ->
  exists i1 i2 i3 : textinput,
    inputs = ([i1; i2] ++ [i3])%list
    /\ trimmed i1 = TrimSpace x /\ trimmed i2 = TrimSpace y
    /\ trimmed i3 = TrimSpace z.
Proof.
  destruct inputs as [|i1 [|i2 [|i3 [|i4 rest]]]]; simpl; intros H;
    try discriminate.
  injection H as H1 H2 H3. exists i1, i2, i3. unfold trimmed.
  rewrite H1, H2, H3. repeat split.
Qed.

(** The vector of the form with "X", "Y" and "--flag val" in the fields. *)
Lemma formVector_XY_flag (base : list string) (i1 i2 i3 : textinput) :
  trimmed i1 = TrimSpace "X" -> trimmed i2 = TrimSpace "Y" ->
  trimmed i3 = TrimSpace "--flag val" ->
  formVector base [i1; i2] i3
  = ("devtunnel" :: base ++ ["X"; "Y"; "--flag"; "val"])%list.
Proof.
  intros H1 H2 H3. unfold formVector. simpl map. rewrite H1, H2, H3.
  change (TrimSpace "X") with "X". change (TrimSpace "Y") with "Y".
  change (TrimSpace "--flag val") with "--flag val".
  change ("--flag val" == "") with false.
  change (Fields "--flag val") with ["--flag"; "val"].
  rewrite <- app_assoc. reflexivity.
Qed.

Lemma filled_XY (i1 i2 : textinput) :
  trimmed i1 = TrimSpace "X" -> trimmed i2 = TrimSpace "Y" ->
  Forall (fun input => trimmed input <> "") [i1; i2].
Proof.
  intros H1 H2. repeat constructor; [rewrite H1 | rewrite H2]; discriminate.
Qed.

(** C6: for a command with required labels [a; b] and a non-empty optional
    label, with "X", "Y" and "--flag val" in the three fields of its form and
    the focus on the first, three presses of Enter dispatch nothing, nothing,
    and then the process runner with exactly the vector
    [devtunnel, base arguments..., "X", "Y", "--flag", "val"], which also
    becomes the stored last command.  In both programs. *)
Theorem C6_form_vector (B : Bubbles) (k : Key) :
  keyString k = "enter" ->
  (forall (p : Part000.model) (item : Part000.commandItem) (a b : string),
      Part000_formOpen p item ->
      Part000.required item = [a; b] -> Part000.optional item <> "" ->
      map Value (Part000.formInputs p) = ["X"; "Y"; "--flag val"] ->
      Part000.formIndex p = 0 ->
      let vec := ("devtunnel" :: Part000.baseArgs item
                    ++ ["X"; "Y"; "--flag"; "val"])%list in
      exists p' : Part000.model,
        feed Part000.model Part000.Update p [KeyMsg k; KeyMsg k; KeyMsg k]
        = Ok (p', [CmdNil; CmdNil;
                   CmdSequence
                     [ThStarted (Join vec " ");
                      ThExec Part000.deadline Part000.timeoutNotice vec
                        (Join vec " ")]])
        /\ Part000.lastCmd p' = vec /\ Part000.formMode p' = false)
  /\ (forall (m : MainGo.model) (c : MainGo.commandSpec) (a b : string),
      MainGo_formOpen m c ->
      MainGo.requiredArgs c = [a; b] -> MainGo.optionalArg c <> "" ->
      map Value (MainGo.promptInputs m) = ["X"; "Y"; "--flag val"] ->
      MainGo.promptIndex m = 0 ->
      let vec := ("devtunnel" :: MainGo.baseArgs c
                    ++ ["X"; "Y"; "--flag"; "val"])%list in
      exists m' : MainGo.model,
        feed MainGo.model MainGo.Update m [KeyMsg k; KeyMsg k; KeyMsg k]
        = Ok (m', [CmdNil; CmdNil;
                   CmdSequence
                     [ThStarted (Join vec " ");
                      ThExec MainGo.deadline MainGo.timeoutNotice vec
                        (Join vec " ")]])
        /\ MainGo.lastCommand m' = vec /\ MainGo.inPrompt m' = false).
Proof.
  intros Hk. split.
  - intros p item a b Hopen Hreq Hopt Hvals Hidx vec.
    assert (Hlen : List.length (Part000.formInputs p) = 3%nat)
      by (rewrite <- (length_map Value), Hvals; reflexivity).
    destruct Hopen as [Hform [Hc [Hf Hcmd]]].
    destruct (Part000_advance_step p k 0 Hk Hform Hidx ltac:(lia)
                ltac:(unfold len; rewrite Hlen; reflexivity))
      as [p1 [Hstep1 [[Hform1 [Hc1 [Hf1 [Hcmd1 [Hvals1 _]]]]] Hidx1]]].
    assert (Hlen1 : List.length (Part000.formInputs p1) = 3%nat)
      by (rewrite <- (length_map Value), Hvals1, Hvals; reflexivity).
    destruct (Part000_advance_step p1 k 1 Hk ltac:(congruence) Hidx1 ltac:(lia)
                ltac:(unfold len; rewrite Hlen1; reflexivity))
      as [p2 [Hstep2 [[Hform2 [Hc2 [Hf2 [Hcmd2 [Hvals2 _]]]]] Hidx2]]].
    destruct (three_values (Part000.formInputs p2) "X" "Y" "--flag val"
                ltac:(congruence)) as [i1 [i2 [i3 [Hin [H1 [H2 H3]]]]]].
    assert (Hopen2 : Part000_formOpen p2 item)
      by (unfold Part000_formOpen; repeat split; congruence).
    assert (Hlast2 : Part000_onLastField p2)
      by (unfold Part000_onLastField, len; rewrite Hidx2, Hin; simpl; lia).
    pose proof (Part000_submit_step p2 item k [i1; i2] i3 Hk Hopen2 Hlast2 Hin
                  ltac:(rewrite Hreq; reflexivity) Hopt (filled_XY i1 i2 H1 H2))
      as Hstep3.
    rewrite (formVector_XY_flag _ i1 i2 i3 H1 H2 H3) in Hstep3. fold vec in Hstep3.
    exists (Part000.set_lastCmd vec (Part000.clearForm p2)).
    split; [| split; reflexivity].
    cbn [feed]. rewrite Hstep1. cbn [bind fst snd].
    rewrite Hstep2. cbn [bind fst snd]. rewrite Hstep3. reflexivity.
  - intros m c a b Hopen Hreq Hopt Hvals Hidx vec.
    assert (Hlen : List.length (MainGo.promptInputs m) = 3%nat)
      by (rewrite <- (length_map Value), Hvals; reflexivity).
    destruct (MainGo_advance_step m c k 0 Hk Hopen Hidx ltac:(lia)
                ltac:(unfold len; rewrite Hlen; reflexivity))
      as [m1 [Hstep1 [Hopen1 [Hidx1 [Hvals1 _]]]]].
    assert (Hlen1 : List.length (MainGo.promptInputs m1) = 3%nat)
      by (rewrite <- (length_map Value), Hvals1, Hvals; reflexivity).
    destruct (MainGo_advance_step m1 c k 1 Hk Hopen1 Hidx1 ltac:(lia)
                ltac:(unfold len; rewrite Hlen1; reflexivity))
      as [m2 [Hstep2 [Hopen2 [Hidx2 [Hvals2 _]]]]].
    destruct (three_values (MainGo.promptInputs m2) "X" "Y" "--flag val"
                ltac:(congruence)) as [i1 [i2 [i3 [Hin [H1 [H2 H3]]]]]].
    assert (Hlast2 : MainGo_onLastField m2)
      by (exists 2%nat; split; [exact Hidx2 | rewrite Hin; reflexivity]).
    destruct (MainGo_submit_step m2 c k [i1; i2] i3 Hk Hopen2 Hlast2 Hin
                ltac:(rewrite Hreq; reflexivity) Hopt (filled_XY i1 i2 H1 H2))
      as [values Hstep3].
    rewrite (formVector_XY_flag _ i1 i2 i3 H1 H2 H3) in Hstep3. fold vec in Hstep3.
    exists (MainGo.leavePrompt
              (MainGo.set_lastCommand vec (MainGo.set_promptValues values m2))).
    split; [| split; reflexivity].
    cbn [feed]. rewrite Hstep1. cbn [bind fst snd].
    rewrite Hstep2. cbn [bind fst snd]. rewrite Hstep3. reflexivity.
Qed.

Lemma C6_form_vector_witness :
  exists p' : Part000.model,
    feed Part000.model (@Part000.Update plainWidgets) copyForm
      [KeyMsg (pressed KeyEnter); KeyMsg (pressed KeyEnter);
       KeyMsg (pressed KeyEnter)]
    = Ok (p', [CmdNil; CmdNil;
               CmdSequence
                 [ThStarted "devtunnel copy X Y --flag val";
                  ThExec Part000.deadline Part000.timeoutNotice
                    ["devtunnel"; "copy"; "X"; "Y"; "--flag"; "val"]
                    "devtunnel copy X Y --flag val"]])
    /\ Part000.lastCmd p' = ["devtunnel"; "copy"; "X"; "Y"; "--flag"; "val"]
    /\ Part000.formMode p' = false.
Proof.
  apply (proj1 (C6_form_vector plainWidgets (pressed KeyEnter) eq_refl)
           copyForm copyItem "from" "to").
  - unfold Part000_formOpen. vm_compute. repeat split.
  - reflexivity.
  - discriminate.
  - vm_compute. reflexivity.
  - vm_compute. reflexivity.
Defined.

Lemma MainGo_showForm_open : MainGo_formOpen MainGo_showForm MainGo_showSpec.
Proof.
  unfold MainGo_formOpen. split; [vm_compute; reflexivity |].
  split; [vm_compute; reflexivity |]. split; [vm_compute; reflexivity |].
  split; [discriminate |]. split; [vm_compute; reflexivity |].
  intros i input Hi Hinput.
  assert (Hidx : MainGo.promptIndex MainGo_showForm = 1) by (vm_compute; reflexivity).
  rewrite Hidx in Hi.
  destruct i as [|i]; [| lia].
  vm_compute in Hinput. injection Hinput as <-. vm_compute. reflexivity.
Defined.


(** ** Opening a form

    The forms that the properties above speak of are the ones the programs
    open. *)

Lemma labels_nonempty (reqs : list string) (opt : string) :
  reqs <> [] \/ opt <> "" ->
  exists l ls,
    (if negb (opt == "") then (reqs ++ [opt])%list else reqs) = l :: ls.
Proof.
  intros H. destruct (opt == "") eqn:E; simpl.
  - apply String.eqb_eq in E. destruct H as [H | H]; [| contradiction].
    destruct reqs as [|l ls]; [contradiction | eauto].
  - destruct reqs as [|l ls]; simpl; eauto.
Qed.

Lemma Part000_runSelected_opens_form (B : Bubbles) (m : Part000.model)
  (cmd : Part000.commandItem) (n : nat) :
  Part000.devtunnelFound m = true ->
  Part000.cmdMode m = false -> Part000.filterMode m = false ->
  Part000.cmdIdx m = Z.of_nat n ->
  nth_error (Part000.visibleCommands m) n = Some cmd ->
  Part000.name cmd <> ": command mode" ->
  Part000.required cmd <> [] \/ Part000.optional cmd <> "" ->
  exists m' : Part000.model,
    Part000.runSelected m = Ok (m', textinput_Blink)
    /\ Part000_formOpen m' cmd
    /\ Part000.formIndex m' = 0
    /\ map Value (Part000.formInputs m')
       = map (fun _ => "")
           (if negb (Part000.optional cmd == "")
            then (Part000.required cmd ++ [Part000.optional cmd])%list
            else Part000.required cmd)
    /\ Part000.lastCmd m' = Part000.lastCmd m.
Proof.
  intros Hfound Hc Hf Hidx Hcmd Hname Hlabels.
  assert (Hn : (n < List.length (Part000.visibleCommands m))%nat)
    by (apply nth_error_Some; congruence).
  destruct (labels_nonempty _ _ Hlabels) as [l [ls Hl]].
  unfold Part000.runSelected. rewrite Hfound. cbn [negb].
  destruct (len (Part000.visibleCommands m) =? 0) eqn:E0;
    [unfold len in E0; zbool; lia |].
  destruct (Part000.cmdIdx m >=? len (Part000.visibleCommands m)) eqn:E1;
    [unfold len in E1; zbool; lia |].
  rewrite Hidx, (idx_nth _ _ _ Hcmd). cbn [bind].
  rewrite (proj2 (String.eqb_neq _ _) Hname).
  rewrite Hl. cbn -[String.eqb].
  eexists. split; [reflexivity |].
  unfold Part000_formOpen. cbn. repeat split; try assumption.
  rewrite map_map. reflexivity.
Qed.

Lemma MainGo_startPrompt_opens_form (B : Bubbles) (m : MainGo.model)
  (cmd : MainGo.commandSpec) :
  MainGo.devtunnelFound m = true -> MainGo.running m = false ->
  MainGo.label cmd <> "custom" ->
  MainGo.requiredArgs cmd <> [] \/ MainGo.optionalArg cmd <> "" ->
  exists m' : MainGo.model,
    MainGo.startPrompt m cmd = Ok (m', textinput_Blink)
    /\ MainGo_formOpen m' cmd
    /\ MainGo.promptIndex m' = 0
    /\ map Value (MainGo.promptInputs m')
       = map (fun _ => "")
           (if negb (MainGo.optionalArg cmd == "")
            then (MainGo.requiredArgs cmd ++ [MainGo.optionalArg cmd])%list
            else MainGo.requiredArgs cmd)
    /\ MainGo.lastCommand m' = MainGo.lastCommand m.
Proof.
  intros Hfound Hrun Hlabel Hlabels.
  destruct (labels_nonempty _ _ Hlabels) as [l [ls Hl]].
  unfold MainGo.startPrompt. rewrite Hfound. cbn [negb].
  rewrite (proj2 (String.eqb_neq _ _) Hlabel).
  rewrite Hl. cbn -[String.eqb].
  eexists. split; [reflexivity |].
  unfold MainGo_formOpen, MainGo_recorded. cbn -[String.eqb].
  repeat split; try assumption.
  - rewrite !length_map. reflexivity.
  - intros i input Hi. lia.
  - rewrite map_map. reflexivity.
Qed.

(** ** The stored last command *)

Lemma invokes_widget (o : option WidgetCmd) : invokesRunner (widgetCmd o) = false.
Proof. destruct o; reflexivity. Qed.

(** X27: in [src/main.go], whenever [Update] hands a runner command to the
    runtime, whatever the model and the message, it is the
    command of the last command vector stored in the model it returns. *)
Lemma MainGo_dispatch_records_last (B : Bubbles) (m m' : MainGo.model) (msg : Msg) (c : Cmd) :
  MainGo.Update m msg = Ok (m', c) -> invokesRunner c = true ->
  c = MainGo.runCommandCmd (MainGo.lastCommand m').
Proof.
  intros Hup Hc. destruct m.
  unfold MainGo.Update, MainGo.handlePromptInput, MainGo.startPrompt,
         MainGo.viewportTail, MainGo.leavePrompt, MainGo.isQuit in Hup.
  cbn -[String.eqb MainGo.requiredLoop Fields TrimSpace len idx store
             int_add int_sub MainGo.runCommandCmd viewport_Update SetContent
             GotoTop] in Hup.
  destruct msg;
         cbn -[String.eqb MainGo.requiredLoop Fields TrimSpace len idx store
               int_add int_sub MainGo.runCommandCmd viewport_Update SetContent
               GotoTop] in Hup.
  all: split_update Hup.
  all: try discriminate.
  all: injection Hup as <- <-.
  all: try (rewrite invokes_widget in Hc).
  all: try discriminate.
  all: reflexivity.
Qed.
Lemma MainGo_dispatch_records_last_witness :
  MainGo.runCommandCmd ["devtunnel"; "list"]
  = MainGo.runCommandCmd
      (MainGo.lastCommand
         (MainGo.set_lastCommand ["devtunnel"; "list"] MainGo.initialModel)).
Proof.
  exact (MainGo_dispatch_records_last plainWidgets
           (MainGo.set_lastCommand ["devtunnel"; "list"] MainGo.initialModel)
           (MainGo.set_lastCommand ["devtunnel"; "list"] MainGo.initialModel)
           (KeyMsg (typed "r")) (MainGo.runCommandCmd ["devtunnel"; "list"])
           eq_refl eq_refl).
Defined.

(** Case analysis on the conditions of a computed update of
    [src/unnamed/part_000]. *)
Ltac split_update_p H :=
  repeat match type of H with
  | context [match ?x with _ => _ end] =>
      match x with
      | context [match _ with _ => _ end] => fail 1
      | _ => destruct x eqn:?;
             cbn -[String.eqb Part000.requiredLoop Fields TrimSpace len idx
                   store int_add int_sub Part000.runCommandCmd SetContent
                       GotoTop HalfViewUp HalfViewDown
                       Part000.visibleCommands Part000.isDigitKey
                       Part000.digitIndex] in H
      end
  | context [bind ?x _] =>
      match x with
      | context [match _ with _ => _ end] => fail 1
      | _ => destruct x eqn:?;
             cbn -[String.eqb Part000.requiredLoop Fields TrimSpace len idx
                   store int_add int_sub Part000.runCommandCmd SetContent
                       GotoTop HalfViewUp HalfViewDown
                       Part000.visibleCommands Part000.isDigitKey
                       Part000.digitIndex] in H
      end
  end.

(** X26: in [src/unnamed/part_000], whenever [Update] hands a runner command
    to the runtime, whatever the model and the message, it is the command of
    the last command vector stored in the model it returns. *)
Lemma Part000_dispatch_records_last (B : Bubbles) (m m' : Part000.model) (msg : Msg) (c : Cmd) :
  Part000.Update m msg = Ok (m', c) -> invokesRunner c = true ->
  c = Part000.runCommandCmd (Part000.lastCmd m').
Proof.
  intros Hup Hc. destruct m.
  unfold Part000.Update, Part000.updateForm, Part000.updateCmdMode,
    Part000.updateFilterMode, Part000.runSelected, Part000.clearForm,
    Part000.moveUp, Part000.moveDown, Part000.keyIs in Hup.
  cbn -[String.eqb Part000.requiredLoop Fields TrimSpace len idx
                   store int_add int_sub Part000.runCommandCmd SetContent
                       GotoTop HalfViewUp HalfViewDown
                       Part000.visibleCommands Part000.isDigitKey
                       Part000.digitIndex] in Hup.
  destruct msg;
  cbn -[String.eqb Part000.requiredLoop Fields TrimSpace len idx
                   store int_add int_sub Part000.runCommandCmd SetContent
                       GotoTop HalfViewUp HalfViewDown
                       Part000.visibleCommands Part000.isDigitKey
                       Part000.digitIndex] in Hup.
  all: split_update_p Hup.
  all: try discriminate.
  all: injection Hup as <- <-.
  all: try (rewrite invokes_widget in Hc).
  all: try discriminate.
  all: reflexivity.
Qed.
Lemma Part000_dispatch_records_last_witness :
  Part000.runCommandCmd ["devtunnel"; "list"]
  = Part000.runCommandCmd
      (Part000.lastCmd
         (Part000.set_lastCmd ["devtunnel"; "list"] Part000.initialModel)).
Proof.
  exact (Part000_dispatch_records_last plainWidgets
           (Part000.set_lastCmd ["devtunnel"; "list"] Part000.initialModel)
           (Part000.set_lastCmd ["devtunnel"; "list"] Part000.initialModel)
           (KeyMsg (typed "r")) (Part000.runCommandCmd ["devtunnel"; "list"])
           eq_refl eq_refl).
Defined.

(** * Further properties of the two programs *)

(** ** Well-formed models stay well-formed *)

Lemma visibleCommands_for (m : Part000.model) :
  Part000.visibleCommands m =
  Part000_visibleFor (Part000.categories m) (Part000.catIdx m) (Value (Part000.filterInput m)).
Proof. reflexivity. Qed.

Lemma idx_Ok_inv {A : Type} (l : list A) (i : Z) (a : A) :
  idx l i = Ok a -> 0 <= i < len l /\ nth_error l (Z.to_nat i) = Some a.
Proof.
  unfold idx. destruct (i <? 0) eqn:E; [discriminate |].
  destruct (nth_error l (Z.to_nat i)) eqn:Hn; [| discriminate].
  intros H; injection H as <-. split; [| reflexivity].
  assert (Z.to_nat i < List.length l)%nat by (apply nth_error_Some; congruence).
  unfold len. zbool. lia.
Qed.

Lemma store_Ok_inv {A : Type} (l l' : list A) (i : Z) (a : A) :
  store l i a = Ok l' -> 0 <= i < len l /\ l' = replace_nth l (Z.to_nat i) a /\ len l' = len l.
Proof.
  unfold store. destruct (i <? 0) eqn:E1; [discriminate |].
  destruct (len l <=? i) eqn:E2; [discriminate |]. simpl.
  intros H; injection H as <-. zbool. split; [lia |]. split; [reflexivity |].
  unfold len. rewrite length_replace_nth. reflexivity.
Qed.

Lemma visibleFor_In (cats : list Part000.commandCategory) (ci : Z) (text : string) (c : Part000.commandItem) :
  In c (Part000_visibleFor cats ci text) ->
  exists cat, In cat cats /\ In c (Part000.commands cat).
Proof.
  unfold Part000_visibleFor, Part000.visibleCommands. cbn.
  destruct ((ci <? 0) || (ci >=? len cats)); [intros []|].
  destruct (nth_error cats (Z.to_nat ci)) as [cat|] eqn:Hcat; [| intros []].
  intros H. exists cat. split; [eapply nth_error_In; exact Hcat |].
  match type of H with context [if ?b then _ else _] => destruct b end;
    [exact H |].
  rewrite fold_append_filter in H. simpl in H. apply filter_In in H. tauto.
Qed.

(** Computing an update of [src/unnamed/part_000] in a hypothesis, and the
    case analysis on its conditions. *)
Ltac pcbn H :=
  cbn -[String.eqb Part000.requiredLoop Fields TrimSpace len idx
        store int_add int_sub Part000.runCommandCmd SetContent GotoTop
        HalfViewUp HalfViewDown Part000_visibleFor Part000.isDigitKey
        Part000.digitIndex Z.pow] in H.

Ltac psplit H :=
  repeat match type of H with
  | context [match ?x with _ => _ end] =>
      match x with
      | context [match _ with _ => _ end] => fail 1
      | _ => destruct x eqn:?; pcbn H
      end
  | context [bind ?x _] =>
      match x with
      | context [match _ with _ => _ end] => fail 1
      | _ => destruct x eqn:?; pcbn H
      end
  end.

Lemma int_sub_pred (z bound : Z) : 0 < z -> z < bound -> bound < 2 ^ 63 -> int_sub z 1 = z - 1.
Proof.
  intros. apply int_step_down; [| assumption]. unfold int_range.
  assert (Hk : 0 < 2 ^ 63) by reflexivity.
  set (k := 2 ^ 63) in *; clearbody k. lia.
Qed.

Lemma int_add_next (z bound : Z) : 0 <= z -> z < bound - 1 -> bound < 2 ^ 63 -> int_add z 1 = z + 1.
Proof.
  intros. apply (int_step_up z bound); try assumption. unfold int_range.
  assert (Hk : 0 < 2 ^ 63) by reflexivity.
  set (k := 2 ^ 63) in *; clearbody k. lia.
Qed.

Lemma visible_small (cats : list Part000.commandCategory) (ci : Z) (text : string)
  (n : nat) (a : Part000.commandItem) :
  Part000_smallCatalog cats ->
  nth_error (Part000_visibleFor cats ci text) n = Some a ->
  len (Part000.required a) + 1 < 2 ^ 63.
Proof.
  intros [_ Hall] Hn. apply nth_error_In in Hn.
  destruct (visibleFor_In _ _ _ _ Hn) as [cat [Hcat Ha]].
  rewrite Forall_forall in Hall. specialize (Hall cat Hcat).
  rewrite Forall_forall in Hall. exact (Hall a Ha).
Qed.

Lemma len_app1 {A : Type} (l : list A) (a : A) : len (l ++ [a]) = len l + 1.
Proof. unfold len. rewrite length_app. simpl. lia. Qed.

Lemma len_map {A C : Type} (f : A -> C) (l : list A) : len (map f l) = len l.
Proof. unfold len. rewrite length_map. reflexivity. Qed.

Lemma len_nonneg {A : Type} (l : list A) : 0 <= len l.
Proof. unfold len. lia. Qed.

(** [Update] keeps the model of [src/unnamed/part_000] well-formed, whatever
    the message. *)
Lemma Part000_update_wf (B : Bubbles) (m m' : Part000.model) (msg : Msg) (c : Cmd) :
  Part000_wf m -> Part000.Update m msg = Ok (m', c) -> Part000_wf m'.
Proof.
  intros Hwf Hup. unfold Part000_wf in *.
  rewrite visibleCommands_for in *.
  destruct m.
  cbn -[Part000_visibleFor len Z.pow] in Hwf.
  destruct Hwf as [Hsmall [Hcat [Hcmd0 [Hcmd [Hform Hcm]]]]].
  unfold Part000.Update, Part000.updateForm, Part000.updateCmdMode,
    Part000.updateFilterMode, Part000.runSelected, Part000.clearForm,
    Part000.moveUp, Part000.moveDown, Part000.keyIs in Hup.
  rewrite ?visibleCommands_for in Hup.
  pcbn Hup.
  destruct msg; pcbn Hup.
  all: psplit Hup.
  all: try discriminate.
  all: injection Hup as <- <-.
  all: cbn -[Part000_visibleFor len Z.pow int_add int_sub].
  all: repeat match goal with
       | H : ?b = true -> _ |- _ => match b with true => specialize (H eq_refl) | false => clear H end
       | H : idx _ _ = Ok _ |- _ => apply idx_Ok_inv in H; destruct H as [? ?]
       | H : store _ _ _ = Ok _ |- _ => apply store_Ok_inv in H; destruct H as [? [? ?]]
       end.
  all: zbool.
  all: (split; [assumption |]).
  all: repeat match goal with
       | |- context [int_add ?z 1] => rewrite (int_add_next z (len formInputs)) by lia
       | |- context [int_add ?z 1] => rewrite (int_add_next z (len categories)) by (destruct Hsmall; lia)
       | |- context [int_sub ?z 1] => rewrite (int_sub_pred z (len categories)) by (destruct Hsmall; lia)
       end.
  all: repeat match goal with
       | H : nth_error (Part000_visibleFor _ _ _) _ = Some ?a |- _ =>
           pose proof (visible_small _ _ _ _ _ Hsmall H); clear H
       end.
  all: rewrite ?len_map, ?len_app1 in *.
  all: repeat match goal with
       | |- context [len ?l] => lazymatch goal with
                                | _ : 0 <= len l |- _ => fail
                                | _ => pose proof (len_nonneg l)
                                end
       end.
  all: intuition (try discriminate; try lia; try congruence).
  all: try match goal with
       | H : forall c, ?f = Some c -> _, H' : ?f = Some ?c |- _ =>
           specialize (H _ H'); lia
       | H' : Some ?a = Some ?c |- _ => injection H' as <-; lia
       end.
Qed.

Lemma idx_Panic_inv {A : Type} (l : list A) (i : Z) :
  idx l i = Panic -> i < 0 \/ len l <= i.
Proof.
  unfold idx. destruct (i <? 0) eqn:E; [zbool; lia |].
  destruct (nth_error l (Z.to_nat i)) eqn:Hn; [discriminate |].
  intros _. apply nth_error_None in Hn. unfold len. zbool. lia.
Qed.

Lemma store_Panic_inv {A : Type} (l : list A) (i : Z) (a : A) :
  store l i a = Panic -> i < 0 \/ len l <= i.
Proof.
  unfold store. destruct (i <? 0) eqn:E1; [zbool; lia |].
  destruct (len l <=? i) eqn:E2; [zbool; lia | discriminate].
Qed.

(** The loops over the required fields stay within the slices they read. *)
Lemma Part000_requiredLoop_total (n : nat) :
  forall (i : nat) (c : Part000.commandItem) (inputs : list textinput)
         (parts : list string),
    (i + n <= List.length inputs)%nat ->
    (i + n <= List.length (Part000.required c))%nat ->
    Part000.requiredLoop n (Z.of_nat i) c inputs parts <> Panic.
Proof.
  induction n as [|n IH]; intros i c inputs parts Hin Hreq; simpl; [discriminate |].
  destruct (nth_error inputs i) as [input|] eqn:Hi;
    [| apply nth_error_None in Hi; lia].
  rewrite (idx_nth _ _ _ Hi). simpl.
  destruct (TrimSpace (Value input) == "").
  - destruct (nth_error (Part000.required c) i) as [lbl|] eqn:Hl;
      [| apply nth_error_None in Hl; lia].
    rewrite (idx_nth _ _ _ Hl). discriminate.
  - replace (Z.of_nat i + 1) with (Z.of_nat (S i)) by lia.
    apply IH; lia.
Qed.

(** On a well-formed model of [src/unnamed/part_000], [Update] does not
    panic. *)
Lemma Part000_update_total (B : Bubbles) (m : Part000.model) (msg : Msg) :
  Part000_wf m -> Part000.Update m msg <> Panic.
Proof.
  intros Hwf Hup. unfold Part000_wf in *.
  rewrite visibleCommands_for in *.
  destruct m.
  cbn -[Part000_visibleFor len Z.pow] in Hwf.
  destruct Hwf as [Hsmall [Hcat [Hcmd0 [Hcmd [Hform Hcm]]]]].
  unfold Part000.Update, Part000.updateForm, Part000.updateCmdMode,
    Part000.updateFilterMode, Part000.runSelected, Part000.clearForm,
    Part000.moveUp, Part000.moveDown, Part000.keyIs in Hup.
  rewrite ?visibleCommands_for in Hup.
  pcbn Hup.
  destruct msg; pcbn Hup.
  all: psplit Hup.
  all: try discriminate.
  all: clear Hup.
  all: repeat match goal with
       | H : ?b = true -> _ |- _ => match b with true => specialize (H eq_refl) | false => clear H end
       | H : idx _ _ = Ok _ |- _ => apply idx_Ok_inv in H; destruct H as [? ?]
       | H : store _ _ _ = Ok _ |- _ => apply store_Ok_inv in H; destruct H as [? [? ?]]
       | H : idx _ _ = Panic |- _ => apply idx_Panic_inv in H
       | H : store _ _ _ = Panic |- _ => apply store_Panic_inv in H
       end.
  all: zbool.
  all: repeat match goal with
       | H : context [int_add ?z 1] |- _ => rewrite (int_add_next z (len formInputs)) in H by lia
       end.
  all: rewrite ?len_map, ?len_app1 in *.
  all: repeat match goal with
       | H : context [len ?l] |- _ => lazymatch goal with
                                | _ : 0 <= len l |- _ => fail
                                | _ => pose proof (len_nonneg l)
                                end
       end.
  all: try (intuition (try discriminate; try lia; try congruence); fail).
  all: match goal with
       | Hr : Part000.requiredLoop _ _ ?c ?inputs _ = Panic |- _ =>
           revert Hr; change (Z0) with (Z.of_nat 0);
           apply Part000_requiredLoop_total; [| lia];
           destruct Hform as [_ [_ [_ [_ [_ Hreq]]]]];
           specialize (Hreq c eq_refl); unfold len in Hreq; lia
       end.
Qed.

(** The same for [src/main.go]. *)
Ltac mcbn H :=
  cbn -[String.eqb MainGo.requiredLoop Fields TrimSpace len idx
        store int_add int_sub MainGo.runCommandCmd viewport_Update
        SetContent GotoTop Z.pow] in H.

Ltac msplit H :=
  repeat match type of H with
  | context [match ?x with _ => _ end] =>
      match x with
      | context [match _ with _ => _ end] => fail 1
      | _ => destruct x eqn:?; mcbn H
      end
  | context [bind ?x _] =>
      match x with
      | context [match _ with _ => _ end] => fail 1
      | _ => destruct x eqn:?; mcbn H
      end
  end.

Lemma MainGo_requiredLoop_total (labels : list string) :
  forall (i : nat) (values args : list string),
    (i + List.length labels <= List.length values)%nat ->
    MainGo.requiredLoop labels (Z.of_nat i) values args <> Panic.
Proof.
  induction labels as [|l labels IH]; intros i values args Hlen; simpl in *;
    [discriminate |].
  destruct (nth_error values i) as [v|] eqn:Hi;
    [| apply nth_error_None in Hi; lia].
  rewrite (idx_nth _ _ _ Hi). simpl.
  destruct (TrimSpace v == ""); [discriminate |].
  replace (Z.of_nat i + 1) with (Z.of_nat (S i)) by lia.
  apply IH; lia.
Qed.

Lemma commands_small (cmds : list MainGo.commandSpec) (n : nat) (a : MainGo.commandSpec) :
  MainGo_smallCommands cmds -> nth_error cmds n = Some a ->
  len (MainGo.requiredArgs a) + 1 < 2 ^ 63.
Proof.
  intros [_ Hall] Hn. apply nth_error_In in Hn.
  rewrite Forall_forall in Hall. exact (Hall a Hn).
Qed.

(** What a slice access that succeeded, or panicked, says of its index. *)
Ltac inv_facts :=
  repeat match goal with
  | H : ?b = true -> _ |- _ => match b with true => specialize (H eq_refl) | false => clear H end
  | H : idx _ _ = Ok _ |- _ => apply idx_Ok_inv in H; destruct H as [? ?]
  | H : store _ _ _ = Ok _ |- _ => apply store_Ok_inv in H; destruct H as [? [? ?]]
  | H : idx _ _ = Panic |- _ => apply idx_Panic_inv in H
  | H : store _ _ _ = Panic |- _ => apply store_Panic_inv in H
  end.

Ltac len_facts :=
  rewrite ?len_map, ?len_app1 in *;
  repeat match goal with
  | |- context [len ?l] => lazymatch goal with
                           | _ : 0 <= len l |- _ => fail
                           | _ => pose proof (len_nonneg l)
                           end
  | H : context [len ?l] |- _ => lazymatch goal with
                           | _ : 0 <= len l |- _ => fail
                           | _ => pose proof (len_nonneg l)
                           end
  end.

(** [Update] keeps the model of [src/main.go] well-formed, whatever the
    message. *)
Lemma MainGo_update_wf (B : Bubbles) (m m' : MainGo.model) (msg : Msg) (c : Cmd) :
  MainGo_wf m -> MainGo.Update m msg = Ok (m', c) -> MainGo_wf m'.
Proof.
  intros Hwf Hup. unfold MainGo_wf in *.
  destruct m. cbn -[len Z.pow String.eqb] in Hwf.
  destruct Hwf as [Hsmall [Hsel [Hform Hactive]]].
  unfold MainGo.Update, MainGo.handlePromptInput, MainGo.startPrompt,
    MainGo.viewportTail, MainGo.leavePrompt, MainGo.isQuit in Hup.
  mcbn Hup. destruct msg; mcbn Hup.
  all: msplit Hup.
  all: try discriminate.
  all: injection Hup as <- <-.
  all: cbn -[len Z.pow int_add int_sub String.eqb].
  all: inv_facts.
  all: zbool.
  all: (split; [assumption |]).
  all: repeat match goal with
       | H : forall c, Some ?a = Some c -> _ |- _ => specialize (H a eq_refl)
       | H : ?x = false -> _, H' : ?x = false |- _ => specialize (H H')
       end.
  all: repeat match goal with
       | |- context [int_add ?z 1] => rewrite (int_add_next z (len promptInputs)) by lia
       | |- context [int_add ?z 1] => rewrite (int_add_next z (len commands)) by (destruct Hsmall; lia)
       | |- context [int_sub ?z 1] => rewrite (int_sub_pred z (len commands)) by (destruct Hsmall; lia)
       end.
  all: repeat match goal with
       | H : nth_error ?cs _ = Some ?a |- _ =>
           pose proof (commands_small cs _ _ Hsmall H); clear H
       end.
  all: len_facts.
  all: try (intuition (try discriminate; try lia; try congruence); fail).
  all: split; [lia |]; split; [| discriminate].
  all: intros _ c0 Hc _; injection Hc as <-; lia.
Qed.

(** On a well-formed model of [src/main.go], [Update] does not panic. *)
Lemma MainGo_update_total (B : Bubbles) (m : MainGo.model) (msg : Msg) :
  MainGo_wf m -> MainGo.Update m msg <> Panic.
Proof.
  intros Hwf Hup. unfold MainGo_wf in *.
  destruct m. cbn -[len Z.pow String.eqb] in Hwf.
  destruct Hwf as [Hsmall [Hsel [Hform Hactive]]].
  unfold MainGo.Update, MainGo.handlePromptInput, MainGo.startPrompt,
    MainGo.viewportTail, MainGo.leavePrompt, MainGo.isQuit in Hup.
  mcbn Hup. destruct msg; mcbn Hup.
  all: msplit Hup.
  all: try discriminate.
  all: clear Hup.
  all: inv_facts.
  all: zbool.
  all: repeat match goal with
       | H : forall c, Some ?a = Some c -> _ |- _ => specialize (H a eq_refl)
       | H : ?x = false -> _, H' : ?x = false |- _ => specialize (H H')
       end.
  all: repeat match goal with
       | H : context [int_add ?z 1] |- _ =>
           rewrite (int_add_next z (len promptInputs)) in H by lia
       end.
  all: len_facts.
  all: try (intuition (try discriminate; try lia; try congruence); fail).
  all: match goal with
       | Hr : MainGo.requiredLoop _ _ _ _ = Panic |- _ =>
           revert Hr; change (Z0) with (Z.of_nat 0);
           apply MainGo_requiredLoop_total; unfold len in *; lia
       end.
Qed.

(** ** Along the runs of the loop *)

Lemma Part000_smallCatalog_catalog : Part000_smallCatalog Part000.catalog.
Proof.
  split; [reflexivity |].
  repeat (apply Forall_cons || apply Forall_nil); reflexivity.
Qed.

Lemma Part000_wf_initial : Part000_wf Part000.initialModel.
Proof.
  unfold Part000_wf. split; [exact Part000_smallCatalog_catalog |].
  cbn. repeat split; try discriminate; try lia.
Qed.

Lemma MainGo_smallCommands_default : MainGo_smallCommands MainGo.defaultCommands.
Proof.
  split; [reflexivity |].
  repeat (apply Forall_cons || apply Forall_nil); reflexivity.
Qed.

Lemma MainGo_wf_initial : MainGo_wf MainGo.initialModel.
Proof.
  unfold MainGo_wf. split; [exact MainGo_smallCommands_default |].
  cbn. repeat split; try discriminate; try lia.
Qed.

(** An invariant of [Update] holds after every run of the loop. *)
Lemma replay_invariant {M : Type} (Update : M -> Msg -> result (M * Cmd))
  (w : World) (P : M -> Prop) :
  (forall m msg m' c, P m -> Update m msg = Ok (m', c) -> P m') ->
  forall (es : list Event) (s s' : loopState M),
    P (cur s) -> replay M Update w s es = Some s' -> P (cur s').
Proof.
  intros Hstep. induction es as [|e es IH]; intros s s' Hs Hrun; simpl in Hrun.
  - injection Hrun as <-. exact Hs.
  - destruct (loopStep M Update w s e) as [s1|] eqn:He; [| discriminate].
    apply (IH s1 s'); [| exact Hrun].
    assert (Hturn : forall msg rest, turn M Update w s msg rest = Some s1 ->
                                     P (cur s1)).
    { intros msg rest Ht. unfold turn in Ht.
      destruct (Update (cur s) msg) as [[m1 c1]|] eqn:Hup;
        [| destruct msg; discriminate].
      assert (s1 = mkLoop m1 (rest ++ queues w c1)%list)
        by (destruct msg; congruence).
      subst s1. exact (Hstep _ _ _ _ Hs Hup). }
    destruct e as [msg | n]; simpl in He.
    + destruct (fromTerminal msg); [| discriminate]. eauto.
    + destruct (pop n (pending s)) as [[msg rest]|]; [| discriminate]. eauto.
Qed.

Lemma Part000_reachable_wf (B : Bubbles) (w : World) (s : loopState Part000.model) :
  Part000_reachable w s -> Part000_wf (cur s).
Proof.
  intros [es Hes].
  refine (replay_invariant Part000.Update w Part000_wf _ es _ s _ Hes).
  - intros m msg m' c. apply Part000_update_wf.
  - exact Part000_wf_initial.
Qed.

Lemma MainGo_reachable_wf (B : Bubbles) (w : World) (s : loopState MainGo.model) :
  MainGo_reachable w s -> MainGo_wf (cur s).
Proof.
  intros [es Hes].
  refine (replay_invariant MainGo.Update w MainGo_wf _ es _ s _ Hes).
  - intros m msg m' c. apply MainGo_update_wf.
  - exact MainGo_wf_initial.
Qed.

(** [Update] never writes the catalog. *)
Lemma Part000_update_categories (B : Bubbles) (m m' : Part000.model) (msg : Msg) (c : Cmd) :
  Part000.Update m msg = Ok (m', c) -> Part000.categories m' = Part000.categories m.
Proof.
  intros Hup. destruct m.
  unfold Part000.Update, Part000.updateForm, Part000.updateCmdMode,
    Part000.updateFilterMode, Part000.runSelected, Part000.clearForm,
    Part000.moveUp, Part000.moveDown, Part000.keyIs in Hup.
  rewrite ?visibleCommands_for in Hup.
  pcbn Hup. destruct msg; pcbn Hup.
  all: psplit Hup.
  all: try discriminate.
  all: injection Hup as <- <-.
  all: reflexivity.
Qed.

Lemma MainGo_update_commands (B : Bubbles) (m m' : MainGo.model) (msg : Msg) (c : Cmd) :
  MainGo.Update m msg = Ok (m', c) -> MainGo.commands m' = MainGo.commands m.
Proof.
  intros Hup. destruct m.
  unfold MainGo.Update, MainGo.handlePromptInput, MainGo.startPrompt,
    MainGo.viewportTail, MainGo.leavePrompt, MainGo.isQuit in Hup.
  mcbn Hup. destruct msg; mcbn Hup.
  all: msplit Hup.
  all: try discriminate.
  all: injection Hup as <- <-.
  all: reflexivity.
Qed.

Lemma Part000_reachable_categories (B : Bubbles) (w : World)
  (s : loopState Part000.model) :
  Part000_reachable w s -> Part000.categories (cur s) = Part000.catalog.
Proof.
  intros [es Hes].
  refine (replay_invariant Part000.Update w
            (fun m => Part000.categories m = Part000.catalog) _ es _ s _ Hes).
  - intros m msg m' c Hm Hup.
    rewrite (Part000_update_categories _ _ _ _ _ Hup). exact Hm.
  - reflexivity.
Qed.

Lemma MainGo_reachable_commands (B : Bubbles) (w : World)
  (s : loopState MainGo.model) :
  MainGo_reachable w s -> MainGo.commands (cur s) = MainGo.defaultCommands.
Proof.
  intros [es Hes].
  refine (replay_invariant MainGo.Update w
            (fun m => MainGo.commands m = MainGo.defaultCommands) _ es _ s _ Hes).
  - intros m msg m' c Hm Hup.
    rewrite (MainGo_update_commands _ _ _ _ _ Hup). exact Hm.
  - reflexivity.
Qed.

(** X1: [src/unnamed/part_000] never panics.  In every state the loop can
    reach from [initialModel], on any machine and whatever the widgets do,
    [Update] returns a model and a command for every message: no slice is
    read or written out of range, in [runSelected], in [updateForm] or in
    the loop over the required fields. *)
Theorem Part000_update_never_panics (B : Bubbles) (w : World)
  (s : loopState Part000.model) (msg : Msg) :
  Part000_reachable w s -> Part000.Update (cur s) msg <> Panic.
Proof.
  intros Hs. apply Part000_update_total. exact (Part000_reachable_wf B w s Hs).
Qed.

Lemma Part000_update_never_panics_witness :
  @Part000_reachable plainWidgets worldWith (Part000_after worldWith filterNothing)
  /\ @Part000.Update plainWidgets (cur (Part000_after worldWith filterNothing))
       (KeyMsg (pressed KeyEnter)) <> Panic.
Proof.
  assert (H : @Part000_reachable plainWidgets worldWith
                (Part000_after worldWith filterNothing))
    by (exists filterNothing; vm_compute; reflexivity).
  split; [exact H |].
  exact (Part000_update_never_panics plainWidgets worldWith
           (Part000_after worldWith filterNothing) (KeyMsg (pressed KeyEnter)) H).
Defined.

(** X2: where the cursors of [src/unnamed/part_000] can be.  In every
    reachable state the categories are the six of [catalog], the category
    cursor is on one of them, and the command cursor is on the first or on
    the last visible command: since the up and down keys do not move it, a
    command in the middle of a category is never under the cursor.  At most
    one of the form, the raw command line and the filter field is open. *)
Theorem Part000_reachable_cursors (B : Bubbles) (w : World)
  (s : loopState Part000.model) :
  Part000_reachable w s ->
  Part000.categories (cur s) = Part000.catalog
  /\ 0 <= Part000.catIdx (cur s) < 6
  /\ 0 <= Part000.cmdIdx (cur s)
  /\ (Part000.cmdIdx (cur s) = 0
      \/ Part000.cmdIdx (cur s) = len (Part000.visibleCommands (cur s)) - 1)
  /\ (Part000.formMode (cur s) = true ->
      Part000.cmdMode (cur s) = false /\ Part000.filterMode (cur s) = false)
  /\ (Part000.cmdMode (cur s) = true -> Part000.filterMode (cur s) = false).
Proof.
  intros Hs.
  pose proof (Part000_reachable_categories B w s Hs) as Hcats.
  destruct (Part000_reachable_wf _ _ _ Hs)
    as [_ [Hcat [Hcmd0 [Hcmd [Hform Hcm]]]]].
  rewrite Hcats in Hcat. change (len Part000.catalog) with 6 in Hcat.
  split; [exact Hcats |]. split; [exact Hcat |]. split; [exact Hcmd0 |].
  split; [exact Hcmd |]. split; [| exact Hcm].
  intros Hf. destruct (Hform Hf) as [H1 [H2 _]]. split; assumption.
Qed.

Lemma Part000_reachable_cursors_witness :
  Part000.cmdIdx (cur (Part000_after worldWith
                         [Deliver 0; Input (KeyMsg (typed "G"))])) = 0
  \/ Part000.cmdIdx (cur (Part000_after worldWith
                            [Deliver 0; Input (KeyMsg (typed "G"))]))
     = len (Part000.visibleCommands
              (cur (Part000_after worldWith
                      [Deliver 0; Input (KeyMsg (typed "G"))]))) - 1.
Proof.
  apply (Part000_reachable_cursors plainWidgets worldWith
           (Part000_after worldWith [Deliver 0; Input (KeyMsg (typed "G"))])).
  exists [Deliver 0; Input (KeyMsg (typed "G"))]. vm_compute. reflexivity.
Defined.

(** X3: [src/main.go] never panics.  In every state the loop can reach from
    [initialModel], [Update] returns a model and a command for every
    message. *)
Theorem MainGo_update_never_panics (B : Bubbles) (w : World)
  (s : loopState MainGo.model) (msg : Msg) :
  MainGo_reachable w s -> MainGo.Update (cur s) msg <> Panic.
Proof.
  intros Hs. apply MainGo_update_total. exact (MainGo_reachable_wf B w s Hs).
Qed.

Lemma MainGo_update_never_panics_witness :
  @MainGo_reachable plainWidgets worldWith (MainGo_after worldWith promptShow)
  /\ @MainGo.Update plainWidgets (cur (MainGo_after worldWith promptShow))
       (KeyMsg (pressed KeyEnter)) <> Panic.
Proof.
  assert (H : @MainGo_reachable plainWidgets worldWith
                (MainGo_after worldWith promptShow))
    by (exists promptShow; vm_compute; reflexivity).
  split; [exact H |].
  exact (MainGo_update_never_panics plainWidgets worldWith
           (MainGo_after worldWith promptShow) (KeyMsg (pressed KeyEnter)) H).
Defined.

(** X4: where the cursor and the prompt of [src/main.go] can be.  In every
    reachable state the commands are the twenty of [defaultCommands] and the
    cursor is on one of them; while a prompt is open it has its command, and
    the prompt of a command other than "custom" has its focus on one of its
    fields, a recorded value for every field and a field for every required
    label. *)
Theorem MainGo_reachable_cursor (B : Bubbles) (w : World)
  (s : loopState MainGo.model) :
  MainGo_reachable w s ->
  MainGo.commands (cur s) = MainGo.defaultCommands
  /\ 0 <= MainGo.selected (cur s) < 20
  /\ (MainGo.inPrompt (cur s) = true ->
      exists c : MainGo.commandSpec,
        MainGo.activeCommand (cur s) = Some c
        /\ (MainGo.label c <> "custom" ->
            0 <= MainGo.promptIndex (cur s) < len (MainGo.promptInputs (cur s))
            /\ len (MainGo.promptValues (cur s)) = len (MainGo.promptInputs (cur s))
            /\ len (MainGo.requiredArgs c) <= len (MainGo.promptInputs (cur s)))).
Proof.
  intros Hs.
  pose proof (MainGo_reachable_commands B w s Hs) as Hcmds.
  destruct (MainGo_reachable_wf B w s Hs) as [_ [Hsel [Hform Hactive]]].
  rewrite Hcmds in Hsel. change (len MainGo.defaultCommands) with 20 in Hsel.
  split; [exact Hcmds |]. split; [exact Hsel |].
  intros Hin. destruct (MainGo.activeCommand (cur s)) as [c|] eqn:Ec;
    [| exfalso; exact (Hactive Hin eq_refl)].
  exists c. split; [reflexivity |]. intros Hlabel.
  destruct (Hform Hin c eq_refl (proj2 (String.eqb_neq _ _) Hlabel))
    as [H1 [H2 [_ H3]]].
  repeat split; try assumption; lia.
Qed.

Lemma MainGo_reachable_cursor_witness :
  0 <= MainGo.selected (cur (MainGo_after worldWith promptShow)) < 20.
Proof.
  refine (proj1 (proj2 (MainGo_reachable_cursor plainWidgets worldWith
                          (MainGo_after worldWith promptShow) _))).
  exists promptShow. vm_compute. reflexivity.
Defined.

(** ** Splitting a line into tokens *)

Lemma Fields_tokens (s : string) : Forall (fun t => isToken t = true) (Fields s).
Proof.
  induction s as [|c s IH]; simpl; [constructor |].
  destruct (isSpace c) eqn:Ec; [exact IH |].
  destruct s as [|c' s'].
  - constructor; [| constructor]. unfold isToken. simpl. rewrite Ec. reflexivity.
  - destruct (isSpace c') eqn:Ec'.
    + constructor; [| exact IH]. unfold isToken. simpl. rewrite Ec. reflexivity.
    + destruct (Fields (String c' s')) as [|w ws].
      * constructor; [| constructor]. unfold isToken. simpl. rewrite Ec.
        reflexivity.
      * inversion IH as [|? ? Hw Hws]; subst. constructor; [| exact Hws].
        unfold isToken in *. simpl. rewrite Ec. simpl.
        apply andb_true_iff in Hw. tauto.
Qed.

Lemma Fields_TrimLeft (s : string) : Fields (TrimLeft s) = Fields s.
Proof.
  induction s as [|c s IH]; [reflexivity |].
  simpl TrimLeft. destruct (isSpace c) eqn:Ec; [| reflexivity].
  rewrite IH. simpl. rewrite Ec. reflexivity.
Qed.

Lemma Fields_nonempty (c : ascii) (s : string) :
  isSpace c = false -> Fields (String c s) <> [].
Proof.
  intros Ec. simpl. rewrite Ec. destruct s as [|c' s']; [discriminate |].
  destruct (isSpace c'); [discriminate |].
  destruct (Fields (String c' s')); discriminate.
Qed.

Lemma TrimRight_head (c : ascii) (s : string) :
  TrimRight (String c s) = "" \/ exists r, TrimRight (String c s) = String c r.
Proof.
  simpl. destruct (TrimRight s); [destruct (isSpace c) |]; eauto.
Qed.

Lemma Fields_TrimRight (s : string) : Fields (TrimRight s) = Fields s.
Proof.
  induction s as [|c s IH]; [reflexivity |].
  simpl TrimRight. destruct (TrimRight s) as [|d r] eqn:Er.
  - (* the rest is white space *)
    simpl in IH. destruct (isSpace c) eqn:Ec.
    + simpl. rewrite Ec. exact IH.
    + simpl. rewrite Ec. destruct s as [|c' s']; [reflexivity |].
      destruct (isSpace c') eqn:Ec'.
      * rewrite <- IH. reflexivity.
      * exfalso. apply (Fields_nonempty c' s' Ec'). symmetry. exact IH.
  - destruct s as [|c' s']; [discriminate |].
    destruct (TrimRight_head c' s') as [E | [r' E]]; [congruence |].
    rewrite Er in E. injection E as -> ->.
    change (Fields (String c (String c' r')))
      with (if isSpace c then Fields (String c' r')
            else if isSpace c' then String c "" :: Fields (String c' r')
                 else match Fields (String c' r') with
                      | w :: ws => String c w :: ws
                      | [] => [String c ""]
                      end).
    change (Fields (String c (String c' s')))
      with (if isSpace c then Fields (String c' s')
            else if isSpace c' then String c "" :: Fields (String c' s')
                 else match Fields (String c' s') with
                      | w :: ws => String c w :: ws
                      | [] => [String c ""]
                      end).
    rewrite IH. reflexivity.
Qed.

Lemma Fields_TrimSpace (s : string) : Fields (TrimSpace s) = Fields s.
Proof. unfold TrimSpace. rewrite Fields_TrimRight. apply Fields_TrimLeft. Qed.

Lemma TrimLeft_blank (s : string) : Fields s = [] -> TrimLeft s = "".
Proof.
  induction s as [|c s IH]; [reflexivity |]. intros H.
  destruct (isSpace c) eqn:Ec.
  - simpl in *. rewrite Ec in *. auto.
  - exfalso. exact (Fields_nonempty c s Ec H).
Qed.

(** A line has no token exactly when trimming it leaves nothing. *)
Lemma Fields_nil_TrimSpace (s : string) : Fields s = [] <-> TrimSpace s = "".
Proof.
  split; intros H.
  - unfold TrimSpace. rewrite (TrimLeft_blank _ H). reflexivity.
  - rewrite <- Fields_TrimSpace, H. reflexivity.
Qed.

(** ** Moving between categories and commands *)

(** X5: the category cursor of [src/unnamed/part_000].  With no form, raw
    command line or filter field open, the left arrow and "h" move the
    category cursor one category back and the right arrow and "l" one
    category on; at the first and at the last category the model stays as it
    is.  A move puts the command cursor on the first command.  The cursor
    never leaves the categories and never wraps around. *)
Theorem Part000_category_keys (B : Bubbles) (m : Part000.model) (k : Key) :
  Part000_wf m ->
  Part000.formMode m = false -> Part000.cmdMode m = false ->
  Part000.filterMode m = false ->
  Part000.keyIs k KeyCtrlC "q" = false ->
  (Part000.keyIs k KeyLeft "h" = true ->
   Part000.Update m (KeyMsg k) =
   Ok (if Part000.catIdx m >? 0
       then Part000.set_cmdIdx 0 (Part000.set_catIdx (Part000.catIdx m - 1) m)
       else m, CmdNil))
  /\ (Part000.keyIs k KeyLeft "h" = false ->
      Part000.keyIs k KeyRight "l" = true ->
      Part000.Update m (KeyMsg k) =
      Ok (if Part000.catIdx m <? len (Part000.categories m) - 1
          then Part000.set_cmdIdx 0 (Part000.set_catIdx (Part000.catIdx m + 1) m)
          else m, CmdNil)).
Proof.
  intros [[Hsmall _] [Hcat _]] Hf Hc Hfl Hq. unfold Part000.Update.
  rewrite Hf, Hc, Hfl, Hq. split.
  - intros ->. destruct (Part000.catIdx m >? 0) eqn:E; [| reflexivity].
    zbool. rewrite (int_sub_pred _ (len (Part000.categories m))) by lia.
    reflexivity.
  - intros -> ->.
    destruct (Part000.catIdx m <? len (Part000.categories m) - 1) eqn:E;
      [| reflexivity].
    zbool. rewrite (int_add_next _ (len (Part000.categories m))) by lia.
    reflexivity.
Qed.

Lemma Part000_category_keys_witness :
  @Part000.Update plainWidgets Part000.initialModel (KeyMsg (typed "l"))
  = Ok (Part000.set_cmdIdx 0 (Part000.set_catIdx 1 Part000.initialModel), CmdNil).
Proof.
  exact (proj2 (Part000_category_keys plainWidgets Part000.initialModel
                  (typed "l") Part000_wf_initial eq_refl eq_refl eq_refl
                  eq_refl) eq_refl eq_refl).
Defined.

(** The key that types the digit [n + 1]. *)
Lemma digit_key_string (k : Key) (n : nat) :
  (n < 6)%nat -> keyString k = String (ascii_of_nat (49 + n)) "" ->
  Type_ k = KeyRunes /\ Part000.isDigitKey (keyString k) = true
  /\ Part000.digitIndex (keyString k) = Z.of_nat n.
Proof.
  intros Hn Hk. rewrite Hk.
  destruct k as [t r a]. unfold keyString in Hk. simpl in Hk.
  do 6 (destruct n as [|n]; [destruct t, a; try discriminate;
                             repeat split; reflexivity |]).
  lia.
Qed.

(** X6: the digit keys of [src/unnamed/part_000].  With no form, raw command
    line or filter field open, the key "1" to "6" puts the category cursor on
    the category of that number, the command cursor on its first command and
    the focus hint on the command pane; a digit beyond the number of
    categories changes nothing. *)
Theorem Part000_digit_keys (B : Bubbles) (m : Part000.model) (k : Key) (n : nat) :
  Part000.formMode m = false -> Part000.cmdMode m = false ->
  Part000.filterMode m = false ->
  (n < 6)%nat -> keyString k = String (ascii_of_nat (49 + n)) "" ->
  Part000.Update m (KeyMsg k) =
  Ok (if Z.of_nat n <? len (Part000.categories m)
      then Part000.set_focusPane 1
             (Part000.set_cmdIdx 0 (Part000.set_catIdx (Z.of_nat n) m))
      else m, CmdNil).
Proof.
  intros Hf Hc Hfl Hn Hk.
  destruct (digit_key_string k n Hn Hk) as [Ht [Hd Hi]].
  unfold Part000.Update, Part000.keyIs. rewrite Hf, Hc, Hfl, Ht, Hd, Hi.
  rewrite Hk.
  assert (Hge : (Z.of_nat n >=? 0) = true) by (apply Z.geb_le; lia).
  rewrite Hge.
  do 6 (destruct n as [|n]; [reflexivity |]). lia.
Qed.

Lemma Part000_digit_keys_witness :
  @Part000.Update plainWidgets Part000.initialModel (KeyMsg (typed "4"))
  = Ok (Part000.set_focusPane 1
          (Part000.set_cmdIdx 0 (Part000.set_catIdx 3 Part000.initialModel)),
        CmdNil).
Proof.
  exact (Part000_digit_keys plainWidgets Part000.initialModel (typed "4") 3
           eq_refl eq_refl eq_refl ltac:(lia) eq_refl).
Defined.

(** X7: the command cursor of [src/main.go].  With no command running and no
    prompt open, "up" and "k" move the cursor one command back and "down"
    and "j" one command on; at the first and at the last command it stays.
    Nothing else of the model changes but the viewport, which sees the key,
    and no command is handed to the runtime. *)
Theorem MainGo_cursor_keys (B : Bubbles) (m : MainGo.model) (k : Key) :
  MainGo_wf m ->
  MainGo.running m = false -> MainGo.inPrompt m = false ->
  (keyString k = "up" \/ keyString k = "k" ->
   MainGo.Update m (KeyMsg k) =
   Ok (MainGo.set_viewport (viewport_Update (KeyMsg k) (MainGo.viewport m))
         (if MainGo.selected m >? 0
          then MainGo.set_selected (MainGo.selected m - 1) m else m), CmdNil))
  /\ (keyString k = "down" \/ keyString k = "j" ->
      MainGo.Update m (KeyMsg k) =
      Ok (MainGo.set_viewport (viewport_Update (KeyMsg k) (MainGo.viewport m))
            (if MainGo.selected m <? len (MainGo.commands m) - 1
             then MainGo.set_selected (MainGo.selected m + 1) m else m),
          CmdNil)).
Proof.
  intros [[Hsmall _] [Hsel _]] Hrun Hin.
  unfold MainGo.Update, MainGo.viewportTail, MainGo.isQuit.
  rewrite Hrun, Hin. split.
  - intros Hk.
    assert (E : (MainGo.selected m >? 0) = true ->
                int_sub (MainGo.selected m) 1 = MainGo.selected m - 1).
    { intros E. zbool.
      apply (int_sub_pred _ (len (MainGo.commands m))); lia. }
    destruct Hk as [-> | ->]; cbn -[int_sub len];
      (destruct (MainGo.selected m >? 0); [rewrite E by reflexivity |]);
      reflexivity.
  - intros Hk.
    assert (E : (MainGo.selected m <? len (MainGo.commands m) - 1) = true ->
                int_add (MainGo.selected m) 1 = MainGo.selected m + 1).
    { intros E. zbool.
      apply (int_add_next _ (len (MainGo.commands m))); lia. }
    destruct Hk as [-> | ->]; cbn -[int_add len];
      (destruct (MainGo.selected m <? len (MainGo.commands m) - 1);
       [rewrite E by reflexivity |]);
      reflexivity.
Qed.

Lemma MainGo_cursor_keys_witness :
  @MainGo.Update plainWidgets MainGo.initialModel (KeyMsg (typed "j"))
  = Ok (MainGo.set_selected 1 MainGo.initialModel, CmdNil).
Proof.
  exact (proj2 (MainGo_cursor_keys plainWidgets MainGo.initialModel (typed "j")
                  MainGo_wf_initial eq_refl eq_refl) (or_intror eq_refl)).
Defined.

(** ** The filter field and the raw command line *)

(** X8: the filter field of [src/unnamed/part_000].  While it is open no key
    starts a command or ends the program: "q" and ":" are typed into the
    field.  Esc and Enter close the field and keep its text, so the list
    stays filtered; Enter also puts the command cursor on the first command.
    Every other key goes to the field and puts the cursor on the first
    command.  The category cursor and the last command are never touched. *)
Theorem Part000_filter_mode_keys (B : Bubbles) (m : Part000.model) (k : Key) :
  Part000.formMode m = false -> Part000.cmdMode m = false ->
  Part000.filterMode m = true ->
  exists (m' : Part000.model) (c : Cmd),
    Part000.Update m (KeyMsg k) = Ok (m', c)
    /\ invokesRunner c = false /\ c <> tea_Quit
    /\ Part000.catIdx m' = Part000.catIdx m
    /\ Part000.lastCmd m' = Part000.lastCmd m
    /\ (keyString k = "esc" ->
        Part000.filterMode m' = false
        /\ Part000.cmdIdx m' = Part000.cmdIdx m
        /\ Part000.visibleCommands m' = Part000.visibleCommands m)
    /\ (keyString k <> "esc" -> keyString k = "enter" ->
        Part000.filterMode m' = false
        /\ Part000.cmdIdx m' = 0
        /\ Part000.visibleCommands m' = Part000.visibleCommands m)
    /\ (keyString k <> "esc" -> keyString k <> "enter" ->
        Part000.filterMode m' = true
        /\ Part000.cmdIdx m' = 0
        /\ Part000.filterInput m' = fst (textinput_Update k (Part000.filterInput m))).
Proof.
  intros Hf Hc Hfl. unfold Part000.Update, Part000.updateFilterMode.
  rewrite Hf, Hc, Hfl.
  destruct (keyString k == "esc") eqn:Eesc.
  - apply String.eqb_eq in Eesc. do 2 eexists. split; [reflexivity |].
    repeat split; try reflexivity; try discriminate; congruence.
  - apply String.eqb_neq in Eesc.
    destruct (keyString k == "enter") eqn:Eent.
    + apply String.eqb_eq in Eent. do 2 eexists. split; [reflexivity |].
      repeat split; try reflexivity; try discriminate; congruence.
    + apply String.eqb_neq in Eent.
      destruct (textinput_Update k (Part000.filterInput m)) as [ti o] eqn:Eti.
      do 2 eexists. split; [reflexivity |].
      split; [apply invokes_widget |].
      split; [destruct o; discriminate |].
      repeat split; try reflexivity; try congruence.
      exact Hfl.
Qed.

Lemma Part000_filter_mode_keys_witness :
  exists (m' : Part000.model) (c : Cmd),
    @Part000.Update plainWidgets
      (Part000.set_filterMode true Part000.initialModel) (KeyMsg (typed "q"))
    = Ok (m', c)
    /\ invokesRunner c = false /\ c <> tea_Quit.
Proof.
  destruct (Part000_filter_mode_keys plainWidgets
              (Part000.set_filterMode true Part000.initialModel) (typed "q")
              eq_refl eq_refl eq_refl) as [m' [c [H1 [H2 [H3 _]]]]].
  exists m', c. repeat split; assumption.
Defined.




(** ** Enter on a command *)

Lemma enter_key_string (k : Key) :
  Type_ k = KeyEnter -> keyString k = "enter" \/ keyString k = "alt+enter".
Proof.
  destruct k as [t r a]. simpl. intros ->. unfold keyString. simpl.
  destruct a; auto.
Qed.

Lemma map_false_seq {A : Type} (ls : list A) (a : nat) :
  map (fun _ => false) ls
  = map (fun i => Nat.eqb (S i) 0) (seq a (List.length ls)).
Proof.
  revert a. induction ls as [|l ls IH]; intros a; simpl; [reflexivity |].
  f_equal. apply IH.
Qed.

(** With no form, raw command line or filter field open, the Enter key of
    [src/unnamed/part_000] is handled by [runSelected]. *)
Lemma Part000_enter_runSelected (B : Bubbles) (m : Part000.model) (k : Key) :
  Part000.formMode m = false -> Part000.cmdMode m = false ->
  Part000.filterMode m = false -> Type_ k = KeyEnter ->
  Part000.Update m (KeyMsg k) = Part000.runSelected m.
Proof.
  intros Hf Hc Hfl Ht. unfold Part000.Update, Part000.keyIs.
  rewrite Hf, Hc, Hfl, Ht.
  destruct (enter_key_string k Ht) as [-> | ->]; reflexivity.
Qed.

(** X11: Enter on a command of [src/unnamed/part_000], with the tool found
    and no form, raw command line or filter field open.  On the entry
    ": command mode" it opens the raw command line, emptied; on a command
    with no required label and no optional label it starts "devtunnel"
    followed by the base arguments at once and records that vector as the
    last command, opening no form; on any other command it opens the form of
    that command, with one empty field for every required label and one for
    the optional label, the focus on the first, and starts nothing. *)
Theorem Part000_enter_on_command (B : Bubbles) (m : Part000.model) (k : Key)
  (cmd : Part000.commandItem) (n : nat) :
  Part000.formMode m = false -> Part000.cmdMode m = false ->
  Part000.filterMode m = false -> Type_ k = KeyEnter ->
  Part000.devtunnelFound m = true ->
  Part000.cmdIdx m = Z.of_nat n ->
  nth_error (Part000.visibleCommands m) n = Some cmd ->
  (Part000.name cmd = ": command mode" ->
   Part000.Update m (KeyMsg k) =
   Ok (Part000.set_cmdInput (Focus (SetValue "" (Part000.cmdInput m)))
         (Part000.set_cmdMode true m), textinput_Blink))
  /\ (Part000.name cmd <> ": command mode" ->
      Part000.required cmd = [] -> Part000.optional cmd = "" ->
      Part000.Update m (KeyMsg k) =
      Ok (Part000.set_lastCmd ("devtunnel" :: Part000.baseArgs cmd) m,
          Part000.runCommandCmd ("devtunnel" :: Part000.baseArgs cmd)))
  /\ (Part000.name cmd <> ": command mode" ->
      Part000.required cmd <> [] \/ Part000.optional cmd <> "" ->
      exists m' : Part000.model,
        Part000.Update m (KeyMsg k) = Ok (m', textinput_Blink)
        /\ Part000_formOpen m' cmd
        /\ Part000.formIndex m' = 0
        /\ Part000.formTitle m' = Part000.name cmd
        /\ Part000.formLabels m'
           = (if negb (Part000.optional cmd == "")
              then (Part000.required cmd ++ [Part000.optional cmd])%list
              else Part000.required cmd)
        /\ map Value (Part000.formInputs m')
           = map (fun _ => "") (Part000.formLabels m')
        /\ map tiFocus (Part000.formInputs m')
           = map (fun i => Nat.eqb i 0)
               (seq 0 (List.length (Part000.formLabels m')))
        /\ Part000.lastCmd m' = Part000.lastCmd m).
Proof.
  intros Hf Hc Hfl Ht Hfound Hidx Hcmd.
  rewrite (Part000_enter_runSelected B m k Hf Hc Hfl Ht).
  assert (Hn : (n < List.length (Part000.visibleCommands m))%nat)
    by (apply nth_error_Some; congruence).
  assert (Hrun : Part000.runSelected m =
                 if Part000.name cmd == ": command mode" then
                   Ok (Part000.set_cmdInput
                         (Focus (SetValue "" (Part000.cmdInput m)))
                         (Part000.set_cmdMode true m), textinput_Blink)
                 else
                   let labels :=
                     if negb (Part000.optional cmd == "")
                     then (Part000.required cmd ++ [Part000.optional cmd])%list
                     else Part000.required cmd in
                   if len labels =? 0 then
                     Ok (Part000.set_lastCmd ("devtunnel" :: Part000.baseArgs cmd) m,
                         Part000.runCommandCmd ("devtunnel" :: Part000.baseArgs cmd))
                   else
                     let m1 := Part000.set_formIndex 0
                                 (Part000.set_formInputs (map Part000.newFormInput labels)
                                    (Part000.set_formLabels labels
                                       (Part000.set_formTitle (Part000.name cmd)
                                          (Part000.set_formCmd (Some cmd)
                                             (Part000.set_formMode true m))))) in
                     first <- idx (Part000.formInputs m1) 0 ;;
                     inputs <- store (Part000.formInputs m1) 0 (Focus first) ;;
                     Ok (Part000.set_formInputs inputs m1, textinput_Blink)).
  { unfold Part000.runSelected. rewrite Hfound. cbn [negb].
    destruct (len (Part000.visibleCommands m) =? 0) eqn:E0;
      [unfold len in E0; zbool; lia |].
    destruct (Part000.cmdIdx m >=? len (Part000.visibleCommands m)) eqn:E1;
      [unfold len in E1; zbool; lia |].
    rewrite Hidx, (idx_nth _ _ _ Hcmd). reflexivity. }
  rewrite Hrun. split; [| split].
  - intros ->. reflexivity.
  - intros Hname Hreq Hopt.
    rewrite (proj2 (String.eqb_neq _ _) Hname), Hreq, Hopt. reflexivity.
  - intros Hname Hlabels.
    rewrite (proj2 (String.eqb_neq _ _) Hname).
    destruct (labels_nonempty _ _ Hlabels) as [l [ls Hl]].
    rewrite Hl. cbn -[String.eqb].
    eexists. split; [reflexivity |].
    unfold Part000_formOpen. cbn -[String.eqb seq].
    repeat split; try assumption.
    + rewrite map_map. reflexivity.
    + rewrite map_map. cbn. f_equal.
      rewrite <- seq_shift, map_map. apply map_false_seq.
Qed.

Lemma Part000_enter_on_command_witness :
  @Part000.Update plainWidgets
    (Part000.set_catIdx 3 (Part000.set_devtunnelFound true Part000.initialModel))
    (KeyMsg (pressed KeyEnter))
  = Ok (Part000.set_lastCmd ["devtunnel"; "user"; "login"]
          (Part000.set_catIdx 3
             (Part000.set_devtunnelFound true Part000.initialModel)),
        Part000.runCommandCmd ["devtunnel"; "user"; "login"]).
Proof.
  refine (proj1 (proj2 (Part000_enter_on_command plainWidgets
                          (Part000.set_catIdx 3
                             (Part000.set_devtunnelFound true Part000.initialModel))
                          (pressed KeyEnter)
                          (Part000.mkCommandItem "user login"
                             "Authenticate user credentials" ["user"; "login"]
                             [] "" "")
                          0 eq_refl eq_refl eq_refl eq_refl eq_refl eq_refl
                          eq_refl)) _ eq_refl eq_refl).
  discriminate.
Defined.

(** With no command running and no prompt open, the Enter key of
    [src/main.go] is handled by [startPrompt] on the command under the
    cursor. *)
Lemma MainGo_enter_startPrompt (B : Bubbles) (m : MainGo.model) (k : Key)
  (cmd : MainGo.commandSpec) (n : nat) :
  MainGo.running m = false -> MainGo.inPrompt m = false ->
  keyString k = "enter" ->
  MainGo.selected m = Z.of_nat n -> nth_error (MainGo.commands m) n = Some cmd ->
  MainGo.Update m (KeyMsg k) = MainGo.startPrompt m cmd.
Proof.
  intros Hrun Hin Hk Hsel Hcmd. unfold MainGo.Update, MainGo.isQuit.
  rewrite Hrun, Hin, Hk, Hsel, (idx_nth _ _ _ Hcmd). reflexivity.
Qed.

(** X12: Enter on a command of [src/main.go], with the tool found, no
    command running and no prompt open.  On "custom" it opens the prompt for
    a raw command, emptied; on a command with no required label and no
    optional label it starts "devtunnel" followed by the base arguments at
    once and records that vector as the last command; on any other command
    it opens the prompt of that command with one empty field for every
    required label and one for the optional label, the focus on the first,
    and starts nothing. *)
Theorem MainGo_enter_on_command (B : Bubbles) (m : MainGo.model) (k : Key)
  (cmd : MainGo.commandSpec) (n : nat) :
  MainGo.running m = false -> MainGo.inPrompt m = false ->
  keyString k = "enter" ->
  MainGo.devtunnelFound m = true ->
  MainGo.selected m = Z.of_nat n -> nth_error (MainGo.commands m) n = Some cmd ->
  (MainGo.label cmd = "custom" ->
   MainGo.Update m (KeyMsg k) =
   Ok (MainGo.set_customCmdInput (Focus (SetValue "" (MainGo.customCmdInput m)))
         (MainGo.set_currentPrompt "Custom command (after `devtunnel`)"
            (MainGo.set_activeCommand (Some cmd) (MainGo.set_inPrompt true m))),
       textinput_Blink))
  /\ (MainGo.label cmd <> "custom" ->
      MainGo.requiredArgs cmd = [] -> MainGo.optionalArg cmd = "" ->
      MainGo.Update m (KeyMsg k) =
      Ok (MainGo.set_lastCommand ("devtunnel" :: MainGo.baseArgs cmd) m,
          MainGo.runCommandCmd ("devtunnel" :: MainGo.baseArgs cmd)))
  /\ (MainGo.label cmd <> "custom" ->
      MainGo.requiredArgs cmd <> [] \/ MainGo.optionalArg cmd <> "" ->
      exists m' : MainGo.model,
        MainGo.Update m (KeyMsg k) = Ok (m', textinput_Blink)
        /\ MainGo_formOpen m' cmd
        /\ MainGo.promptIndex m' = 0
        /\ map Value (MainGo.promptInputs m')
           = map (fun _ => "")
               (if negb (MainGo.optionalArg cmd == "")
                then (MainGo.requiredArgs cmd ++ [MainGo.optionalArg cmd])%list
                else MainGo.requiredArgs cmd)
        /\ MainGo.lastCommand m' = MainGo.lastCommand m).
Proof.
  intros Hrun Hin Hk Hfound Hsel Hcmd.
  rewrite (MainGo_enter_startPrompt B m k cmd n Hrun Hin Hk Hsel Hcmd).
  split; [| split].
  - intros Hl. unfold MainGo.startPrompt. rewrite Hfound, Hl. reflexivity.
  - intros Hl Hreq Hopt. unfold MainGo.startPrompt.
    rewrite Hfound, (proj2 (String.eqb_neq _ _) Hl), Hreq, Hopt. reflexivity.
  - intros Hl Hlabels.
    exact (MainGo_startPrompt_opens_form B m cmd Hfound Hrun Hl Hlabels).
Qed.

Lemma MainGo_enter_on_command_witness :
  @MainGo.Update plainWidgets
    (MainGo.set_devtunnelFound true MainGo.initialModel)
    (KeyMsg (pressed KeyEnter))
  = Ok (MainGo.set_lastCommand ["devtunnel"; "user"; "login"]
          (MainGo.set_devtunnelFound true MainGo.initialModel),
        MainGo.runCommandCmd ["devtunnel"; "user"; "login"]).
Proof.
  refine (proj1 (proj2 (MainGo_enter_on_command plainWidgets
                          (MainGo.set_devtunnelFound true MainGo.initialModel)
                          (pressed KeyEnter)
                          (MainGo.mkCommandSpec "user login"
                             "Authenticate user credentials" ["user"; "login"]
                             [] "")
                          0 eq_refl eq_refl eq_refl eq_refl eq_refl eq_refl))
            _ eq_refl eq_refl).
  discriminate.
Defined.


(** ** Leaving a mode with Esc, and running the last command again *)

(** X13: Esc in [src/unnamed/part_000].  With the form, the raw command line
    or the filter field open, Esc closes it and starts nothing: afterwards
    none of the three is open, and the last command, the last output, the
    status, both cursors, the running flag and the tool-availability flag
    are as before.  The form is emptied; the text of the raw command line and
    of the filter field stays in its field. *)
Theorem Part000_esc_cancels (B : Bubbles) (m : Part000.model) (k : Key) :
  Part000_wf m -> keyString k = "esc" ->
  Part000.formMode m = true \/ Part000.cmdMode m = true
  \/ Part000.filterMode m = true ->
  exists m' : Part000.model,
    Part000.Update m (KeyMsg k) = Ok (m', CmdNil)
    /\ Part000.formMode m' = false /\ Part000.cmdMode m' = false
    /\ Part000.filterMode m' = false
    /\ Part000.formCmd m' = (if Part000.formMode m then None else Part000.formCmd m)
    /\ Part000.formInputs m' = (if Part000.formMode m then [] else Part000.formInputs m)
    /\ Value (Part000.cmdInput m') = Value (Part000.cmdInput m)
    /\ Value (Part000.filterInput m') = Value (Part000.filterInput m)
    /\ Part000.lastCmd m' = Part000.lastCmd m
    /\ Part000.lastOutput m' = Part000.lastOutput m
    /\ Part000.statusText m' = Part000.statusText m
    /\ Part000.statusErr m' = Part000.statusErr m
    /\ Part000.catIdx m' = Part000.catIdx m
    /\ Part000.cmdIdx m' = Part000.cmdIdx m
    /\ Part000.running m' = Part000.running m
    /\ Part000.devtunnelFound m' = Part000.devtunnelFound m
    /\ Part000.viewport m' = Part000.viewport m.
Proof.
  intros [_ [_ [_ [_ [Hform Hcm]]]]] Hk Hopen.
  unfold Part000.Update, Part000.updateForm, Part000.updateCmdMode,
    Part000.updateFilterMode.
  rewrite Hk. change ("esc" == "esc") with true. cbv iota.
  destruct (Part000.formMode m) eqn:Ef.
  - destruct (Hform eq_refl) as [Hc [Hfl _]].
    eexists. split; [reflexivity |]. cbn. repeat split; assumption.
  - destruct (Part000.cmdMode m) eqn:Ec.
    + specialize (Hcm eq_refl).
      eexists. split; [reflexivity |]. cbn. repeat split; assumption.
    + destruct Hopen as [H | [H | H]]; try discriminate. rewrite H.
      eexists. split; [reflexivity |]. cbn. repeat split; assumption.
Qed.

Lemma Part000_esc_cancels_witness :
  exists m' : Part000.model,
    @Part000.Update plainWidgets
      (Part000.set_filterMode true Part000.initialModel)
      (KeyMsg (pressed KeyEsc)) = Ok (m', CmdNil)
    /\ Part000.filterMode m' = false.
Proof.
  destruct (Part000_esc_cancels plainWidgets
              (Part000.set_filterMode true Part000.initialModel)
              (pressed KeyEsc)) as [m' [H1 [_ [_ [H2 _]]]]].
  - unfold Part000_wf. split; [exact Part000_smallCatalog_catalog |].
    cbn. repeat split; try discriminate; try lia.
  - reflexivity.
  - right. right. reflexivity.
  - exists m'. split; assumption.
Defined.

Lemma rerun_key_string (k : Key) :
  keyString k = "r" -> Type_ k = KeyRunes.
Proof.
  destruct k as [t r a]. unfold keyString. simpl.
  destruct t, a; simpl; intros H; try discriminate; reflexivity.
Qed.

(** X14: the rerun key.  In [src/unnamed/part_000], with no form, raw
    command line or filter field open, "r" hands the runtime the command of
    the last command vector and leaves the model as it is, so a second "r"
    does the same again: two executions of the same vector, and no form.  In
    [src/main.go] the same holds when no command is running, no prompt is
    open and there is a last command.  With no last command, "r" starts
    nothing. *)
Theorem rerun_twice (B : Bubbles) (k : Key) :
  keyString k = "r" ->
  (forall p : Part000.model,
      Part000.formMode p = false -> Part000.cmdMode p = false ->
      Part000.filterMode p = false ->
      feed Part000.model Part000.Update p [KeyMsg k; KeyMsg k] =
      Ok (p, [Part000.runCommandCmd (Part000.lastCmd p);
              Part000.runCommandCmd (Part000.lastCmd p)]))
  /\ (forall m : MainGo.model,
         MainGo.running m = false -> MainGo.inPrompt m = false ->
         MainGo.lastCommand m <> [] ->
         feed MainGo.model MainGo.Update m [KeyMsg k; KeyMsg k] =
         Ok (m, [MainGo.runCommandCmd (MainGo.lastCommand m);
                 MainGo.runCommandCmd (MainGo.lastCommand m)]))
  /\ Part000.runCommandCmd [] = CmdNil.
Proof.
  intros Hk. pose proof (rerun_key_string k Hk) as Ht.
  split; [| split; [| reflexivity]].
  - intros p Hf Hc Hfl.
    assert (Hup : Part000.Update p (KeyMsg k) =
                  Ok (p, Part000.runCommandCmd (Part000.lastCmd p))).
    { unfold Part000.Update, Part000.keyIs. rewrite Hf, Hc, Hfl, Ht, Hk.
      cbn -[len Part000.runCommandCmd].
      destruct (Part000.lastCmd p) as [|x xs]; reflexivity. }
    unfold feed. rewrite Hup. cbn [bind fst snd]. rewrite Hup. reflexivity.
  - intros m Hrun Hin Hlast.
    assert (Hup : MainGo.Update m (KeyMsg k) =
                  Ok (m, MainGo.runCommandCmd (MainGo.lastCommand m))).
    { unfold MainGo.Update, MainGo.isQuit. rewrite Hrun, Hin, Hk.
      cbn -[len MainGo.runCommandCmd].
      destruct (MainGo.lastCommand m) as [|x xs]; [contradiction | reflexivity]. }
    unfold feed. rewrite Hup. cbn [bind fst snd]. rewrite Hup. reflexivity.
Qed.

Lemma rerun_twice_witness :
  feed Part000.model (@Part000.Update plainWidgets)
    (Part000.set_lastCmd ["devtunnel"; "list"] Part000.initialModel)
    [KeyMsg (typed "r"); KeyMsg (typed "r")]
  = Ok (Part000.set_lastCmd ["devtunnel"; "list"] Part000.initialModel,
        [Part000.runCommandCmd ["devtunnel"; "list"];
         Part000.runCommandCmd ["devtunnel"; "list"]]).
Proof.
  exact (proj1 (rerun_twice plainWidgets (typed "r") eq_refl)
           (Part000.set_lastCmd ["devtunnel"; "list"] Part000.initialModel)
           eq_refl eq_refl eq_refl).
Defined.

(** ** From the dispatch of a command to its outcome *)

(** X15: one execution in [src/unnamed/part_000], from the two messages of
    [runCommandCmd] to the model.  For an argument vector that starts with
    "devtunnel", in any model: the "started" message sets the running flag
    and the status "running ..." and asks for the spinner; the "finished"
    message clears the running flag, stores the output as the last output
    (with the timeout notice when the child outlived the ten minutes), shows
    it in the viewport under the command line, scrolled to the top, and sets
    the status to "command failed" with the error flag when the run timed
    out or returned an error, and "command completed" otherwise.  The
    tool-availability flag, the last command and the cursors are not
    touched: the message is never taken for the probe's. *)
Theorem Part000_run_lifecycle (B : Bubbles) (w : World) (m : Part000.model)
  (rest : list string) :
  let parts := "devtunnel" :: rest in
  let child := spawn w parts in
  let cmdText := Join parts " " in
  let timedOut := Part000.deadline <? elapsed child in
  let output := if timedOut
                then capturedBy child Part000.deadline ++ Part000.timeoutNotice
                else capturedBy child (elapsed child) in
  let bad := timedOut || failed (exitErr child) in
  exists m1 m2 : Part000.model,
    Part000.Update m (runStartedMsg cmdText) = Ok (m1, spinner_Tick)
    /\ Part000.running m1 = true
    /\ Part000.statusText m1 = "running " ++ cmdText
    /\ feed Part000.model Part000.Update m
         (List.concat (queues w (Part000.runCommandCmd parts)))
       = Ok (m2, [spinner_Tick; CmdNil])
    /\ Part000.running m2 = false
    /\ Part000.lastOutput m2 = output
    /\ vpContent (Part000.viewport m2) = "$ " ++ cmdText ++ nl ++ nl ++ output
    /\ YOffset (Part000.viewport m2) = 0
    /\ Part000.statusErr m2 = bad
    /\ Part000.statusText m2
       = (if bad then "command failed" else "command completed")
    /\ Part000.devtunnelFound m2 = Part000.devtunnelFound m
    /\ Part000.lastCmd m2 = Part000.lastCmd m
    /\ Part000.catIdx m2 = Part000.catIdx m
    /\ Part000.cmdIdx m2 = Part000.cmdIdx m.
Proof.
  cbv zeta. rewrite Part000_runCommandCmd_queues, fire_exec.
  cbn [List.concat app feed]. unfold Part000.Update at 1 2. cbn [bind fst snd].
  destruct (Part000.deadline <? elapsed (spawn w ("devtunnel" :: rest))).
  - cbn [Part000.Update bind fst snd]. rewrite Join_from_tool.
    do 2 eexists. repeat split.
  - cbn [Part000.Update bind fst snd]. rewrite Join_from_tool.
    destruct (exitErr (spawn w ("devtunnel" :: rest)));
      do 2 eexists; repeat split.
Qed.

(** X16: one execution in [src/main.go], from the two messages of
    [runCommandCmd] to the model: as in [src/unnamed/part_000], with the
    five minutes of this program; the "started" message also records the
    command text. *)
Theorem MainGo_run_lifecycle (B : Bubbles) (w : World) (m : MainGo.model)
  (rest : list string) :
  let parts := "devtunnel" :: rest in
  let child := spawn w parts in
  let cmdText := Join parts " " in
  let timedOut := MainGo.deadline <? elapsed child in
  let output := if timedOut
                then capturedBy child MainGo.deadline ++ MainGo.timeoutNotice
                else capturedBy child (elapsed child) in
  let bad := timedOut || failed (exitErr child) in
  exists m1 m2 : MainGo.model,
    MainGo.Update m (runStartedMsg cmdText) = Ok (m1, spinner_Tick)
    /\ MainGo.running m1 = true
    /\ MainGo.status m1 = "running: " ++ cmdText
    /\ feed MainGo.model MainGo.Update m
         (List.concat (queues w (MainGo.runCommandCmd parts)))
       = Ok (m2, [spinner_Tick; CmdNil])
    /\ MainGo.running m2 = false
    /\ MainGo.lastCommandText m2 = cmdText
    /\ MainGo.lastOutput m2 = output
    /\ vpContent (MainGo.viewport m2) = "$ " ++ cmdText ++ nl ++ nl ++ output
    /\ YOffset (MainGo.viewport m2) = 0
    /\ MainGo.status m2
       = (if bad then "command failed" else "command completed")
    /\ MainGo.devtunnelFound m2 = MainGo.devtunnelFound m
    /\ MainGo.lastCommand m2 = MainGo.lastCommand m
    /\ MainGo.selected m2 = MainGo.selected m.
Proof.
  cbv zeta. rewrite MainGo_runCommandCmd_queues, fire_exec.
  cbn [List.concat app feed]. unfold MainGo.Update at 1 2. cbn [bind fst snd].
  destruct (MainGo.deadline <? elapsed (spawn w ("devtunnel" :: rest))).
  - cbn [MainGo.Update bind fst snd]. rewrite Join_from_tool.
    do 2 eexists. repeat split.
  - cbn [MainGo.Update bind fst snd]. rewrite Join_from_tool.
    destruct (exitErr (spawn w ("devtunnel" :: rest)));
      do 2 eexists; repeat split.
Qed.

(** ** What only the runner's messages change *)

Ltac same_field :=
  let H := fresh in intros H; exfalso; apply H; reflexivity.

Ltac frame_case :=
  repeat match goal with
  | |- _ /\ _ => split
  | |- _ <> _ -> _ => same_field
  | |- _ = _ => reflexivity
  end.

(** X17: what only the runner's messages change in [src/unnamed/part_000].
    Whatever the message and the model: the tool-availability flag changes
    only on a "finished" message with the probe's command text, and becomes
    true exactly when that message carries no error; the last output changes
    only on a "finished" message with another command text, and becomes its
    output; the running flag changes only on a "started" or on such a
    "finished" message.  So the probe never touches the output, and no key
    changes any of the three. *)
Theorem Part000_update_frame (B : Bubbles) (m m' : Part000.model) (msg : Msg)
  (c : Cmd) :
  Part000.Update m msg = Ok (m', c) ->
  (Part000.devtunnelFound m' <> Part000.devtunnelFound m ->
   exists out err,
     msg = runFinishedMsg "which devtunnel" out err
     /\ Part000.devtunnelFound m' = negb (failed err))
  /\ (Part000.lastOutput m' <> Part000.lastOutput m ->
      exists text out err,
        msg = runFinishedMsg text out err /\ text <> "which devtunnel"
        /\ Part000.lastOutput m' = out)
  /\ (Part000.running m' <> Part000.running m ->
      (exists text, msg = runStartedMsg text)
      \/ (exists text out err,
             msg = runFinishedMsg text out err /\ text <> "which devtunnel")).
Proof.
  intros Hup. destruct m.
  unfold Part000.Update, Part000.updateForm, Part000.updateCmdMode,
    Part000.updateFilterMode, Part000.runSelected, Part000.clearForm,
    Part000.moveUp, Part000.moveDown, Part000.keyIs in Hup.
  rewrite ?visibleCommands_for in Hup.
  pcbn Hup. destruct msg; pcbn Hup.
  all: psplit Hup.
  all: try discriminate.
  all: injection Hup as <- <-.
  all: cbn.
  all: frame_case.
  all: try match goal with
       | H : (_ == _) = true |- _ => apply String.eqb_eq in H; subst
       | H : (_ == _) = false |- _ => apply String.eqb_neq in H
       end.
  all: intros _; eauto 8.
Qed.

Lemma Part000_update_frame_witness :
  exists out err,
    runFinishedMsg "which devtunnel" "devtunnel detected" None
    = runFinishedMsg "which devtunnel" out err
    /\ Part000.devtunnelFound
         (Part000.set_statusText "ready"
            (Part000.set_statusErr false
               (Part000.set_devtunnelFound true Part000.initialModel)))
       = negb (failed err).
Proof.
  apply (Part000_update_frame plainWidgets Part000.initialModel
           (Part000.set_statusText "ready"
              (Part000.set_statusErr false
                 (Part000.set_devtunnelFound true Part000.initialModel)))
           (runFinishedMsg "which devtunnel" "devtunnel detected" None) CmdNil).
  - reflexivity.
  - discriminate.
Defined.

(** X18: what only the runner's messages change in [src/main.go]: the same
    three facts, for the fields of this program. *)
Theorem MainGo_update_frame (B : Bubbles) (m m' : MainGo.model) (msg : Msg)
  (c : Cmd) :
  MainGo.Update m msg = Ok (m', c) ->
  (MainGo.devtunnelFound m' <> MainGo.devtunnelFound m ->
   exists out err,
     msg = runFinishedMsg "which devtunnel" out err
     /\ MainGo.devtunnelFound m' = negb (failed err))
  /\ (MainGo.lastOutput m' <> MainGo.lastOutput m ->
      exists text out err,
        msg = runFinishedMsg text out err /\ text <> "which devtunnel"
        /\ MainGo.lastOutput m' = out)
  /\ (MainGo.running m' <> MainGo.running m ->
      (exists text, msg = runStartedMsg text)
      \/ (exists text out err,
             msg = runFinishedMsg text out err /\ text <> "which devtunnel")).
Proof.
  intros Hup. destruct m.
  unfold MainGo.Update, MainGo.handlePromptInput, MainGo.startPrompt,
    MainGo.viewportTail, MainGo.leavePrompt, MainGo.isQuit in Hup.
  mcbn Hup. destruct msg; mcbn Hup.
  all: msplit Hup.
  all: try discriminate.
  all: injection Hup as <- <-.
  all: cbn.
  all: frame_case.
  all: try match goal with
       | H : (_ == _) = true |- _ => apply String.eqb_eq in H; subst
       | H : (_ == _) = false |- _ => apply String.eqb_neq in H
       end.
  all: intros _; eauto 8.
Qed.

Lemma MainGo_update_frame_witness :
  exists out err,
    runFinishedMsg "which devtunnel" "devtunnel found and ready" None
    = runFinishedMsg "which devtunnel" out err
    /\ MainGo.devtunnelFound
         (MainGo.set_status "ready"
            (MainGo.set_devtunnelFound true MainGo.initialModel))
       = negb (failed err).
Proof.
  apply (MainGo_update_frame plainWidgets MainGo.initialModel
           (MainGo.set_status "ready"
              (MainGo.set_devtunnelFound true MainGo.initialModel))
           (runFinishedMsg "which devtunnel" "devtunnel found and ready" None)
           CmdNil).
  - reflexivity.
  - discriminate.
Defined.

(** ** Submitting a form, with or without an optional field *)

Lemma formVector_tokens (base : list string) (reqs : list textinput)
  (opt : textinput) :
  formVector base reqs opt
  = ("devtunnel" :: base ++ map trimmed reqs ++ Fields (Value opt))%list.
Proof.
  unfold formVector, trimmed. rewrite Fields_TrimSpace.
  destruct (TrimSpace (Value opt) == "") eqn:E.
  - apply String.eqb_eq, Fields_nil_TrimSpace in E. rewrite E.
    rewrite <- app_assoc. reflexivity.
  - rewrite <- app_assoc. reflexivity.
Qed.

Lemma optional_fields (opt : string) (opts : list textinput) :
  List.length opts = (if opt == "" then 0 else 1)%nat ->
  (opt = "" /\ opts = []) \/ (opt <> "" /\ exists o, opts = [o]).
Proof.
  destruct (opt == "") eqn:E; intros H.
  - left. apply String.eqb_eq in E. destruct opts; [auto | discriminate].
  - right. apply String.eqb_neq in E. split; [exact E |].
    destruct opts as [|o [|o' opts]]; try discriminate. eauto.
Qed.



Section MainGoSubmitAny.
Import MainGo.
Context {B : Bubbles}.

(** Enter on the last field of a form without an optional field. *)
Lemma MainGo_submit_required (m : model) (c : commandSpec) (k : Key)
  (reqs : list textinput) :
  keyString k = "enter" ->
  MainGo_formOpen m c -> MainGo_onLastField m ->
  promptInputs m = reqs ->
  List.length reqs = List.length (requiredArgs c) ->
  optionalArg c = "" ->
  Forall (fun input => trimmed input <> "") reqs ->
  Update m (KeyMsg k)
  = Ok (leavePrompt
          (set_lastCommand ("devtunnel" :: baseArgs c ++ map trimmed reqs)%list
             (set_promptValues (map trimmed reqs) m)),
        runCommandCmd ("devtunnel" :: baseArgs c ++ map trimmed reqs)%list).
Proof.
  intros Hk [Hrun [Hin [Hcmd [Hlabel [Hlen Hrec]]]]] [n [Hidx Hn]] Hinputs
    Hreqs Hopt Hall.
  destruct (nth_error (promptInputs m) n) as [cur|] eqn:Hcur;
    [| apply nth_error_None in Hcur; lia].
  set (values := replace_nth (promptValues m) n (TrimSpace (Value cur))).
  assert (Hvalues : values = map trimmed reqs).
  { rewrite <- Hinputs. apply pointwise_map.
    - unfold values. rewrite length_replace_nth. exact Hlen.
    - intros i input Hi. unfold values. rewrite nth_error_replace_nth.
      destruct (Nat.eqb i n) eqn:E.
      + apply Nat.eqb_eq in E; subst i.
        rewrite Hcur in Hi. injection Hi as <-.
        destruct (nth_error (promptValues m) n) eqn:Hv;
          [reflexivity | apply nth_error_None in Hv; lia].
      + apply Nat.eqb_neq in E. apply Hrec; [| exact Hi].
        assert (i < List.length (promptInputs m))%nat
          by (apply nth_error_Some; congruence).
        lia. }
  unfold Update, handlePromptInput. rewrite Hrun, Hin, Hcmd.
  rewrite (proj2 (String.eqb_neq _ _) Hlabel), Hk. simpl.
  rewrite Hidx, (idx_nth _ _ _ Hcur). cbn [bind].
  rewrite store_ok by lia. cbn [bind]. fold values.
  cbn [promptIndex promptInputs promptValues set_promptValues].
  destruct (Z.of_nat n <? len (promptInputs m) - 1) eqn:E;
    [unfold len in E; zbool; lia |].
  pose proof (MainGo_requiredLoop_collected (requiredArgs c) (map trimmed reqs)
                [] [] (baseArgs c)
                ltac:(rewrite length_map; exact Hreqs)
                (trimmed_nonempty_twice reqs Hall)) as Hloop.
  simpl in Hloop. rewrite app_nil_r, map_trim_trimmed in Hloop.
  rewrite Hvalues, Hloop. cbn [bind]. rewrite Hopt. reflexivity.
Qed.

End MainGoSubmitAny.


Lemma MainGo_showFilled_open : MainGo_formOpen MainGo_showFilled MainGo_showSpec.
Proof.
  unfold MainGo_formOpen. split; [vm_compute; reflexivity |].
  split; [vm_compute; reflexivity |]. split; [vm_compute; reflexivity |].
  split; [discriminate |]. split; [vm_compute; reflexivity |].
  intros i input Hi Hinput.
  assert (Hidx : MainGo.promptIndex MainGo_showFilled = 1)
    by (vm_compute; reflexivity).
  rewrite Hidx in Hi.
  destruct i as [|i]; [| lia].
  vm_compute in Hinput. injection Hinput as <-. vm_compute. reflexivity.
Defined.


(** ** Drawing the model *)

Lemma bind_total {A C : Type} (r : result A) (k : A -> result C) :
  r <> Panic -> (forall a, k a <> Panic) -> bind r k <> Panic.
Proof. destruct r; simpl; [auto | contradiction]. Qed.

(** On a well-formed model [renderCommands] leaves its copy of the cursor
    where it is. *)
Lemma Part000_renderCommands_cursor (m : Part000.model) :
  Part000_wf m -> Part000View.renderCommands_cmdIdx m = Part000.cmdIdx m.
Proof.
  intros [_ [_ [Hcmd0 [Hcmd _]]]]. unfold Part000View.renderCommands_cmdIdx, max.
  pose proof (len_nonneg (Part000.visibleCommands m)).
  destruct (Part000.cmdIdx m >=? len (Part000.visibleCommands m)) eqn:E1;
    [| reflexivity].
  destruct (0 >? len (Part000.visibleCommands m) - 1) eqn:E2; zbool; lia.
Qed.

Lemma Part000_renderCommands_total (R : Rendering) (m : Part000.model)
  (width height : Z) :
  Part000_wf m -> Part000View.renderCommands m width height <> Panic.
Proof.
  intros Hwf. unfold Part000View.renderCommands.
  rewrite (Part000_renderCommands_cursor m Hwf).
  destruct Hwf as [_ [_ [Hcmd0 [Hcmd _]]]].
  apply bind_total; [| discriminate].
  destruct (len (Part000.visibleCommands m) =? 0) eqn:E0; [discriminate |].
  apply bind_total; [| discriminate].
  intros Ei. apply idx_Panic_inv in Ei.
  pose proof (len_nonneg (Part000.visibleCommands m)). zbool. lia.
Qed.

Lemma Part000_renderBottomBar_total (R : Rendering) (m : Part000.model) :
  Part000_wf m -> Part000View.renderBottomBar m <> Panic.
Proof.
  intros [_ [_ [_ [_ [Hform _]]]]].
  unfold Part000View.renderBottomBar, Part000View.renderFormOverlay.
  destruct (Part000.formMode m) eqn:Ef.
  - destruct (Hform eq_refl) as [_ [_ [Hidx [_ [Hlab _]]]]].
    destruct (Part000.formCmd m); [| discriminate].
    apply bind_total; [intros E; apply idx_Panic_inv in E; lia |].
    intros label. apply bind_total; [| discriminate].
    intros E; apply idx_Panic_inv in E; lia.
  - destruct (Part000.cmdMode m); [discriminate |].
    destruct (Part000.filterMode m); discriminate.
Qed.

Lemma Part000_view_total (R : Rendering) (m : Part000.model) :
  Part000_wf m -> Part000View.View m <> Panic.
Proof.
  intros Hwf. unfold Part000View.View, Part000View.renderMain.
  destruct (negb (Part000.ready m)); [discriminate |].
  apply bind_total.
  - apply bind_total; [| discriminate].
    apply Part000_renderCommands_total. exact Hwf.
  - intros main. apply bind_total; [| discriminate].
    apply Part000_renderBottomBar_total. exact Hwf.
Qed.

Lemma MainGo_view_total (R : Rendering) (m : MainGo.model) :
  MainGo_wf m -> MainGoView.View m <> Panic.
Proof.
  intros [_ [_ [Hform Hactive]]]. unfold MainGoView.View, MainGoView.customActive.
  destruct (negb (MainGo.ready m)); [discriminate |].
  apply bind_total; [| discriminate].
  destruct (MainGo.inPrompt m) eqn:Ein; [| discriminate].
  apply bind_total; [| discriminate].
  destruct (MainGo.activeCommand m) as [active|] eqn:Ea;
    [| exfalso; exact (Hactive eq_refl eq_refl)].
  destruct (MainGo.label active == "custom") eqn:El; [discriminate |].
  destruct (Hform eq_refl active eq_refl El) as [Hidx _].
  destruct (len (MainGo.promptInputs m) >? 0); [| discriminate].
  apply bind_total; [| discriminate].
  intros E; apply idx_Panic_inv in E; lia.
Qed.

(** X21: drawing [src/unnamed/part_000] never panics.  In every state the
    loop can reach, [View] returns a text, whatever Lip Gloss and the
    widgets draw: the command [renderCommands] describes under "selected:"
    and the label and the field [renderFormOverlay] shows exist.  The cursor
    that [renderCommands] clamps in its copy of the model is already in
    range, so the highlighted command is the one at the model's cursor. *)
Theorem Part000_view_never_panics (B : Bubbles) (R : Rendering) (w : World)
  (s : loopState Part000.model) :
  Part000_reachable w s ->
  Part000View.View (cur s) <> Panic
  /\ Part000View.renderCommands_cmdIdx (cur s) = Part000.cmdIdx (cur s).
Proof.
  intros Hs. pose proof (Part000_reachable_wf B w s Hs) as Hwf. split.
  - apply Part000_view_total. exact Hwf.
  - apply Part000_renderCommands_cursor. exact Hwf.
Qed.

(** X22: drawing [src/main.go] never panics.  In every state the loop can
    reach, [View] returns a text: while a prompt other than the one of
    "custom" is open, the field under [promptIndex] exists. *)
Theorem MainGo_view_never_panics (B : Bubbles) (R : Rendering) (w : World)
  (s : loopState MainGo.model) :
  MainGo_reachable w s -> MainGoView.View (cur s) <> Panic.
Proof.
  intros Hs. apply MainGo_view_total. exact (MainGo_reachable_wf B w s Hs).
Qed.

(** X23: the mode in the header of [src/unnamed/part_000] is the mode of the
    keys.  [renderHeader] looks at the filter field first and [Update] at
    the form first; in every reachable state at most one of them is open, so
    the header says FORM, COMMAND or FILTER exactly when the next key goes to
    [updateForm], [updateCmdMode] or [updateFilterMode], and the bottom bar
    shows the same field. *)
Theorem Part000_header_mode_is_key_mode (B : Bubbles) (w : World)
  (s : loopState Part000.model) (k : Key) :
  Part000_reachable w s ->
  let m := cur s in
  (Part000View.headerMode m = "FORM" <-> Part000.formMode m = true)
  /\ (Part000View.headerMode m = "COMMAND" <-> Part000.cmdMode m = true)
  /\ (Part000View.headerMode m = "FILTER" <-> Part000.filterMode m = true)
  /\ (Part000View.headerMode m = "FORM" ->
      Part000.Update m (KeyMsg k) = Part000.updateForm m k)
  /\ (Part000View.headerMode m = "COMMAND" ->
      Part000.Update m (KeyMsg k) = Part000.updateCmdMode m k)
  /\ (Part000View.headerMode m = "FILTER" ->
      Part000.Update m (KeyMsg k) = Part000.updateFilterMode m k).
Proof.
  intros Hs m. destruct (Part000_reachable_wf B w s Hs) as [_ [_ [_ [_ [Hform Hcm]]]]].
  fold m in Hform, Hcm. unfold Part000View.headerMode, Part000.Update.
  destruct (Part000.formMode m) eqn:Ef.
  - destruct (Hform eq_refl) as [Hc [Hfl _]]. rewrite Hc, Hfl.
    repeat split; intros; try discriminate; reflexivity.
  - destruct (Part000.cmdMode m) eqn:Ec.
    + rewrite (Hcm eq_refl).
      repeat split; intros; try discriminate; reflexivity.
    + destruct (Part000.filterMode m) eqn:Efl.
      * repeat split; intros; try discriminate; reflexivity.
      * destruct (Part000.running m);
          repeat split; intros; try discriminate; reflexivity.
Qed.

Lemma Part000_view_never_panics_witness :
  @Part000_reachable plainWidgets worldWith (Part000_after worldWith filterNothing)
  /\ @Part000View.View plainRendering (cur (Part000_after worldWith filterNothing))
     <> Panic.
Proof.
  assert (H : @Part000_reachable plainWidgets worldWith
                (Part000_after worldWith filterNothing))
    by (exists filterNothing; vm_compute; reflexivity).
  split; [exact H |].
  exact (proj1 (Part000_view_never_panics plainWidgets plainRendering worldWith
                  (Part000_after worldWith filterNothing) H)).
Defined.

Lemma MainGo_view_never_panics_witness :
  @MainGo_reachable plainWidgets worldWith (MainGo_after worldWith promptShow)
  /\ @MainGoView.View plainRendering (cur (MainGo_after worldWith promptShow))
     <> Panic.
Proof.
  assert (H : @MainGo_reachable plainWidgets worldWith
                (MainGo_after worldWith promptShow))
    by (exists promptShow; vm_compute; reflexivity).
  split; [exact H |].
  exact (MainGo_view_never_panics plainWidgets plainRendering worldWith
           (MainGo_after worldWith promptShow) H).
Defined.

Lemma Part000_header_mode_is_key_mode_witness :
  Part000View.headerMode (cur (Part000_after worldWith filterNothing)) = "FILTER"
  <-> Part000.filterMode (cur (Part000_after worldWith filterNothing)) = true.
Proof.
  refine (proj1 (proj2 (proj2
            (Part000_header_mode_is_key_mode plainWidgets worldWith
               (Part000_after worldWith filterNothing) (pressed KeyEsc) _)))).
  exists filterNothing. vm_compute. reflexivity.
Defined.

(** ** The line of the filter *)

Lemma isSpace_lowerByte (c : ascii) : isSpace (lowerByte c) = isSpace c.
Proof. destruct c as [[] [] [] [] [] [] [] []]; reflexivity. Qed.

Lemma TrimLeft_ToLower (s : string) : TrimLeft (ToLower s) = ToLower (TrimLeft s).
Proof.
  induction s as [|c s IH]; [reflexivity |]. simpl.
  rewrite isSpace_lowerByte. destruct (isSpace c); [exact IH | reflexivity].
Qed.

Lemma TrimRight_ToLower (s : string) : TrimRight (ToLower s) = ToLower (TrimRight s).
Proof.
  induction s as [|c s IH]; [reflexivity |]. simpl. rewrite IH.
  destruct (TrimRight s); simpl; [| reflexivity].
  rewrite isSpace_lowerByte. destruct (isSpace c); reflexivity.
Qed.

(** Trimming and lower-casing can be done in either order. *)
Lemma TrimSpace_ToLower (s : string) : TrimSpace (ToLower s) = ToLower (TrimSpace s).
Proof. unfold TrimSpace. rewrite TrimLeft_ToLower. apply TrimRight_ToLower. Qed.

Lemma ToLower_empty (s : string) : (ToLower s == "") = (s == "").
Proof. destruct s; reflexivity. Qed.

Lemma catalog_categories_nonempty (n : nat) (cat : Part000.commandCategory) :
  nth_error Part000.catalog n = Some cat -> Part000.commands cat <> [].
Proof.
  do 6 (destruct n as [|n]; [intros H; injection H as <-; discriminate |]).
  destruct n; discriminate.
Qed.



(** ** Without the tool: what [src/unnamed/part_000] still starts *)

Lemma okQueues_Part000_runCommandCmd (w : World) (parts : list string) :
  fromTool parts -> okQueues w (queues w (Part000.runCommandCmd parts)).
Proof.
  intros [-> | [rest ->]]; [constructor |].
  rewrite Part000_runCommandCmd_queues.
  destruct (fire_exec_finished w Part000.deadline Part000.timeoutNotice
              ("devtunnel" :: rest) (Join ("devtunnel" :: rest) " "))
    as [out [err ->]].
  repeat constructor. unfold okMsg. rewrite Join_from_tool. reflexivity.
Qed.

(** An invariant of [Update] under truthful messages holds after every run
    of the loop that starts with truthful messages pending. *)
Lemma replay_truthful {M : Type} (Update : M -> Msg -> result (M * Cmd))
  (w : World) (P : M -> Prop) :
  (forall m msg m' c, P m -> okMsg w msg = true -> Update m msg = Ok (m', c) ->
                      P m' /\ okQueues w (queues w c)) ->
  forall (es : list Event) (s s' : loopState M),
    P (cur s) -> okQueues w (pending s) ->
    replay M Update w s es = Some s' ->
    P (cur s') /\ okQueues w (pending s').
Proof.
  intros Hstep.
  assert (Hturn : forall (s s' : loopState M) msg rest,
             P (cur s) -> okMsg w msg = true -> okQueues w rest ->
             turn M Update w s msg rest = Some s' ->
             P (cur s') /\ okQueues w (pending s')).
  { intros s s' msg rest Hinv Hmsg Hrest Hturn. unfold turn in Hturn.
    destruct (Update (cur s) msg) as [[m' c]|] eqn:Hup;
      [| destruct msg; discriminate].
    destruct (Hstep (cur s) msg m' c Hinv Hmsg Hup) as [Hinv' Hq].
    assert (Hs' : s' = mkLoop m' (rest ++ queues w c)%list)
      by (destruct msg; congruence).
    subst s'. split; [exact Hinv' | apply Forall_app; split; assumption]. }
  induction es as [|e es IH]; intros s s' Hinv Hq Hrun; simpl in Hrun.
  - injection Hrun as <-. split; assumption.
  - destruct (loopStep M Update w s e) as [s1|] eqn:He; [| discriminate].
    assert (H1 : P (cur s1) /\ okQueues w (pending s1)).
    { destruct e as [msg | n]; simpl in He.
      - destruct (fromTerminal msg) eqn:Ht; [| discriminate].
        exact (Hturn s s1 msg (pending s) Hinv (okMsg_fromTerminal w msg Ht) Hq He).
      - destruct (pop n (pending s)) as [[msg rest]|] eqn:Hpop; [| discriminate].
        destruct (okQueues_pop w n _ _ _ Hq Hpop) as [Hmsg Hrest].
        exact (Hturn s s1 msg rest Hinv Hmsg Hrest He). }
    destruct H1 as [Hinv1 Hq1]. exact (IH s1 s' Hinv1 Hq1 Hrun).
Qed.

Lemma Part000_requiredLoop_prefix (n : nat) :
  forall (i : Z) (c : Part000.commandItem) (inputs : list textinput)
         (parts args : list string),
    Part000.requiredLoop n i c inputs parts = Ok (Collected args) ->
    exists extra : list string, args = (parts ++ extra)%list.
Proof.
  induction n as [|n IH]; intros i c inputs parts args H; simpl in H.
  - injection H as <-. exists []. rewrite app_nil_r. reflexivity.
  - destruct (idx inputs i) as [input|]; [| discriminate]. simpl in H.
    destruct (TrimSpace (Value input) == "").
    + destruct (idx (Part000.required c) i); discriminate.
    + destruct (IH _ _ _ _ _ H) as [extra ->].
      eexists. rewrite <- app_assoc. reflexivity.
Qed.

Lemma Part000_update_tool (B : Bubbles) (w : World) (m m' : Part000.model)
  (msg : Msg) (c : Cmd) :
  Part000_toolInv w m -> okMsg w msg = true ->
  Part000.Update m msg = Ok (m', c) ->
  Part000_toolInv w m' /\ okQueues w (queues w c).
Proof.
  intros Hg Hok Hup.
  destruct m. unfold Part000_toolInv in Hg. cbn in Hg. destruct Hg as [Hg1 Hg2].
  unfold Part000.Update, Part000.updateForm, Part000.updateCmdMode,
    Part000.updateFilterMode, Part000.runSelected, Part000.clearForm,
    Part000.moveUp, Part000.moveDown, Part000.keyIs in Hup.
  rewrite ?visibleCommands_for in Hup.
  pcbn Hup. destruct msg; pcbn Hup; cbn -[String.eqb] in Hok.
  all: psplit Hup.
  all: try discriminate.
  all: injection Hup as <- <-.
  all: unfold Part000_toolInv, fromTool in *.
  all: cbn -[Part000.runCommandCmd Fields TrimSpace] in *.
  all: repeat match goal with
       | H : negb _ = true |- _ => apply negb_true_iff in H
       | H : negb _ = false |- _ => apply negb_false_iff in H
       | H : Part000.requiredLoop _ _ _ _ _ = Ok (Collected _) |- _ =>
           apply Part000_requiredLoop_prefix in H; destruct H as [? ->]
       end.
  all: repeat match goal with
       | |- _ /\ _ => split
       | |- _ -> _ => intro
       end.
  all: try discriminate; try congruence; try tauto.
  all: try (left; reflexivity); try (right; eexists; reflexivity).
  all: try (repeat constructor; fail).
  all: try (apply okQueues_widget).
  all: try (apply okQueues_Part000_runCommandCmd; unfold fromTool).
  all: try (first [assumption | tauto | right; eexists; reflexivity]).
  all: try match goal with
       | H : lookPath ?w _ = false, Hg : lookPath ?w _ = false -> _ |- _ =>
           destruct (Hg H); congruence
       end.
Qed.

Lemma Part000_dispatch_without_tool (B : Bubbles) (m m' : Part000.model)
  (msg : Msg) (c : Cmd) :
  Part000.devtunnelFound m = false -> Part000.formMode m = false ->
  Part000.Update m msg = Ok (m', c) -> invokesRunner c = true ->
  exists k : Key,
    msg = KeyMsg k
    /\ ((Part000.cmdMode m = true /\ keyString k = "enter"
         /\ c = Part000.runCommandCmd
                  ("devtunnel" :: Fields (Value (Part000.cmdInput m))))
        \/ (Part000.cmdMode m = false /\ Part000.filterMode m = false
            /\ keyString k = "r"
            /\ c = Part000.runCommandCmd (Part000.lastCmd m))).
Proof.
  intros Hfound Hform Hup Hc. destruct m. cbn in Hfound, Hform. subst.
  unfold Part000.Update, Part000.updateForm, Part000.updateCmdMode,
    Part000.updateFilterMode, Part000.runSelected, Part000.clearForm,
    Part000.moveUp, Part000.moveDown, Part000.keyIs in Hup.
  rewrite ?visibleCommands_for in Hup.
  pcbn Hup. destruct msg; pcbn Hup.
  all: psplit Hup.
  all: try discriminate.
  all: injection Hup as <- <-.
  all: try (rewrite invokes_widget in Hc).
  all: try discriminate.
  all: eexists; (split; [reflexivity |]); cbn -[Part000.runCommandCmd Fields TrimSpace].
  all: repeat match goal with
       | H : (_ == _) = true |- _ => apply String.eqb_eq in H
       end.
  - left. rewrite Fields_TrimSpace. auto.
  - right. auto.
Qed.

(** X29: what [src/unnamed/part_000] still starts on a machine without the
    tool.  In every reachable state the tool-availability flag is false and
    no form is open, so Enter on a command starts nothing; a message makes
    [Update] start a child process only when it is Enter on the raw command
    line, which starts "devtunnel" followed by the tokens of the line, or
    the rerun key "r" with no field open, which starts the last command
    again.  These two are the whole of the unguarded dispatch. *)
Theorem Part000_dispatch_without_tool_is_raw (B : Bubbles) (w : World)
  (s : loopState Part000.model) (msg : Msg) (m' : Part000.model) (c : Cmd) :
  lookPath w "devtunnel" = false ->
  Part000_reachable w s ->
  Part000.Update (cur s) msg = Ok (m', c) ->
  Part000.devtunnelFound (cur s) = false
  /\ Part000.formMode (cur s) = false
  /\ (invokesRunner c = true ->
      exists k : Key,
        msg = KeyMsg k
        /\ ((Part000.cmdMode (cur s) = true /\ keyString k = "enter"
             /\ c = Part000.runCommandCmd
                      ("devtunnel" :: Fields (Value (Part000.cmdInput (cur s)))))
            \/ (Part000.cmdMode (cur s) = false
                /\ Part000.filterMode (cur s) = false
                /\ keyString k = "r"
                /\ c = Part000.runCommandCmd (Part000.lastCmd (cur s))))).
Proof.
  intros Hw [es Hes] Hup.
  assert (Hinv : Part000_toolInv w (cur s)).
  { refine (proj1 (replay_truthful Part000.Update w (Part000_toolInv w)
                     (fun m msg0 m1 c1 => Part000_update_tool B w m m1 msg0 c1)
                     es _ s _ _ Hes)).
    - split; [intros _; split; reflexivity | left; reflexivity].
    - unfold Part000.Init, Part000.checkBinaryCmd. simpl. rewrite Hw.
      repeat constructor. simpl. rewrite Hw. reflexivity. }
  destruct (proj1 Hinv Hw) as [Hfound Hform].
  split; [exact Hfound |]. split; [exact Hform |].
  exact (Part000_dispatch_without_tool B (cur s) m' msg c Hfound Hform Hup).
Qed.

Lemma Part000_dispatch_without_tool_is_raw_witness :
  lookPath worldWithout "devtunnel" = false
  /\ @Part000_reachable plainWidgets worldWithout
       (Part000_after worldWithout rawListKeys)
  /\ Part000.formMode (cur (Part000_after worldWithout rawListKeys)) = false
  /\ Part000.cmdMode (cur (Part000_after worldWithout rawListKeys)) = true.
Proof.
  assert (H : @Part000_reachable plainWidgets worldWithout
                (Part000_after worldWithout rawListKeys))
    by (exists rawListKeys; vm_compute; reflexivity).
  split; [reflexivity |]. split; [exact H |].
  split; [| vm_compute; reflexivity].
  refine (proj1 (proj2 (Part000_dispatch_without_tool_is_raw plainWidgets
                          worldWithout (Part000_after worldWithout rawListKeys)
                          (KeyMsg (pressed KeyEnter)) _ _ eq_refl H _))).
  vm_compute. reflexivity.
Defined.

(** ** The probe *)

(** X30: the probe of the search path, from [checkBinaryCmd] to the model.
    In both programs, on any machine and in any model, the one message of
    the probe sets the tool-availability flag to what the search path says
    and the status to "ready" or to the not-found text ([src/unnamed/part_000]
    also sets the error flag of the status); nothing else of the model
    changes, neither the last output nor the viewport nor the running flag,
    and no command is handed to the runtime. *)
Theorem probe_outcome (B : Bubbles) (w : World) :
  let found := lookPath w "devtunnel" in
  (forall p : Part000.model,
      feed Part000.model Part000.Update p
        (List.concat (queues w Part000.checkBinaryCmd))
      = Ok (Part000.set_statusText
              (if found then "ready" else "devtunnel not found in PATH")
              (Part000.set_statusErr (negb found)
                 (Part000.set_devtunnelFound found p)),
            [CmdNil]))
  /\ (forall m : MainGo.model,
         feed MainGo.model MainGo.Update m
           (List.concat (queues w MainGo.checkBinaryCmd))
         = Ok (MainGo.set_status
                 (if found then "ready" else "devtunnel not found in PATH")
                 (MainGo.set_devtunnelFound found m),
               [CmdNil])).
Proof.
  cbv zeta. split.
  - intros p. unfold Part000.checkBinaryCmd. simpl queues. simpl List.concat.
    destruct (lookPath w "devtunnel"); reflexivity.
  - intros m. unfold MainGo.checkBinaryCmd. simpl queues. simpl List.concat.
    destruct (lookPath w "devtunnel"); reflexivity.
Qed.
